(** * RBDtector annotation converters: a shallow embedding

    The development follows the Python sources under [code/]:
    - [convert_edf_annotations.py]   (module [EdfAnnotations])
    - [convert_excel_annotations.py] (module [ExcelAnnotations])
    - [detect_edf_format.py]         (module [DetectFormat])
    - [convert_standard_to_edfplus.py] (module [StandardToEdfplus])
    - [auto_convert.py]              (module [AutoConvert])

    Library behaviour the scripts rely on (Python [str], [datetime],
    [pathlib]) is modelled in the modules [PyStr], [PyDatetime] and
    [PyPath].  Characters are modelled by [ascii]; case mapping and the
    whitespace class are Python's on the ASCII range. *)

From Stdlib Require Import ZArith List String Ascii Bool Lia Permutation.
From Stdlib Require Import DecimalString.
Import ListNotations.

Open Scope string_scope.
Open Scope Z_scope.

(* ================================================================== *)
(** ** Python [str] operations used by the scripts *)
(* ================================================================== *)

Module PyStr.

(** [s.startswith(p)] *)
Fixpoint startswith (p s : string) : bool :=
  match p, s with
  | EmptyString, _ => true
  | String a p', String b s' => Ascii.eqb a b && startswith p' s'
  | String _ _, EmptyString => false
  end.

(** [sub in s] *)
Fixpoint contains (sub s : string) : bool :=
  startswith sub s ||
  match s with
  | EmptyString => false
  | String _ s' => contains sub s'
  end.

Definition lower_char (c : ascii) : ascii :=
  let n := nat_of_ascii c in
  if (Nat.leb 65 n && Nat.leb n 90)%bool then ascii_of_nat (n + 32) else c.

(** [s.lower()] *)
Fixpoint lower (s : string) : string :=
  match s with
  | EmptyString => EmptyString
  | String c s' => String (lower_char c) (lower s')
  end.

(** [c.isspace()] on the ASCII range: TAB..CR, FS..US and the space. *)
Definition is_space (c : ascii) : bool :=
  let n := nat_of_ascii c in
  ((Nat.leb 9 n && Nat.leb n 13) || (Nat.leb 28 n && Nat.leb n 32))%bool.

Fixpoint lstrip (s : string) : string :=
  match s with
  | String c s' => if is_space c then lstrip s' else s
  | EmptyString => EmptyString
  end.

Fixpoint rstrip (s : string) : string :=
  match s with
  | EmptyString => EmptyString
  | String c s' =>
      match rstrip s' with
      | EmptyString => if is_space c then EmptyString else String c EmptyString
      | r => String c r
      end
  end.

(** [s.strip()] *)
Definition strip (s : string) : string := rstrip (lstrip s).

(** [s[n:]] for [0 <= n] *)
Fixpoint drop (n : nat) (s : string) : string :=
  match n, s with
  | O, _ => s
  | S n', String _ s' => drop n' s'
  | S _, EmptyString => EmptyString
  end.

(** [s[:n]] for [0 <= n] *)
Fixpoint take (n : nat) (s : string) : string :=
  match n, s with
  | O, _ => EmptyString
  | S n', String c s' => String c (take n' s')
  | S _, EmptyString => EmptyString
  end.

(** [s.replace(old, new)] for a non-empty [old]: occurrences are replaced
    left to right without overlap.  [fuel] bounds the scan by the length
    of the subject. *)
Fixpoint replace_aux (fuel : nat) (old new s : string) : string :=
  match fuel with
  | O => s
  | S fuel' =>
      match s with
      | EmptyString => EmptyString
      | String c s' =>
          if startswith old s
          then new ++ replace_aux fuel' old new (drop (String.length old) s)
          else String c (replace_aux fuel' old new s')
      end
  end.

Definition replace (old new s : string) : string :=
  replace_aux (String.length s) old new s.

(** [s.split(sep)] for a non-empty [sep]. *)
Fixpoint split_aux (fuel : nat) (sep cur s : string) : list string :=
  match fuel with
  | O => [cur ++ s]
  | S fuel' =>
      match s with
      | EmptyString => [cur]
      | String c s' =>
          if startswith sep s
          then cur :: split_aux fuel' sep EmptyString (drop (String.length sep) s)
          else split_aux fuel' sep (cur ++ String c EmptyString) s'
      end
  end.

Definition split (sep s : string) : list string :=
  split_aux (String.length s) sep EmptyString s.

Definition is_digit (c : ascii) : bool :=
  let n := nat_of_ascii c in (Nat.leb 48 n && Nat.leb n 57)%bool.

Definition digit_val (c : ascii) : Z := Z.of_nat (nat_of_ascii c) - 48.

(** The digits part of an integer literal: digit groups separated by
    single underscores, accumulated in base ten.  [prev_digit] records
    whether the previous character was a digit. *)
Fixpoint int_digits (s : string) (prev_digit : bool) (acc : Z) : option Z :=
  match s with
  | EmptyString => if prev_digit then Some acc else None
  | String c s' =>
      if is_digit c then int_digits s' true (10 * acc + digit_val c)
      else if Ascii.eqb c "_"%char
           then (if prev_digit then int_digits s' false acc else None)
           else None
  end.

(** [int(s)]: surrounding whitespace is stripped, an optional sign is
    read, then the digits.  [None] stands for [ValueError]. *)
Definition int (s : string) : option Z :=
  match strip s with
  | String "-" d => option_map Z.opp (int_digits d false 0)
  | String "+" d => int_digits d false 0
  | d => int_digits d false 0
  end.

(** [str(n)] for an integer. *)
Definition of_Z (n : Z) : string := NilZero.string_of_int (Z.to_int n).

Definition digit_char (d : Z) : ascii := ascii_of_nat (Z.to_nat (48 + d mod 10)).

(** ["%02d"] and ["%06d"] on a non-negative field. *)
Definition pad2 (n : Z) : string :=
  String (digit_char (n / 10)) (String (digit_char n) EmptyString).

Definition pad6 (n : Z) : string :=
  String (digit_char (n / 100000)) (String (digit_char (n / 10000))
    (String (digit_char (n / 1000)) (String (digit_char (n / 100))
      (String (digit_char (n / 10)) (String (digit_char n) EmptyString))))).

(** [s.endswith(sfx)] *)
Definition endswith (sfx s : string) : bool :=
  (Nat.leb (String.length sfx) (String.length s) &&
   String.eqb (drop (String.length s - String.length sfx) s) sfx)%bool.

(** [s.isdigit()] *)
Definition isdigit (s : string) : bool :=
  negb (String.eqb s "") &&
  (fix all (s : string) : bool :=
     match s with
     | EmptyString => true
     | String c s' => is_digit c && all s'
     end) s.

(** [b.decode('ascii', errors='ignore')]: bytes above 127 are dropped. *)
Fixpoint decode_ascii_ignore (s : string) : string :=
  match s with
  | EmptyString => EmptyString
  | String c s' =>
      if Nat.ltb (nat_of_ascii c) 128
      then String c (decode_ascii_ignore s') else decode_ascii_ignore s'
  end.

(** The text before the first occurrence of a character, and the text
    after it when there is one: [s.partition(c)]. *)
Fixpoint before (c : ascii) (s : string) : string :=
  match s with
  | EmptyString => EmptyString
  | String x s' => if Ascii.eqb c x then EmptyString else String x (before c s')
  end.

Fixpoint after (c : ascii) (s : string) : option string :=
  match s with
  | EmptyString => None
  | String x s' => if Ascii.eqb c x then Some s' else after c s'
  end.

(** Every character of [s] passes the test [p]. *)
Fixpoint all_chars (p : ascii -> bool) (s : string) : bool :=
  match s with
  | EmptyString => true
  | String x s' => p x && all_chars p s'
  end.

Definition join_lines (ls : list string) : string :=
  fold_right (fun l acc => l ++ acc) EmptyString ls.

End PyStr.

(* ================================================================== *)
(** ** Python [datetime] and [timedelta] *)
(* ================================================================== *)

Module PyDatetime.

(** A naive [datetime.datetime]; the fields are those of the Python
    object. *)
Record datetime := mkDatetime {
  year : Z; month : Z; day : Z;
  hour : Z; minute : Z; second : Z; microsecond : Z
}.

(** A [datetime.timedelta], held as its total number of microseconds. *)
Definition timedelta := Z.

Definition MINYEAR := 1.
Definition MAXYEAR := 9999.
Definition MAXORDINAL := 3652059.

Definition is_leap (y : Z) : bool :=
  (y mod 4 =? 0) && (negb (y mod 100 =? 0) || (y mod 400 =? 0)).

Definition days_before_year (y : Z) : Z :=
  let y := y - 1 in y * 365 + y / 4 - y / 100 + y / 400.

Definition DAYS_IN_MONTH (m : Z) : Z :=
  match m with
  | 1 => 31 | 2 => 28 | 3 => 31 | 4 => 30 | 5 => 31 | 6 => 30
  | 7 => 31 | 8 => 31 | 9 => 30 | 10 => 31 | 11 => 30 | 12 => 31
  | _ => -1
  end.

Definition DAYS_BEFORE_MONTH (m : Z) : Z :=
  match m with
  | 1 => 0 | 2 => 31 | 3 => 59 | 4 => 90 | 5 => 120 | 6 => 151
  | 7 => 181 | 8 => 212 | 9 => 243 | 10 => 273 | 11 => 304 | 12 => 334
  | _ => -1
  end.

Definition days_in_month (y m : Z) : Z :=
  if (m =? 2) && is_leap y then 29 else DAYS_IN_MONTH m.

Definition days_before_month (y m : Z) : Z :=
  DAYS_BEFORE_MONTH m + (if (2 <? m) && is_leap y then 1 else 0).

Definition ymd2ord (y m d : Z) : Z :=
  days_before_year y + days_before_month y m + d.

Definition DI400Y := 146097.
Definition DI100Y := 36524.
Definition DI4Y := 1461.

Definition ord2ymd (n : Z) : Z * Z * Z :=
  let n := n - 1 in
  let n400 := n / DI400Y in let n := n mod DI400Y in
  let y := n400 * 400 + 1 in
  let n100 := n / DI100Y in let n := n mod DI100Y in
  let n4 := n / DI4Y in let n := n mod DI4Y in
  let n1 := n / 365 in let n := n mod 365 in
  let y := y + n100 * 100 + n4 * 4 + n1 in
  if (n1 =? 4) || (n100 =? 4) then (y - 1, 12, 31)
  else
    let leapyear := (n1 =? 3) && (negb (n4 =? 24) || (n100 =? 3)) in
    let m := Z.shiftr (n + 50) 5 in
    let preceding := DAYS_BEFORE_MONTH m + (if (2 <? m) && leapyear then 1 else 0) in
    if n <? preceding
    then
      let m' := m - 1 in
      let preceding' :=
        preceding - (DAYS_IN_MONTH m' + (if (m' =? 2) && leapyear then 1 else 0)) in
      (y, m', n - preceding' + 1)
    else (y, m, n - preceding + 1).

Definition check_date_fields (y m d : Z) : bool :=
  (MINYEAR <=? y) && (y <=? MAXYEAR) && (1 <=? m) && (m <=? 12) &&
  (1 <=? d) && (d <=? days_in_month y m).

Definition check_time_fields (h mi s us : Z) : bool :=
  (0 <=? h) && (h <=? 23) && (0 <=? mi) && (mi <=? 59) &&
  (0 <=? s) && (s <=? 59) && (0 <=? us) && (us <=? 999999).

(** [datetime.datetime(y, m, d, h, mi, s, us)]; [None] is [ValueError]. *)
Definition make (y m d h mi s us : Z) : option datetime :=
  if check_date_fields y m d && check_time_fields h mi s us
  then Some (mkDatetime y m d h mi s us) else None.

Definition valid (t : datetime) : Prop :=
  check_date_fields (year t) (month t) (day t) = true /\
  check_time_fields (hour t) (minute t) (second t) (microsecond t) = true.

Definition toordinal (t : datetime) : Z := ymd2ord (year t) (month t) (day t).

Definition US_PER_SECOND := 1000000.
Definition US_PER_DAY := 86400 * US_PER_SECOND.

(** Microseconds since the start of ordinal day 0. *)
Definition to_us (t : datetime) : Z :=
  toordinal t * US_PER_DAY
  + (hour t * 3600 + minute t * 60 + second t) * US_PER_SECOND
  + microsecond t.

(** [t + delta]; [None] is [OverflowError]. *)
Definition add (t : datetime) (delta : timedelta) : option datetime :=
  let total := to_us t + delta in
  let days := total / US_PER_DAY in
  let rest := total mod US_PER_DAY in
  let seconds := rest / US_PER_SECOND in
  let us := rest mod US_PER_SECOND in
  let h := seconds / 3600 in
  let rem := seconds mod 3600 in
  let mi := rem / 60 in
  let s := rem mod 60 in
  if (0 <? days) && (days <=? MAXORDINAL)
  then let '(y, m, d) := ord2ymd days in Some (mkDatetime y m d h mi s us)
  else None.

(** [a - b] for two datetimes, as a timedelta. *)
Definition sub (a b : datetime) : timedelta := to_us a - to_us b.

(** [int(delta.total_seconds())]: truncation towards zero. *)
Definition int_total_seconds (delta : timedelta) : Z := Z.quot delta US_PER_SECOND.

(** [t.replace(microsecond=0)] *)
Definition replace_microsecond0 (t : datetime) : datetime :=
  mkDatetime (year t) (month t) (day t) (hour t) (minute t) (second t) 0.

(** The tuple comparison behind [a < b]. *)
Definition ltb (a b : datetime) : bool :=
  let cmp := [ (year a, year b); (month a, month b); (day a, day b);
               (hour a, hour b); (minute a, minute b); (second a, second b);
               (microsecond a, microsecond b) ] in
  (fix go (l : list (Z * Z)) : bool :=
     match l with
     | [] => false
     | (x, y) :: l' => (x <? y) || ((x =? y) && go l')
     end) cmp.

(** The microseconds since midnight of a time of day. *)
Definition us_of_day (h mi s us : Z) : Z :=
  ((h * 60 + mi) * 60 + s) * US_PER_SECOND + us.

(** [t.strftime('%H:%M:%S,%f')] *)
Definition strftime_HMSf (t : datetime) : string :=
  PyStr.pad2 (hour t) ++ ":" ++ PyStr.pad2 (minute t) ++ ":" ++
  PyStr.pad2 (second t) ++ "," ++ PyStr.pad6 (microsecond t).

(** [t.strftime('%d.%m.%Y %H:%M:%S')]; the year is printed without
    padding, as the C library does on Linux. *)
Definition strftime_dmYHMS (t : datetime) : string :=
  PyStr.pad2 (day t) ++ "." ++ PyStr.pad2 (month t) ++ "." ++
  PyStr.of_Z (year t) ++ " " ++
  PyStr.pad2 (hour t) ++ ":" ++ PyStr.pad2 (minute t) ++ ":" ++
  PyStr.pad2 (second t).

End PyDatetime.

(* ================================================================== *)
(** ** Exceptions *)
(* ================================================================== *)

(** A Python exception is kept as its message [str(e)]. *)
Definition exn := string.

Inductive result (A : Type) : Type :=
| Ok (a : A)
| Raise (e : exn).
Arguments Ok {A} a.
Arguments Raise {A} e.

Definition bind {A B : Type} (r : result A) (k : A -> result B) : result B :=
  match r with
  | Ok a => k a
  | Raise e => Raise e
  end.

Notation "x <- r ;; k" := (bind r (fun x => k))
  (at level 61, r at next level, right associativity).

Definition of_option {A : Type} (o : option A) (e : exn) : result A :=
  match o with
  | Some a => Ok a
  | None => Raise e
  end.

(** [[f(x) for x in xs]] with an [f] that may raise. *)
Fixpoint map_result {A B : Type} (f : A -> result B) (xs : list A) : result (list B) :=
  match xs with
  | [] => Ok []
  | x :: rest =>
      bind (f x) (fun y => bind (map_result f rest) (fun ys => Ok (y :: ys)))
  end.

(** [range(n)] *)
Definition range (n : Z) : list Z := map Z.of_nat (seq 0 (Z.to_nat n)).

(* ================================================================== *)
(** ** Paths: [pathlib.PurePosixPath] and [os.path] *)
(* ================================================================== *)

Module PyPath.

(** A parsed path: its root (empty, one slash or two) and its parts
    without the root. *)
Record t := mk { root : string; parts : list string }.

Fixpoint leading_slashes (s : string) : nat :=
  match s with
  | String "/" s' => S (leading_slashes s')
  | _ => O
  end.

Definition keep_part (c : string) : bool :=
  negb (String.eqb c "" || String.eqb c ".").

(** [Path(s)]: separators collapse and [.] components vanish; [..] stays. *)
Definition of_string (s : string) : t :=
  let r := match leading_slashes s with
           | O => ""
           | 2%nat => "//"
           | _ => "/"
           end in
  mk r (filter keep_part (PyStr.split "/" s)).

Fixpoint join_parts (ps : list string) : string :=
  match ps with
  | [] => ""
  | [p] => p
  | p :: ps' => p ++ "/" ++ join_parts ps'
  end.

(** [str(p)] *)
Definition to_string (p : t) : string :=
  match root p, parts p with
  | "", [] => "."
  | r, ps => r ++ join_parts ps
  end.

(** [p.name] *)
Definition name (p : t) : string := last (parts p) "".

(** [s.rfind('.')] *)
Fixpoint rfind_dot (s : string) : option nat :=
  match s with
  | EmptyString => None
  | String c s' =>
      match rfind_dot s' with
      | Some i => Some (S i)
      | None => if Ascii.eqb c "."%char then Some O else None
      end
  end.

(** The index at which the suffix starts, when [0 < i < len(name) - 1]. *)
Definition suffix_index (nm : string) : option nat :=
  match rfind_dot nm with
  | Some i => if (Nat.ltb 0 i && Nat.ltb (S i) (String.length nm))%bool
              then Some i else None
  | None => None
  end.

(** [p.suffix] *)
Definition suffix (p : t) : string :=
  match suffix_index (name p) with
  | Some i => PyStr.drop i (name p)
  | None => ""
  end.

(** [p.stem] *)
Definition stem (p : t) : string :=
  match suffix_index (name p) with
  | Some i => PyStr.take i (name p)
  | None => name p
  end.

(** [p.parent] *)
Definition parent (p : t) : t := mk (root p) (removelast (parts p)).

(** [p / child] for a relative one-component [child]. *)
Definition child (p : t) (c : string) : t := mk (root p) (parts p ++ [c]).

(** [p.with_suffix(sfx)] for a well-formed [sfx]; an empty name raises
    [ValueError]. *)
Definition with_suffix (p : t) (sfx : string) : result t :=
  if String.eqb (name p) ""
  then Raise ("PosixPath('" ++ to_string p ++ "') has an empty name")
  else Ok (mk (root p) (removelast (parts p) ++ [stem p ++ sfx])).

(** [os.path.basename], [os.path.dirname]: split at the last slash. *)
Fixpoint rsplit_slash (s : string) : option (string * string) :=
  match s with
  | EmptyString => None
  | String c s' =>
      match rsplit_slash s' with
      | Some (h, tl) => Some (String c h, tl)
      | None => if Ascii.eqb c "/"%char then Some ("", s') else None
      end
  end.

Definition basename (s : string) : string :=
  match rsplit_slash s with
  | Some (_, tl) => tl
  | None => s
  end.

Fixpoint all_slashes (s : string) : bool :=
  match s with
  | EmptyString => true
  | String c s' => Ascii.eqb c "/"%char && all_slashes s'
  end.

Fixpoint rstrip_slashes (s : string) : string :=
  match s with
  | EmptyString => EmptyString
  | String c s' =>
      match rstrip_slashes s' with
      | EmptyString => if Ascii.eqb c "/"%char then EmptyString else String c EmptyString
      | r => String c r
      end
  end.

Definition dirname (s : string) : string :=
  match rsplit_slash s with
  | Some (h, _) =>
      let head := h ++ "/" in
      if all_slashes head then head else rstrip_slashes head
  | None => ""
  end.

(** [os.path.splitext(name)[0]] on a name without slashes: the extension
    starts at the last dot unless only dots precede it. *)
Fixpoint all_dots (s : string) : bool :=
  match s with
  | EmptyString => true
  | String c s' => Ascii.eqb c "."%char && all_dots s'
  end.

Definition splitext_root (nm : string) : string :=
  match rfind_dot nm with
  | Some i => if all_dots (PyStr.take i nm) then nm else PyStr.take i nm
  | None => nm
  end.

(** [os.path.join(a, b)] for a relative [b]. *)
Definition join (a b : string) : string :=
  if String.eqb a "" then b
  else if PyStr.startswith "/" (PyStr.drop (String.length a - 1) a) then a ++ b
  else a ++ "/" ++ b.

End PyPath.

(* ================================================================== *)
(** ** The file system *)
(* ================================================================== *)

Module Disk.

#[local] Set Warnings "-register-all".

Inductive node :=
| File (content : string)
| Dir (entries : list (string * node)).

Fixpoint find_entry (c : string) (es : list (string * node)) : option node :=
  match es with
  | [] => None
  | (k, n) :: es' => if String.eqb k c then Some n else find_entry c es'
  end.

(** Resolve the components of a path from [cur]; [anc] holds the chain
    of parent directories up to the root. *)
Fixpoint walk (anc : list node) (cur : node) (p : list string) : option node :=
  match p with
  | [] => Some cur
  | c :: p' =>
      match cur with
      | File _ => None
      | Dir es =>
          if (String.eqb c "" || String.eqb c ".")%bool then walk anc cur p'
          else if String.eqb c ".." then
            match anc with
            | [] => walk [] cur p'
            | a :: anc' => walk anc' a p'
            end
          else
            match find_entry c es with
            | Some n => walk (cur :: anc) n p'
            | None => None
            end
      end
  end.

(** The working directory is the root of the modelled tree. *)
Definition lookup (d : node) (path : string) : option node :=
  if String.eqb path "" then None else walk [] d (PyStr.split "/" path).

Definition exists_ (d : node) (path : string) : bool :=
  match lookup d path with Some _ => true | None => false end.

Definition is_dir (d : node) (path : string) : bool :=
  match lookup d path with Some (Dir _) => true | _ => false end.

Definition is_file (d : node) (path : string) : bool :=
  match lookup d path with Some (File _) => true | _ => false end.

(** [open(path, 'rb').read()] *)
Definition read (d : node) (path : string) : result string :=
  match lookup d path with
  | Some (File c) => Ok c
  | Some (Dir _) => Raise ("[Errno 21] Is a directory: '" ++ path ++ "'")
  | None => Raise ("[Errno 2] No such file or directory: '" ++ path ++ "'")
  end.

Fixpoint set_entry (c : string) (n : node) (es : list (string * node))
  : list (string * node) :=
  match es with
  | [] => [(c, n)]
  | (k, m) :: es' => if String.eqb k c then (k, n) :: es' else (k, m) :: set_entry c n es'
  end.

(** Create or truncate the regular file named by the components [p]
    below [cur]; [None] when a directory on the way is missing or the
    target is a directory. *)
Fixpoint put (cur : node) (p : list string) (content : string) : option node :=
  match cur, p with
  | Dir es, [c] =>
      match find_entry c es with
      | Some (Dir _) => None
      | _ => Some (Dir (set_entry c (File content) es))
      end
  | Dir es, c :: p' =>
      match find_entry c es with
      | Some n =>
          match put n p' content with
          | Some n' => Some (Dir (set_entry c n' es))
          | None => None
          end
      | None => None
      end
  | _, _ => None
  end.

(** [open(path, 'w').write(content)] for a normalised [path]. *)
Definition write (d : node) (path : string) (content : string) : result node :=
  of_option (put d (PyPath.parts (PyPath.of_string path)) content)
            ("[Errno 2] No such file or directory: '" ++ path ++ "'").

End Disk.

Import PyDatetime.

(* ================================================================== *)
(** ** Scripts: state (disk and console) with exceptions *)
(* ================================================================== *)

(** The disk, the lines printed so far, and the command lines handed to
    [subprocess.run] so far. *)
Record state := mkState {
  disk : Disk.node;
  stdout : list string;
  launched : list (list string)
}.

(** A computation that may raise; effects made before the exception stay. *)
Definition M (A : Type) : Type := state -> result A * state.

Definition ret {A : Type} (a : A) : M A := fun st => (Ok a, st).

Definition raise {A : Type} (e : exn) : M A := fun st => (Raise e, st).

Definition mbind {A B : Type} (m : M A) (k : A -> M B) : M B :=
  fun st =>
    match m st with
    | (Ok a, st') => k a st'
    | (Raise e, st') => (Raise e, st')
    end.

Notation "x <~ m ;; k" := (mbind m (fun x => k))
  (at level 61, m at next level, right associativity).
Notation "' p <~ m ;; k" := (mbind m (fun x => match x with p => k end))
  (at level 61, p pattern, m at next level, right associativity).
Notation "m ;;; k" := (mbind m (fun _ => k))
  (at level 61, right associativity).

Definition lift {A : Type} (r : result A) : M A := fun st => (r, st).

(** [try: m  except Exception as e: h e] *)
Definition try_except {A : Type} (m : M A) (h : exn -> M A) : M A :=
  fun st =>
    match m st with
    | (Ok a, st') => (Ok a, st')
    | (Raise e, st') => h e st'
    end.

Definition print (line : string) : M unit :=
  fun st => (Ok tt, mkState (disk st) (stdout st ++ [line]) (launched st)).

Definition get_disk : M Disk.node := fun st => (Ok (disk st), st).

(** [with open(path, 'w') as f: f.write(content)] *)
Definition write_file (path content : string) : M unit :=
  fun st =>
    match Disk.write (disk st) path content with
    | Ok d' => (Ok tt, mkState d' (stdout st) (launched st))
    | Raise e => (Raise e, st)
    end.

Definition nl : string := String (ascii_of_nat 10) EmptyString.

(* ================================================================== *)
(** ** The structured reader ([pyedflib.EdfReader]) *)
(* ================================================================== *)

Module Pyedflib.

(** One entry of [readAnnotations()].  Onset and duration are held as
    the [timedelta] that [datetime.timedelta(seconds=...)] builds from
    the float, that is in whole microseconds. *)
Record annotation := mkAnnotation {
  onset_sec : timedelta;
  duration_sec : timedelta;
  text : string
}.

(** What the scripts ask of an open reader. *)
Record reader := mkReader {
  filetype : Z;
  signals_in_file : Z;
  annotations_in_file : Z;
  getLabel : Z -> result string;
  getSampleFrequency : Z -> result Z;
  getStartdatetime : datetime;
  readAnnotations : result (list annotation)
}.

End Pyedflib.

(* ================================================================== *)
(** ** [convert_edf_annotations.py] *)
(* ================================================================== *)

Module EdfAnnotations.

Import Pyedflib.

Record event_data := mkEvent {
  onset_dt : datetime;
  onset_dt_full : datetime;
  end_dt : datetime;
  end_dt_full : datetime;
  event_text : string
}.

Record categories := mkCategories {
  sleep_stages : list event_data;
  arousals : list event_data;
  flow_events : list event_data
}.

Definition overflow : exn := "date value out of range".

(** Lines 30-48: the event record of one annotation. *)
Definition make_event (start_datetime : datetime) (a : annotation)
  : result event_data :=
  bind (of_option (add start_datetime (onset_sec a)) overflow) (fun onset_full =>
  bind (of_option (add onset_full (duration_sec a)) overflow) (fun end_full =>
  Ok (mkEvent (replace_microsecond0 onset_full) onset_full
              (replace_microsecond0 end_full) end_full (text a)))).

Definition flow_keywords : list string := ["Apnea"; "Hyp"; "Desat"].

Definition is_sleep_stage (t : string) : bool := PyStr.contains "Sleep stage" t.
Definition is_arousal (t : string) : bool := PyStr.contains "arousal" (PyStr.lower t).
Definition is_flow (t : string) : bool :=
  existsb (fun keyword => PyStr.contains keyword t) flow_keywords.

(** Lines 50-55: the [if]/[elif] chain appending to one of the lists. *)
Definition categorize_one (acc : categories) (ev : event_data) : categories :=
  if is_sleep_stage (event_text ev) then
    mkCategories (sleep_stages acc ++ [ev]) (arousals acc) (flow_events acc)
  else if is_arousal (event_text ev) then
    mkCategories (sleep_stages acc) (arousals acc ++ [ev]) (flow_events acc)
  else if is_flow (event_text ev) then
    mkCategories (sleep_stages acc) (arousals acc) (flow_events acc ++ [ev])
  else acc.

(** The four classes of the categorisation as tests on an event: the
    rules in the order of the chain, each excluding the earlier ones. *)
Definition rule_sleep_stage (ev : event_data) : bool :=
  is_sleep_stage (event_text ev).
Definition rule_arousal (ev : event_data) : bool :=
  negb (is_sleep_stage (event_text ev)) && is_arousal (event_text ev).
Definition rule_flow_event (ev : event_data) : bool :=
  negb (is_sleep_stage (event_text ev)) && negb (is_arousal (event_text ev))
  && is_flow (event_text ev).

(** The event records of all annotations, in order. *)
Definition events_of (start_datetime : datetime) (anns : list annotation)
  : result (list event_data) :=
  map_result (make_event start_datetime) anns.

(** Lines 29-55: the loop over the annotations. *)
Fixpoint categorize_loop (start_datetime : datetime) (acc : categories)
         (anns : list annotation) : result categories :=
  match anns with
  | [] => Ok acc
  | a :: rest =>
      bind (make_event start_datetime a) (fun ev =>
      categorize_loop start_datetime (categorize_one acc ev) rest)
  end.

Definition categorize (start_datetime : datetime) (anns : list annotation)
  : result categories :=
  categorize_loop start_datetime (mkCategories [] [] []) anns.

(** Lines 62-75: the start time written to the three files. *)
Definition effective_start_of (start_datetime : datetime)
           (stages : list event_data) : datetime :=
  let effective_start :=
    match stages with
    | first :: _ => onset_dt first
    | [] => start_datetime
    end in
  replace_microsecond0 effective_start.

Definition sleep_profile_line (event : event_data) : string :=
  let time_str := strftime_HMSf (onset_dt_full event) in
  let stage := PyStr.strip (PyStr.replace "Sleep stage " "" (event_text event)) in
  let stage := if String.eqb stage "R" then "REM" else stage in
  time_str ++ "; " ++ stage ++ nl.

Definition sleep_profile_text (start_dt : datetime) (events : list event_data) : string :=
  "Start Time: " ++ strftime_dmYHMS start_dt ++ nl ++
  "Version: 1.0" ++ nl ++ nl ++
  PyStr.join_lines (map sleep_profile_line events).

(** The line of [write_arousals] and of [write_flow_events]. *)
Definition impulse_line (event : event_data) : string :=
  let onset_str := strftime_HMSf (onset_dt_full event) in
  let end_str := strftime_HMSf (end_dt_full event) in
  let duration := int_total_seconds (sub (end_dt_full event) (onset_dt_full event)) in
  let event_name := event_text event in
  onset_str ++ "-" ++ end_str ++ "; " ++ PyStr.of_Z duration ++ ";" ++ event_name ++ nl.

Definition impulse_text (signal_id : string) (start_dt : datetime)
           (events : list event_data) : string :=
  "Signal ID: " ++ signal_id ++ nl ++
  "Start Time: " ++ strftime_dmYHMS start_dt ++ nl ++
  "Unit: s" ++ nl ++
  "Signal Type: Impuls" ++ nl ++ nl ++
  PyStr.join_lines (map impulse_line events).

Definition write_sleep_profile (output_dir base_filename : string)
           (start_dt : datetime) (events : list event_data) : M unit :=
  let filename := PyPath.join output_dir (base_filename ++ " Sleep profile.txt") in
  write_file filename (sleep_profile_text start_dt events) ;;;
  print ("Created: " ++ filename).

Definition write_arousals (output_dir base_filename : string)
           (start_dt : datetime) (events : list event_data) : M unit :=
  let filename := PyPath.join output_dir (base_filename ++ " Classification Arousals.txt") in
  write_file filename (impulse_text "Arousals" start_dt events) ;;;
  print ("Created: " ++ filename).

Definition write_flow_events (output_dir base_filename : string)
           (start_dt : datetime) (events : list event_data) : M unit :=
  let filename := PyPath.join output_dir (base_filename ++ " Flow Events.txt") in
  write_file filename (impulse_text "FlowEvents" start_dt events) ;;;
  print ("Created: " ++ filename).

Definition pad4 (n : Z) : string :=
  String (PyStr.digit_char (n / 1000)) (String (PyStr.digit_char (n / 100))
    (String (PyStr.digit_char (n / 10)) (String (PyStr.digit_char n) EmptyString))).

(** [str(t)] for a datetime. *)
Definition str_datetime (t : datetime) : string :=
  pad4 (year t) ++ "-" ++ PyStr.pad2 (month t) ++ "-" ++ PyStr.pad2 (day t) ++ " " ++
  PyStr.pad2 (hour t) ++ ":" ++ PyStr.pad2 (minute t) ++ ":" ++ PyStr.pad2 (second t) ++
  (if microsecond t =? 0 then "" else "." ++ PyStr.pad6 (microsecond t)).

Section Script.

(** [pyedflib.EdfReader] as a function of the file's bytes. *)
Variable EdfReader : string -> result reader.

Definition open_reader (edf_path : string) : M reader :=
  d <~ get_disk ;;
  lift (bind (Disk.read d edf_path) EdfReader).

(** Lines 14-83: the body of the [try]. *)
Definition convert_body (edf_path : string) : M unit :=
  f <~ open_reader edf_path ;;
  let start_datetime := getStartdatetime f in
  annotations <~ lift (readAnnotations f) ;;
  let base_filename := PyPath.splitext_root (PyPath.basename edf_path) in
  let output_dir := PyPath.dirname edf_path in
  cats <~ lift (categorize start_datetime annotations) ;;
  let effective_start := effective_start_of start_datetime (sleep_stages cats) in
  (match sleep_stages cats with
   | first :: _ =>
       print ("  EDF header start: " ++ str_datetime start_datetime) ;;;
       print ("  First sleep stage: " ++ str_datetime (onset_dt first)) ;;;
       print "  Using first sleep stage as start time"
   | [] => print "  Warning: No sleep stages found, using EDF start time"
   end) ;;;
  print ("  Rounded to: " ++ str_datetime effective_start ++
         " (removed microseconds for pandas compatibility)") ;;;
  write_sleep_profile output_dir base_filename effective_start (sleep_stages cats) ;;;
  write_arousals output_dir base_filename effective_start (arousals cats) ;;;
  write_flow_events output_dir base_filename effective_start (flow_events cats) ;;;
  print ("Successfully converted annotations for " ++ base_filename).

(** Lines 8-86. *)
Definition convert_edf_annotations (edf_path : string) : M unit :=
  try_except (convert_body edf_path)
    (fun e => print ("An error occurred while processing " ++ edf_path ++ ": " ++ e)).

(** The script run as [python convert_edf_annotations.py <edf_file>]:
    its exit status and the state it leaves. *)
Definition main (edf_file : string) (st : state) : Z * state :=
  match convert_edf_annotations edf_file st with
  | (Ok _, st') => (0, st')
  | (Raise _, st') => (1, st')
  end.

End Script.

End EdfAnnotations.

(* ================================================================== *)
(** ** [convert_excel_annotations.py] *)
(* ================================================================== *)

Module ExcelAnnotations.

(** A Python float: a finite binary value [(-1)^neg * m * 2^e] with
    [0 <= m], an infinity or a NaN. *)
Inductive pyfloat :=
| Finite (neg : bool) (m : Z) (e : Z)
| Inf (neg : bool)
| NaN.

(** [f"{x:.2f}"]: the exact value rounded to hundredths, ties to even. *)
Definition format_2f (x : pyfloat) : string :=
  match x with
  | NaN => "nan"
  | Inf neg => if neg then "-inf" else "inf"
  | Finite neg m e =>
      let q :=
        if 0 <=? e then m * 100 * 2 ^ e
        else
          let den := 2 ^ (- e) in
          let q0 := (m * 100) / den in
          let r := (m * 100) mod den in
          if (den <? 2 * r) || ((2 * r =? den) && Z.odd q0) then q0 + 1 else q0 in
      (if neg then "-" else "") ++ PyStr.of_Z (q / 100) ++ "." ++ PyStr.pad2 (q mod 100)
  end.

(** An entry of the lists built by [extract_arousals] and
    [extract_flow_events]. *)
Record impulse := mkImpulse {
  onset_time : datetime;
  end_time : datetime;
  duration : pyfloat;
  type : string
}.

Record stage := mkStage {
  stage_onset_time : datetime;
  stage_name : string
}.

(** Lines 95-117 after the file is read: the start time in the header
    bytes.  The date is [dd.mm.yy] at offset 168 and the time [hh.mm.ss]
    at offset 176; a year below 100 is taken in the 21st century. *)
Definition unpack_error : exn := "wrong number of values to unpack".

Definition header_start_time (content : string) : result datetime :=
  let header := PyStr.take 256 content in
  let start_date_str :=
    PyStr.strip (PyStr.decode_ascii_ignore (PyStr.take 8 (PyStr.drop 168 header))) in
  let start_time_str :=
    PyStr.strip (PyStr.decode_ascii_ignore (PyStr.take 8 (PyStr.drop 176 header))) in
  match PyStr.split "." start_date_str with
  | [day; month; year] =>
      bind (of_option (PyStr.int year)
              ("invalid literal for int() with base 10: '" ++ year ++ "'")) (fun year =>
      let year := if year <? 100 then year + 2000 else year in
      match PyStr.split "." start_time_str with
      | [hour; minute; second] =>
          let to_int (s : string) :=
            of_option (PyStr.int s)
                      ("invalid literal for int() with base 10: '" ++ s ++ "'") in
          bind (to_int month) (fun month =>
          bind (to_int day) (fun day =>
          bind (to_int hour) (fun hour =>
          bind (to_int minute) (fun minute =>
          bind (to_int second) (fun second =>
          of_option (make year month day hour minute second 0)
                    "datetime field out of range")))))
      | _ => Raise unpack_error
      end)
  | _ => Raise unpack_error
  end.

(** Lines 93-117. *)
Definition read_edf_start_time (d : Disk.node) (edf_path : PyPath.t) : result datetime :=
  bind (Disk.read d (PyPath.to_string edf_path)) header_start_time.

(** A spreadsheet row as the extractors read it: [str(row[2])] and
    [str(row[3])]. *)
Record row := mkRow { timestamp_str : string; event_description : string }.

Definition int_or_raise (s : string) : result Z :=
  of_option (PyStr.int s)
            ("invalid literal for int() with base 10: '" ++ s ++ "'").

Definition index_error : exn := "list index out of range".

(** Lines 236-251: hour, minute, second and microsecond of the text. *)
Definition parse_fields (timestamp_str : string) : result (Z * Z * Z * Z) :=
  let parts := PyStr.split ":" timestamp_str in
  bind (of_option (nth_error parts 0) index_error) (fun p0 =>
  bind (int_or_raise p0) (fun hour =>
  bind (of_option (nth_error parts 1) index_error) (fun p1 =>
  bind (int_or_raise p1) (fun minute =>
  bind (of_option (nth_error parts 2) index_error) (fun p2 =>
  let sec_parts := PyStr.split "." p2 in
  bind (of_option (nth_error sec_parts 0) index_error) (fun s0 =>
  bind (int_or_raise s0) (fun second =>
  bind (match sec_parts with
        | _ :: frac :: _ => int_or_raise (PyStr.take 2 frac)
        | _ => Ok 0
        end) (fun centisecond =>
  Ok (hour, minute, second, centisecond * 10000))))))))).

(** Lines 235-261: the body of the [try]. *)
Definition parse_timestamp_try (timestamp_str : string) (edf_start_time : datetime)
  : result datetime :=
  bind (parse_fields timestamp_str) (fun '(h, mi, s, us) =>
  of_option (make (year edf_start_time) (month edf_start_time) (day edf_start_time)
                  h mi s us)
            "datetime field out of range").

(** Lines 229-265. *)
Definition parse_timestamp (timestamp_str : string) (edf_start_time : datetime)
  : M datetime :=
  try_except (lift (parse_timestamp_try timestamp_str edf_start_time))
    (fun e =>
       print ("Warning: Failed to parse timestamp '" ++ timestamp_str ++ "': " ++ e) ;;;
       ret edf_start_time).

(** [df[3].astype(str).str.contains('Stage -', case=False)] on one row. *)
Definition is_stage_row (r : row) : bool :=
  PyStr.contains (PyStr.lower "Stage -") (PyStr.lower (event_description r)).

(** Lines 120-142. *)
Fixpoint extract_stage_rows (rows : list row) (edf_start_time : datetime)
  : M (list stage) :=
  match rows with
  | [] => ret []
  | r :: rest =>
      onset <~ parse_timestamp (timestamp_str r) edf_start_time ;;
      let name := PyStr.strip (PyStr.replace "Stage -" "" (event_description r)) in
      stages <~ extract_stage_rows rest edf_start_time ;;
      ret (mkStage onset name :: stages)
  end.

Definition extract_sleep_stages (df : list row) (edf_start_time : datetime)
  : M (list stage) :=
  extract_stage_rows (filter is_stage_row df) edf_start_time.

(** Lines 278-293: the line of one stage, if it is written. *)
Definition sleep_profile_line (st : stage) : option string :=
  let time_str := strftime_HMSf (stage_onset_time st) in
  let name := stage_name st in
  if String.eqb name "No Stage" || String.eqb name "NoStage" then None
  else
    let name := if String.eqb name "R" || String.eqb name "REM" then "REM" else name in
    Some (time_str ++ "; " ++ name ++ nl).

Definition sleep_profile_lines (stages : list stage) : list string :=
  flat_map (fun st => match sleep_profile_line st with
                      | Some l => [l]
                      | None => []
                      end) stages.

Definition sleep_profile_text (start_time : datetime) (stages : list stage) : string :=
  "Start Time: " ++ strftime_dmYHMS start_time ++ nl ++
  "Version: 1.0" ++ nl ++ nl ++
  PyStr.join_lines (sleep_profile_lines stages).

(** Lines 268-296; the path written is returned. *)
Definition write_sleep_profile (output_dir : PyPath.t) (base_filename : string)
           (start_time : datetime) (stages : list stage) : M PyPath.t :=
  let filename := PyPath.child output_dir (base_filename ++ " Sleep profile.txt") in
  write_file (PyPath.to_string filename) (sleep_profile_text start_time stages) ;;;
  print ("  ✓ Sleep Profile: " ++ PyStr.of_Z (Z.of_nat (List.length stages)) ++
         " stages → " ++ PyPath.name filename) ;;;
  ret filename.

(** Line 342 and line 318: the line of [write_arousals] and of
    [write_flow_events]. *)
Definition impulse_line (event : impulse) : string :=
  let onset_str := strftime_HMSf (onset_time event) in
  let end_str := strftime_HMSf (end_time event) in
  onset_str ++ "-" ++ end_str ++ "; " ++ format_2f (duration event) ++ "; " ++
  type event ++ nl.

Definition impulse_text (signal_id : string) (start_time : datetime)
           (events : list impulse) : string :=
  "Signal ID: " ++ signal_id ++ nl ++
  "Start Time: " ++ strftime_dmYHMS start_time ++ nl ++
  "Unit: s" ++ nl ++
  "Signal Type: Impuls" ++ nl ++ nl ++
  PyStr.join_lines (map impulse_line events).

(** Lines 299-321; the path written is returned. *)
Definition write_arousals (output_dir : PyPath.t) (base_filename : string)
           (start_time : datetime) (arousals : list impulse) : M PyPath.t :=
  let filename := PyPath.child output_dir (base_filename ++ " Classification Arousals.txt") in
  write_file (PyPath.to_string filename) (impulse_text "Arousals" start_time arousals) ;;;
  print ("  ✓ Arousals: " ++ PyStr.of_Z (Z.of_nat (List.length arousals)) ++
         " events → " ++ PyPath.name filename) ;;;
  ret filename.

(** Lines 324-345. *)
Definition write_flow_events (output_dir : PyPath.t) (base_filename : string)
           (start_time : datetime) (events : list impulse) : M PyPath.t :=
  let filename := PyPath.child output_dir (base_filename ++ " Flow Events.txt") in
  write_file (PyPath.to_string filename) (impulse_text "Flow Events" start_time events) ;;;
  print ("  ✓ Flow Events: " ++ PyStr.of_Z (Z.of_nat (List.length events)) ++
         " events → " ++ PyPath.name filename) ;;;
  ret filename.

(** The dictionary returned by [convert_excel_annotations]; the three
    paths are absent from a failure. *)
Record conversion := mkConversion {
  success : bool;
  sleep_profile : option string;
  arousals : option string;
  flow_events : option string;
  error : option string
}.

Definition failure (e : exn) : conversion := mkConversion false None None None (Some e).

(** [str.contains(pattern, case=False)] on one cell, for a pattern
    without regular-expression operators. *)
Definition contains_nocase (pattern text : string) : bool :=
  PyStr.contains (PyStr.lower pattern) (PyStr.lower text).

(** Line 147. *)
Definition is_arousal_row (r : row) : bool :=
  contains_nocase "Arousal -" (event_description r).

(** Line 189: the pattern is an alternation of two plain texts. *)
Definition is_flow_row (r : row) : bool :=
  contains_nocase "Respiratory Event" (event_description r) ||
  contains_nocase "Desaturation" (event_description r).

(** Lines 167-172: the subtype of an arousal. *)
Definition arousal_type (event_text : string) : string :=
  if PyStr.contains " - " event_text then
    let parts := PyStr.split " - " event_text in
    if Nat.leb 3 (List.length parts) then PyStr.strip (last parts "") else "Arousal"
  else "Arousal".

(** Lines 211-217: the subtype of a flow event. *)
Definition flow_type (event_text : string) : string :=
  if PyStr.contains "Hyp" event_text then "Hypopnea"
  else if PyStr.contains "Apnea" event_text then "Apnea"
  else if PyStr.contains "Desaturation" event_text || PyStr.contains "Desat" event_text
       then "Desaturation"
  else "Flow Event".

Definition zero : pyfloat := Finite false 0 0.

Section Convert.

(** [pd.read_excel(path, sheet_name='Sheet1', header=None)] as a function
    of the file's bytes, giving the two columns the extractors read; a
    missing sheet or column raises. *)
Variable read_excel : string -> result (list row).

(** [float(s)], [None] being [ValueError], and
    [datetime.timedelta(seconds=x)], which raises for an infinity or a
    NaN. *)
Variable float_of_string : string -> option pyfloat.
Variable timedelta_seconds : pyfloat -> result timedelta.

(** Lines 159-165 and 200-206: the duration in the text. *)
Definition duration_of (event_text : string) : pyfloat :=
  if PyStr.contains "Dur:" event_text then
    match nth_error (PyStr.split "Dur:" event_text) 1 with
    | Some after_dur =>
        let dur_part := PyStr.strip (hd "" (PyStr.split "sec." after_dur)) in
        match float_of_string dur_part with
        | Some x => x
        | None => zero
        end
    | None => zero
    end
  else zero.

(** Lines 151-182 and 193-224: the loop over the selected rows. *)
Fixpoint extract_impulses (type_of : string -> string) (rows : list row)
         (edf_start_time : datetime) : M (list impulse) :=
  match rows with
  | [] => ret []
  | r :: rest =>
      onset <~ parse_timestamp (timestamp_str r) edf_start_time ;;
      let duration_sec := duration_of (event_description r) in
      delta <~ lift (timedelta_seconds duration_sec) ;;
      end_ <~ lift (of_option (add onset delta) "date value out of range") ;;
      events <~ extract_impulses type_of rest edf_start_time ;;
      ret (mkImpulse onset end_ duration_sec (type_of (event_description r)) :: events)
  end.

(** Lines 145-184. *)
Definition extract_arousals (df : list row) (edf_start_time : datetime)
  : M (list impulse) :=
  extract_impulses arousal_type (filter is_arousal_row df) edf_start_time.

(** Lines 187-226. *)
Definition extract_flow_events (df : list row) (edf_start_time : datetime)
  : M (list impulse) :=
  extract_impulses flow_type (filter is_flow_row df) edf_start_time.

(** Lines 60-87: the body of the [try]. *)
Definition convert_body (edf_path excel_path : PyPath.t) : M conversion :=
  d <~ get_disk ;;
  edf_start_time <~ lift (read_edf_start_time d edf_path) ;;
  df <~ lift (bind (Disk.read d (PyPath.to_string excel_path)) read_excel) ;;
  sleep_stages <~ extract_sleep_stages df edf_start_time ;;
  arousals <~ extract_arousals df edf_start_time ;;
  flow_events <~ extract_flow_events df edf_start_time ;;
  let output_dir := PyPath.parent edf_path in
  let base_filename := PyPath.stem edf_path in
  sleep_profile_path <~
    write_sleep_profile output_dir base_filename edf_start_time sleep_stages ;;
  arousals_path <~ write_arousals output_dir base_filename edf_start_time arousals ;;
  flow_events_path <~
    write_flow_events output_dir base_filename edf_start_time flow_events ;;
  ret (mkConversion true (Some (PyPath.to_string sleep_profile_path))
                    (Some (PyPath.to_string arousals_path))
                    (Some (PyPath.to_string flow_events_path)) None).

(** Lines 24-90. *)
Definition convert_excel_annotations (edf_path : string) (excel_path : option string)
  : M conversion :=
  let edf_path := PyPath.of_string edf_path in
  d <~ get_disk ;;
  if negb (Disk.exists_ d (PyPath.to_string edf_path)) then
    ret (failure ("EDF file not found: " ++ PyPath.to_string edf_path))
  else
    excel <~ lift
      (match excel_path with
       | Some p => Ok (PyPath.of_string p)
       | None =>
           bind (PyPath.with_suffix edf_path ".xlsx") (fun xlsx =>
           if Disk.exists_ d (PyPath.to_string xlsx) then Ok xlsx
           else PyPath.with_suffix edf_path ".XLSX")
       end) ;;
    if negb (Disk.exists_ d (PyPath.to_string excel)) then
      ret (failure ("Excel file not found: " ++ PyPath.to_string excel))
    else
      try_except (convert_body edf_path excel) (fun e => ret (failure e)).

(** Lines 348-386: [main] on [sys.argv[1:]], giving the exit status;
    the lines [main] itself prints are left out. *)
Definition main (argv : list string) : M Z :=
  match argv with
  | [] => ret 1
  | edf_path :: rest =>
      result <~ convert_excel_annotations edf_path (hd_error rest) ;;
      ret (if success result then 0 else 1)
  end.

End Convert.

End ExcelAnnotations.

(* ================================================================== *)
(** ** [detect_edf_format.py] *)
(* ================================================================== *)

Module DetectFormat.

Import Pyedflib.

(** The dictionary returned by [detect_edf_format]: its seven keys. *)
Record detection := mkDetection {
  type : string;
  has_annotations : bool;
  pyedflib_compatible : bool;
  excel_file : option string;
  num_signals : option Z;
  emg_channels : list (Z * string);
  error : option string
}.

Definition set_type (v : string) (r : detection) : detection :=
  mkDetection v (has_annotations r) (pyedflib_compatible r) (excel_file r)
              (num_signals r) (emg_channels r) (error r).
Definition set_has_annotations (v : bool) (r : detection) : detection :=
  mkDetection (type r) v (pyedflib_compatible r) (excel_file r)
              (num_signals r) (emg_channels r) (error r).
Definition set_pyedflib_compatible (v : bool) (r : detection) : detection :=
  mkDetection (type r) (has_annotations r) v (excel_file r)
              (num_signals r) (emg_channels r) (error r).
Definition set_excel_file (v : option string) (r : detection) : detection :=
  mkDetection (type r) (has_annotations r) (pyedflib_compatible r) v
              (num_signals r) (emg_channels r) (error r).
Definition set_num_signals (v : option Z) (r : detection) : detection :=
  mkDetection (type r) (has_annotations r) (pyedflib_compatible r) (excel_file r)
              v (emg_channels r) (error r).
Definition set_emg_channels (v : list (Z * string)) (r : detection) : detection :=
  mkDetection (type r) (has_annotations r) (pyedflib_compatible r) (excel_file r)
              (num_signals r) v (error r).
Definition set_error (v : option string) (r : detection) : detection :=
  mkDetection (type r) (has_annotations r) (pyedflib_compatible r) (excel_file r)
              (num_signals r) (emg_channels r) v.

Definition emg_keywords : list string := ["EMG"; "CHIN"; "LEG"; "Chin"; "Lat"; "Rat"].

Definition is_emg_label (label : string) : bool :=
  existsb (fun keyword => PyStr.contains keyword label) emg_keywords.

(** The listed channels match a keyword and lie below the signal count. *)
Definition emg_channels_sound (r : detection) : Prop :=
  Forall (fun il => is_emg_label (snd il) = true /\
                    exists n, num_signals r = Some n /\ 0 <= fst il < n)
         (emg_channels r).

(** Lines 85-89: the loop over the reader's labels; it stops at the
    first label the reader fails to give. *)
Fixpoint reader_emg_channels (f : reader) (idx : list Z) (acc : list (Z * string))
  : result (list (Z * string)) :=
  match idx with
  | [] => Ok acc
  | i :: rest =>
      bind (getLabel f i) (fun label =>
      reader_emg_channels f rest
        (if is_emg_label label then acc ++ [(i, label)] else acc))
  end.

Section Detect.

Variable EdfReader : string -> result reader.

(** Lines 62-93: the first [try] body.  The dictionary is updated in
    place, so what was assigned before an exception stays. *)
Definition try_pyedflib (d : Disk.node) (edf_path : PyPath.t) (r : detection)
  : detection * option exn :=
  match bind (Disk.read d (PyPath.to_string edf_path)) EdfReader with
  | Raise e => (r, Some e)
  | Ok f =>
      let r := set_pyedflib_compatible true r in
      let r := set_num_signals (Some (signals_in_file f)) r in
      let r := set_type (if filetype f =? 1 then "EDF+C"
                         else if filetype f =? 2 then "EDF+D"
                         else "Standard") r in
      let r := set_has_annotations (0 <? annotations_in_file f) r in
      match reader_emg_channels f (range (signals_in_file f)) [] with
      | Raise e => (r, Some e)
      | Ok emg => (set_emg_channels emg r, None)
      end
  end.

(** Lines 115-118: the labels read from the raw header. *)
Definition header_emg_channels (label_bytes : string) (n : Z) : list (Z * string) :=
  fold_left
    (fun (acc : list (Z * string)) i =>
       let label := PyStr.strip (PyStr.decode_ascii_ignore
                      (PyStr.take 16 (PyStr.drop (Z.to_nat (i * 16)) label_bytes))) in
       if is_emg_label label then (acc ++ [(i, label)])%list else acc)
    (range n) [].

(** Lines 102-120: the inner [try] body. *)
Definition try_manual_header (d : Disk.node) (edf_path : PyPath.t) (r : detection)
  : detection * option exn :=
  match Disk.read d (PyPath.to_string edf_path) with
  | Raise e => (r, Some e)
  | Ok content =>
      let header := PyStr.take 256 content in
      let num_signals_str :=
        PyStr.strip (PyStr.decode_ascii_ignore (PyStr.take 4 (PyStr.drop 252 header))) in
      let r := if PyStr.isdigit num_signals_str
               then set_num_signals (PyStr.int num_signals_str) r else r in
      match num_signals r with
      | Some n =>
          if n =? 0 then (r, None)
          else
            let label_bytes := PyStr.take (Z.to_nat (16 * n)) (PyStr.drop 256 content) in
            (set_emg_channels (header_emg_channels label_bytes n) r, None)
      | None => (r, None)
      end
  end.

(** Lines 126-134: the first sibling spreadsheet that exists. *)
Fixpoint first_existing (d : Disk.node) (candidates : list PyPath.t) : option string :=
  match candidates with
  | [] => None
  | excel_path :: rest =>
      if Disk.exists_ d (PyPath.to_string excel_path)
      then Some (PyPath.to_string excel_path)
      else first_existing d rest
  end.

(** Lines 17-136.  The argument is the path after [Path(edf_path)],
    which leaves a [Path] as it is and parses a [str] by
    [PyPath.of_string]. *)
Definition detect_edf_format (d : Disk.node) (edf_path : PyPath.t) : result detection :=
  if negb (Disk.exists_ d (PyPath.to_string edf_path)) then
    Ok (mkDetection "Invalid" false false None None []
          (Some ("File not found: " ++ PyPath.to_string edf_path)))
  else
    let r := mkDetection "Unknown" false false None None [] None in
    let r :=
      match try_pyedflib d edf_path r with
      | (r, None) => r
      | (r, Some e) =>
          let r := set_pyedflib_compatible false r in
          let r := set_type "Standard" r in
          match try_manual_header d edf_path r with
          | (r, None) => r
          | (r, Some header_error) =>
              set_error (Some ("pyedflib error: " ++ e ++ ", header read error: "
                               ++ header_error)) r
          end
      end in
    bind (PyPath.with_suffix edf_path ".xlsx") (fun xlsx =>
    bind (PyPath.with_suffix edf_path ".XLSX") (fun XLSX =>
    Ok (match first_existing d [xlsx; XLSX] with
        | Some p => set_excel_file (Some p) r
        | None => r
        end))).

(** Lines 50-123 on their own: the dictionary of an existing file before
    the probe for a spreadsheet. *)
Definition detect_before_probe (d : Disk.node) (edf_path : PyPath.t) : detection :=
  let r := mkDetection "Unknown" false false None None [] None in
  match try_pyedflib d edf_path r with
  | (r, None) => r
  | (r, Some e) =>
      let r := set_pyedflib_compatible false r in
      let r := set_type "Standard" r in
      match try_manual_header d edf_path r with
      | (r, None) => r
      | (r, Some header_error) =>
          set_error (Some ("pyedflib error: " ++ e ++ ", header read error: "
                           ++ header_error)) r
      end
  end.

(** The script's [main] for [python detect_edf_format.py <EDF_FILE>]:
    the exit status, when detection returns. *)
Definition main (edf_path : string) (d : Disk.node) : result Z :=
  bind (detect_edf_format d (PyPath.of_string edf_path)) (fun r =>
  Ok (if String.eqb (type r) "Invalid" then 1 else 0)).

End Detect.

End DetectFormat.

(* ================================================================== *)
(** ** [convert_standard_to_edfplus.py] *)
(* ================================================================== *)

Module StandardToEdfplus.

Import Pyedflib.

(** The dictionary returned by [convert_standard_to_edfplus]. *)
Record conversion := mkConversion {
  success : bool;
  output_path : option string;
  error : option string
}.

Definition verify_keywords : list string := ["EMG"; "Chin"; "Lat"; "Rat"].

(** [labels.index(label)] for a label taken from [labels]. *)
Fixpoint index_of (label : string) (labels : list string) : Z :=
  match labels with
  | [] => 0
  | l :: rest => if String.eqb l label then 0 else 1 + index_of label rest
  end.

Section Records.

Variable sample : Type.

(** [int(np.ceil(a / b))] for [b <> 0]; the quotient is a float. *)
Variable ceil_quotient : Z -> Z -> Z.

(** [a[start:stop]] for [0 <= start] and [0 <= stop]. *)
Definition slice (a : list sample) (start stop : Z) : list sample :=
  firstn (Z.to_nat (stop - start)) (skipn (Z.to_nat start) a).

(** [np.pad(a, (0, pad_length), mode='edge')] for [0 <= pad_length]: an
    empty array cannot be extended. *)
Definition pad_edge (a : list sample) (pad_length : Z) : result (list sample) :=
  match a with
  | [] =>
      if pad_length =? 0 then Ok []
      else Raise "can't extend empty axis 0 using modes other than 'constant' or 'empty'"
  | x :: _ => Ok (a ++ repeat (last a x) (Z.to_nat pad_length))%list
  end.

(** Lines 168-178: the block of one channel in one record. *)
Definition record_block (row : list sample)
           (shape1 samples_per_record n_records record_idx : Z)
  : result (list sample) :=
  let start_sample := record_idx * samples_per_record in
  let end_sample := Z.min ((record_idx + 1) * samples_per_record) shape1 in
  let record_data := slice row start_sample end_sample in
  if (Z.of_nat (List.length record_data) <? samples_per_record) &&
     (record_idx =? n_records - 1)
  then pad_edge record_data (samples_per_record - Z.of_nat (List.length record_data))
  else Ok record_data.

(** Lines 162-180: the blocks handed to [writePhysicalSamples], record by
    record and, within a record, channel by channel.  [data] holds one
    row of [shape1] samples for each channel. *)
Definition records (data : list (list sample)) (shape1 samples_per_record : Z)
  : result (list (list (list sample))) :=
  if samples_per_record =? 0 then Raise "division by zero"
  else
    let n_records := ceil_quotient shape1 samples_per_record in
    map_result
      (fun record_idx =>
         map_result
           (fun row => record_block row shape1 samples_per_record n_records record_idx)
           data)
      (range n_records).

End Records.

Section Convert.

(** The permissive reader: [mne.io.read_raw_edf(path, preload=True)]
    as a function of the file's bytes. *)
Variable raw : Type.
Variable read_raw_edf : string -> result raw.

(** Steps 2 to 4 (lines 79-185), from the decoded recording and the
    patient name: the bytes the writer has put in the output file, if
    it got as far as creating it, and the exception that stopped it,
    if any.  The numeric work on the samples is floating point. *)
Variable export_edfplus : raw -> string -> option string * option exn.

Variable EdfReader : string -> result reader.

(** Lines 193-211: the body of the verification [try]. *)
Definition verify (d : Disk.node) (output_edf : PyPath.t) : result unit :=
  bind (bind (Disk.read d (PyPath.to_string output_edf)) EdfReader) (fun f_verify =>
  bind (map_result (getLabel f_verify) (range (signals_in_file f_verify))) (fun labels =>
  let emg_labels :=
    filter (fun l => existsb (fun kw => PyStr.contains kw l) verify_keywords) labels in
  bind (map_result (fun label => getSampleFrequency f_verify (index_of label labels))
                   emg_labels) (fun _ =>
  Ok tt))).

(** Lines 149-185: the writer's effect on the disk. *)
Definition write_output (r : raw) (patient_name : string) (output_edf : PyPath.t)
  : M unit :=
  match export_edfplus r patient_name with
  | (Some bytes, failure) =>
      write_file (PyPath.to_string output_edf) bytes ;;;
      match failure with
      | Some e => raise e
      | None => ret tt
      end
  | (None, Some e) => raise e
  | (None, None) => ret tt
  end.

(** Lines 24-247; console output is left out. *)
Definition convert_standard_to_edfplus (input_edf : string) (output_edf : option string)
  : M conversion :=
  let input_edf := PyPath.of_string input_edf in
  d <~ get_disk ;;
  if negb (Disk.exists_ d (PyPath.to_string input_edf)) then
    ret (mkConversion false None
           (Some ("Input file not found: " ++ PyPath.to_string input_edf)))
  else
    let output_edf :=
      match output_edf with
      | None => PyPath.child (PyPath.parent input_edf)
                             (PyPath.stem input_edf ++ "_edfplus.edf")
      | Some o => PyPath.of_string o
      end in
    try_except
      (r <~ lift (bind (Disk.read d (PyPath.to_string input_edf)) read_raw_edf) ;;
       write_output r (PyPath.stem input_edf) output_edf ;;;
       try_except
         (d' <~ get_disk ;;
          lift (verify d' output_edf) ;;;
          ret (mkConversion true (Some (PyPath.to_string output_edf)) None))
         (fun e =>
            ret (mkConversion false (Some (PyPath.to_string output_edf))
                   (Some ("Verification failed: " ++ e)))))
      (fun e => ret (mkConversion false None (Some e))).

(** [main] for [python convert_standard_to_edfplus.py <INPUT> [OUTPUT]]:
    the exit status. *)
Definition main (input_edf : string) (output_edf : option string) : M Z :=
  result <~ convert_standard_to_edfplus input_edf output_edf ;;
  ret (if success result then 0 else 1).

End Convert.

End StandardToEdfplus.

(* ================================================================== *)
(** ** [auto_convert.py] *)
(* ================================================================== *)

Module AutoConvert.

Import DetectFormat.

(** The dictionary returned by [convert_single_file]. *)
Record outcome := mkOutcome {
  success : bool;
  converter_used : option string;
  output_files : list string;
  error : option string
}.

(** What [subprocess.run(cmd, capture_output=True, text=True)] returns. *)
Record completed_process := mkProc {
  returncode : Z;
  proc_stdout : string;
  proc_stderr : string
}.

(** The dictionary returned by [convert_directory]. *)
Record summary := mkSummary {
  total : Z;
  success_count : Z;
  failed : Z;
  results : list (string * outcome)
}.

Definition truthy (o : option string) : bool :=
  match o with
  | Some x => negb (String.eqb x "")
  | None => false
  end.



Definition edfd_message : string :=
  "EDF+D conversion not yet fully automated. Please use convert_test8_to_continuous.py manually.".

Section Dispatcher.

Variable EdfReader : string -> result Pyedflib.reader.

(** [sys.executable] and [Path(__file__).parent]. *)
Variable sys_executable : string.
Variable script_dir : PyPath.t.

(** A child process: from the command line and the disk it finds, the
    completed process and the disk it leaves, or the exception raised
    by [subprocess.run] itself. *)
Variable subprocess_run :
  list string -> Disk.node -> result (completed_process * Disk.node).

Definition run (cmd : list string) : M completed_process :=
  fun st =>
    let log := (launched st ++ [cmd])%list in
    match subprocess_run cmd (disk st) with
    | Ok (proc, d') => (Ok proc, mkState d' (stdout st) log)
    | Raise e => (Raise e, mkState (disk st) (stdout st) log)
    end.

Definition script (name : string) : string :=
  PyPath.to_string (PyPath.child script_dir name).

Definition text_outputs (edf_path : PyPath.t) : list string :=
  let base_name := PyPath.stem edf_path in
  let output_dir := PyPath.parent edf_path in
  [ PyPath.to_string (PyPath.child output_dir (base_name ++ " Sleep profile.txt"));
    PyPath.to_string (PyPath.child output_dir (base_name ++ " Classification Arousals.txt"));
    PyPath.to_string (PyPath.child output_dir (base_name ++ " Flow Events.txt")) ].

(** Lines 86-108: the branch for EDF+C with annotations.  Each branch
    yields [output_files] and [error]. *)
Definition branch_edfc (edf_path : PyPath.t) : M (list string * option string) :=
  let cmd := [sys_executable; script "convert_edf_annotations.py";
              PyPath.to_string edf_path] in
  proc <~ run cmd ;;
  if negb (returncode proc =? 0)
  then ret ([], Some ("Converter failed: " ++ proc_stderr proc))
  else ret (text_outputs edf_path, None).

(** Lines 115-165: the branch for a standard file with a spreadsheet. *)
Definition branch_standard (edf_path : PyPath.t) (excel_file : string)
  : M (list string * option string) :=
  let edfplus_output :=
    PyPath.child (PyPath.parent edf_path) (PyPath.stem edf_path ++ "_edfplus.edf") in
  let cmd_edf := [sys_executable; script "convert_standard_to_edfplus.py";
                  PyPath.to_string edf_path; PyPath.to_string edfplus_output] in
  proc_edf <~ run cmd_edf ;;
  if negb (returncode proc_edf =? 0)
  then ret ([], Some ("EDF conversion failed: " ++ proc_stderr proc_edf))
  else
    let cmd_anno := [sys_executable; script "convert_excel_annotations.py";
                     PyPath.to_string edf_path; excel_file] in
    proc_anno <~ run cmd_anno ;;
    if negb (returncode proc_anno =? 0)
    then ret ([], Some ("Annotation conversion failed: " ++ proc_stderr proc_anno))
    else ret (PyPath.to_string edfplus_output :: text_outputs edf_path, None).

(** Lines 28-202 with [verbose] printing left out.  The argument is
    the path after [Path(edf_path)]; both callers pass a [Path]. *)
Definition convert_single_file (edf_path : PyPath.t) : M outcome :=
  d <~ get_disk ;;
  result <~ lift (detect_edf_format EdfReader d edf_path) ;;
  if String.eqb (type result) "Invalid" then
    ret (mkOutcome false None [] (DetectFormat.error result))
  else
    let on_exception (e : exn) : M (list string * option string) := ret ([], Some e) in
    '(converter_used, (output_files, error)) <~
      (if String.eqb (type result) "EDF+C" && has_annotations result then
         r <~ try_except (branch_edfc edf_path) on_exception ;;
         ret (Some "convert_edf_annotations.py", r)
       else if String.eqb (type result) "EDF+D" then
         ret (Some "convert_test8_to_continuous.py + convert_edf_annotations.py",
              ([], Some edfd_message))
       else if String.eqb (type result) "Standard" && truthy (excel_file result) then
         r <~ try_except
                (branch_standard edf_path
                   (match excel_file result with Some x => x | None => "" end))
                on_exception ;;
         ret (Some "convert_excel_annotations.py + convert_standard_to_edfplus.py", r)
       else
         ret (None, ([], Some "No suitable converter found for this EDF format"))) ;;
    let success := match error with None => true | Some _ => false end in
    ret (mkOutcome success converter_used output_files error).

(** [directory_path.glob('*' + ext)]: the entries of the directory
    itself whose name ends in [ext], in listing order. *)
Definition glob_ext (d : Disk.node) (directory_path : PyPath.t) (ext : string)
  : list PyPath.t :=
  match Disk.lookup d (PyPath.to_string directory_path) with
  | Some (Disk.Dir entries) =>
      map (fun e => PyPath.child directory_path (fst e))
          (filter (fun e => PyStr.endswith ext (fst e)) entries)
  | _ => []
  end.

(** Line 231. *)
Definition find_edf_files (d : Disk.node) (directory_path : PyPath.t) : list PyPath.t :=
  (glob_ext d directory_path ".EDF" ++ glob_ext d directory_path ".edf")%list.

(** Lines 246-263: the loop, with its three accumulators. *)
Fixpoint batch_loop (edf_files : list PyPath.t)
         (results : list (string * outcome)) (success_count failed_count : Z)
  : M (list (string * outcome) * Z * Z) :=
  match edf_files with
  | [] => ret (results, success_count, failed_count)
  | edf_file :: rest =>
      result <~ convert_single_file edf_file ;;
      let results := (results ++ [(PyPath.to_string edf_file, result)])%list in
      if success result
      then batch_loop rest results (success_count + 1) failed_count
      else batch_loop rest results success_count (failed_count + 1)
  end.

(** Lines 205-279 with printing left out; [None] is the [None] that
    the function returns. *)
Definition convert_directory (directory_path : PyPath.t) : M (option summary) :=
  d <~ get_disk ;;
  if negb (Disk.is_dir d (PyPath.to_string directory_path)) then ret None
  else
    let edf_files := find_edf_files d directory_path in
    match edf_files with
    | [] => ret None
    | _ =>
        '(results, success_count, failed_count) <~ batch_loop edf_files [] 0 0 ;;
        ret (Some (mkSummary (Z.of_nat (List.length edf_files))
                             success_count failed_count results))
    end.

(** Lines 282-326: [main] on [sys.argv[1:]], giving the exit status. *)
Definition main (argv : list string) : M Z :=
  match argv with
  | [] => ret 1
  | arg :: _ =>
      let target_path := PyPath.of_string arg in
      d <~ get_disk ;;
      if negb (Disk.exists_ d (PyPath.to_string target_path)) then ret 1
      else if Disk.is_file d (PyPath.to_string target_path) then
        result <~ convert_single_file target_path ;;
        ret (if success result then 0 else 1)
      else if Disk.is_dir d (PyPath.to_string target_path) then
        batch_result <~ convert_directory target_path ;;
        match batch_result with
        | None => ret 1
        | Some b => ret (if failed b =? 0 then 0 else 1)
        end
      else ret 1
  end.

End Dispatcher.



Section Children.

Variable EdfReader : string -> result Pyedflib.reader.
Variable sys_executable : string.
Variable script_dir : PyPath.t.

(** Child processes other than the embedded-annotation script. *)
Variable other_program :
  list string -> Disk.node -> result (completed_process * Disk.node).

Definition console_text (lines : list string) : string :=
  PyStr.join_lines (map (fun l => l ++ nl) lines).

(** [subprocess.run] when the command
    [python convert_edf_annotations.py <edf_file>] starts that script
    in a child that sees the same disk. *)
Definition python_run (cmd : list string) (d : Disk.node)
  : result (completed_process * Disk.node) :=
  match cmd with
  | [exe; script_path; edf_file] =>
      if String.eqb exe sys_executable &&
         String.eqb script_path
           (PyPath.to_string (PyPath.child script_dir "convert_edf_annotations.py"))
      then
        let '(code, st') := EdfAnnotations.main EdfReader edf_file (mkState d [] []) in
        Ok (mkProc code (console_text (stdout st')) "", disk st')
      else other_program cmd d
  | _ => other_program cmd d
  end.

End Children.

End AutoConvert.

(* ================================================================== *)
(** ** Concrete inputs used in examples *)
(* ================================================================== *)

Module Scenario.

Import Pyedflib.

(** Header start [01.01.2024 22:00:00]. *)
Definition header_start : datetime := mkDatetime 2024 1 1 22 0 0 0.

(** [(0.0, 0.0, "Sleep stage W"), (30.0, 0.0, "Sleep stage R"),
    (35.0, 12.0, "EEG arousal")] *)
Definition annotations : list annotation :=
  [ mkAnnotation 0 0 "Sleep stage W";
    mkAnnotation 30000000 0 "Sleep stage R";
    mkAnnotation 35000000 12000000 "EEG arousal" ].

Definition events : list EdfAnnotations.event_data :=
  Eval vm_compute in
    match EdfAnnotations.events_of header_start annotations with
    | Ok evs => evs
    | Raise _ => []
    end.

(** A header start with a sub-second part, and a recording that holds
    one arousal and no sleep stage. *)
Definition subsecond_start : datetime := mkDatetime 2024 1 1 22 0 0 500000.

Definition arousal_only : list annotation :=
  [ mkAnnotation 35000000 12000000 "EEG arousal" ].

(** An arousal recorded before the first sleep stage, which starts
    30.25 s after the header start. *)
Definition arousal_first : list annotation :=
  [ mkAnnotation 5250000 3000000 "EEG arousal";
    mkAnnotation 30250000 0 "Sleep stage W";
    mkAnnotation 60250000 0 "Sleep stage N1" ].

Definition categories_of (start : datetime) (anns : list annotation)
  : EdfAnnotations.categories :=
  match EdfAnnotations.categorize start anns with
  | Ok cats => cats
  | Raise _ => EdfAnnotations.mkCategories [] [] []
  end.

Definition categories : EdfAnnotations.categories :=
  Eval vm_compute in categories_of header_start annotations.

Definition arousal_first_categories : EdfAnnotations.categories :=
  Eval vm_compute in categories_of subsecond_start arousal_first.

Definition arousal_only_categories : EdfAnnotations.categories :=
  Eval vm_compute in categories_of subsecond_start arousal_only.

(** A reader that takes the file content ["C"] for an EDF+C recording
    and ["D"] for an EDF+D one, each with two channels and three
    annotations that cannot be read, and rejects everything else. *)
Definition recording (ft : Z) : reader :=
  mkReader ft 2 3 (fun _ => Ok "EMG Chin") (fun _ => Ok 256) header_start
           (Raise "annotation block is corrupt").

Definition EdfReader (content : string) : result reader :=
  if String.eqb content "C" then Ok (recording 1)
  else if String.eqb content "D" then Ok (recording 2)
  else Raise "not an EDF compliant file".

(** A directory [data] with recordings of each kind, one of them with
    a spreadsheet, one with a mixed-case extension and one in a
    subdirectory; an empty directory; a directory [good] with two EDF+C
    recordings. *)
Definition tree : Disk.node :=
  Disk.Dir
    [ ("data",
       Disk.Dir
         [ ("a.edf", Disk.File "C");
           ("b.EDF", Disk.File "D");
           ("c.Edf", Disk.File "C");
           ("e.edf", Disk.File "S");
           ("e.xlsx", Disk.File "sheet");
           ("f.edf", Disk.File "S");
           ("sub", Disk.Dir [ ("z.edf", Disk.File "C") ]) ]);
      ("empty", Disk.Dir []);
      ("good", Disk.Dir [ ("g.edf", Disk.File "C"); ("h.EDF", Disk.File "C") ]) ].

Definition initial : state := mkState tree [] [].

(** A reader that takes any content for an EDF+C recording with the
    three annotations above. *)
Definition annotated_reader (content : string) : result reader :=
  Ok (mkReader 1 2 3 (fun _ => Ok "EMG Chin") (fun _ => Ok 256) header_start
               (Ok annotations)).

Definition code_dir : PyPath.t := PyPath.of_string "/opt/code".

(** Children that do nothing and report success, or failure. *)
Definition child_succeeds (cmd : list string) (d : Disk.node)
  : result (AutoConvert.completed_process * Disk.node) :=
  Ok (AutoConvert.mkProc 0 "" "", d).

Definition child_fails (cmd : list string) (d : Disk.node)
  : result (AutoConvert.completed_process * Disk.node) :=
  Ok (AutoConvert.mkProc 1 "" "failed", d).

(** A spreadsheet row stamped half past midnight, in a recording that
    started at 22:00:00. *)
Definition after_midnight : ExcelAnnotations.row :=
  ExcelAnnotations.mkRow "00:30:15.57" "Stage - N2".


(** A permissive reader that decodes anything, and a writer whose
    output the structured reader rejects. *)
Definition read_raw_edf (content : string) : result unit := Ok tt.

Definition export_garbled (r : unit) (patient_name : string)
  : option string * option exn :=
  (Some "garbled", None).

Definition tree_after_export : Disk.node :=
  Eval vm_compute in
    match Disk.write tree "data/e_edfplus.edf" "garbled" with
    | Ok d => d
    | Raise _ => tree
    end.

(** A spreadsheet arousal of 19.6 s (the double nearest to 19.6 is
    [5516870353492378 * 2^-48]) of subtype RERA. *)
Definition rera : ExcelAnnotations.impulse :=
  ExcelAnnotations.mkImpulse
    (mkDatetime 2024 1 1 22 0 35 0) (mkDatetime 2024 1 1 22 0 54 600000)
    (ExcelAnnotations.Finite false 5516870353492378 (-48)) "RERA".

End Scenario.

(* ================================================================== *)
(** ** The shape of an event line *)
(* ================================================================== *)

Module LineFormat.

(** [HH:MM:SS,ffffff] *)
Definition is_clock (s : string) : bool :=
  match s with
  | String h1 (String h2 (String c1 (String m1 (String m2 (String c2
    (String s1 (String s2 (String k (String f1 (String f2 (String f3
    (String f4 (String f5 (String f6 EmptyString)))))))))))))) =>
      PyStr.is_digit h1 && PyStr.is_digit h2 && Ascii.eqb c1 ":"%char &&
      PyStr.is_digit m1 && PyStr.is_digit m2 && Ascii.eqb c2 ":"%char &&
      PyStr.is_digit s1 && PyStr.is_digit s2 && Ascii.eqb k ","%char &&
      PyStr.is_digit f1 && PyStr.is_digit f2 && PyStr.is_digit f3 &&
      PyStr.is_digit f4 && PyStr.is_digit f5 && PyStr.is_digit f6
  | _ => false
  end.

Definition is_number_char (c : ascii) : bool :=
  PyStr.is_digit c || Ascii.eqb c "-"%char || Ascii.eqb c "."%char.

Fixpoint all_number_chars (s : string) : bool :=
  match s with
  | EmptyString => true
  | String c s' => is_number_char c && all_number_chars s'
  end.

(** A duration field: a non-empty run of digits, sign and point. *)
Definition is_number_text (s : string) : bool :=
  negb (String.eqb s "") && all_number_chars s.

(** The text before the first semicolon and the text after it. *)
Fixpoint until_semicolon (s : string) : option (string * string) :=
  match s with
  | EmptyString => None
  | String c s' =>
      if Ascii.eqb c ";"%char then Some (EmptyString, s')
      else match until_semicolon s' with
           | Some (a, b) => Some (String c a, b)
           | None => None
           end
  end.

(** A line reads [<clock>-<clock>; <duration>;<gap><label>] and ends
    with a newline: the fields are taken off the front one by one.
    [gap] is what stands between the second semicolon and the label. *)
Definition event_line_form (gap line label : string) : bool :=
  let onset := PyStr.take 15 line in
  let r1 := PyStr.drop 15 line in
  let dash := PyStr.take 1 r1 in
  let r2 := PyStr.drop 1 r1 in
  let end_ := PyStr.take 15 r2 in
  let r3 := PyStr.drop 15 r2 in
  let sep := PyStr.take 2 r3 in
  let r4 := PyStr.drop 2 r3 in
  is_clock onset && String.eqb dash "-" && is_clock end_ && String.eqb sep "; " &&
  match until_semicolon r4 with
  | Some (dur, rest) => is_number_text dur && String.eqb rest (gap ++ label ++ nl)
  | None => false
  end.

End LineFormat.

(* ================================================================== *)
(** * Properties *)
(* ================================================================== *)

(** ** Generic facts on [result] and lists *)

Lemma map_result_app {A B : Type} (f : A -> result B) (xs ys : list A) zs :
  map_result f (xs ++ ys) = Ok zs ->
  exists zs1 zs2,
    map_result f xs = Ok zs1 /\ map_result f ys = Ok zs2 /\ zs = (zs1 ++ zs2)%list.
Proof.
  revert zs.
  induction xs as [|x xs IH]; intros zs H; simpl in *.
  - exists [], zs. auto.
  - destruct (f x) as [y|e]; simpl in H; [|discriminate].
    destruct (map_result f (xs ++ ys)) as [zs'|e] eqn:E; simpl in H; [|discriminate].
    injection H as <-.
    destruct (IH _ eq_refl) as (zs1 & zs2 & H1 & H2 & ->).
    exists (y :: zs1), zs2. rewrite H1. simpl. auto.
Qed.

Lemma filter_none {A : Type} (p : A -> bool) (l : list A) :
  (forall x, In x l -> p x = false) -> filter p l = [].
Proof.
  induction l as [|x l IH]; intros H; simpl; auto.
  rewrite (H x (or_introl eq_refl)). apply IH. intros y Hy. apply H. now right.
Qed.


(** ** The embedded-annotation extractor: categorisation *)

Section Categorisation.

Import Pyedflib EdfAnnotations.

Lemma make_event_inv start a ev :
  make_event start a = Ok ev ->
  event_text ev = text a /\
  exists onset_full,
    add start (onset_sec a) = Some onset_full /\
    onset_dt_full ev = onset_full /\
    onset_dt ev = replace_microsecond0 onset_full /\
    add onset_full (duration_sec a) = Some (end_dt_full ev).
Proof.
  unfold make_event. intros H.
  destruct (add start (onset_sec a)) as [t|] eqn:E1; simpl in H; [|discriminate].
  destruct (add t (duration_sec a)) as [t'|] eqn:E2; simpl in H; [|discriminate].
  injection H as <-. simpl. split; auto. exists t. auto.
Qed.

Lemma categorize_one_lists acc ev :
  sleep_stages (categorize_one acc ev)
    = (sleep_stages acc ++ filter rule_sleep_stage [ev])%list /\
  arousals (categorize_one acc ev)
    = (arousals acc ++ filter rule_arousal [ev])%list /\
  flow_events (categorize_one acc ev)
    = (flow_events acc ++ filter rule_flow_event [ev])%list.
Proof.
  unfold categorize_one, rule_sleep_stage, rule_arousal, rule_flow_event. simpl.
  destruct (is_sleep_stage (event_text ev)); simpl;
    [|destruct (is_arousal (event_text ev)); simpl;
      [|destruct (is_flow (event_text ev)); simpl]];
    rewrite ?app_nil_r; auto.
Qed.

(** The loop returns exactly when every event record can be built, and
    then each list has grown by its class, in annotation order. *)
Lemma categorize_loop_ok start anns : forall acc evs,
  events_of start anns = Ok evs ->
  exists cats,
    categorize_loop start acc anns = Ok cats /\
    sleep_stages cats = (sleep_stages acc ++ filter rule_sleep_stage evs)%list /\
    arousals cats = (arousals acc ++ filter rule_arousal evs)%list /\
    flow_events cats = (flow_events acc ++ filter rule_flow_event evs)%list.
Proof.
  unfold events_of.
  induction anns as [|a anns IH]; intros acc evs H; simpl in *.
  - injection H as <-. exists acc. simpl. rewrite !app_nil_r. auto.
  - destruct (make_event start a) as [ev|e]; simpl in *; [|discriminate].
    destruct (map_result (make_event start) anns) as [evs'|e]; simpl in H; [|discriminate].
    injection H as <-.
    destruct (IH (categorize_one acc ev) evs' eq_refl) as (cats & Hc & Hs & Ha & Hf).
    destruct (categorize_one_lists acc ev) as (Hs1 & Ha1 & Hf1).
    exists cats. split; [exact Hc|].
    rewrite Hs, Ha, Hf, Hs1, Ha1, Hf1, <- !app_assoc.
    change (ev :: evs') with ([ev] ++ evs')%list.
    rewrite !filter_app. auto.
Qed.

Lemma categorize_loop_events start anns : forall acc cats,
  categorize_loop start acc anns = Ok cats ->
  exists evs, events_of start anns = Ok evs.
Proof.
  unfold events_of.
  induction anns as [|a anns IH]; intros acc cats H; simpl in *.
  - eauto.
  - destruct (make_event start a) as [ev|e]; simpl in *; [|discriminate].
    destruct (IH _ _ H) as (evs & ->). simpl. eauto.
Qed.

Lemma events_of_texts start anns : forall evs,
  events_of start anns = Ok evs ->
  map event_text evs = map text anns.
Proof.
  unfold events_of.
  induction anns as [|a anns IH]; intros evs H; simpl in *.
  - now injection H as <-.
  - destruct (make_event start a) as [ev|e] eqn:E; simpl in H; [|discriminate].
    destruct (map_result (make_event start) anns) as [evs'|e'];
      simpl in H; [|discriminate].
    injection H as <-. simpl. f_equal.
    + now destruct (make_event_inv _ _ _ E).
    + now apply IH.
Qed.

(** [categorize] returns when the events can be built, and its lists are
    the events filtered by the rules. *)
Lemma categorize_lists start anns evs :
  events_of start anns = Ok evs ->
  exists cats,
    categorize start anns = Ok cats /\
    sleep_stages cats = filter rule_sleep_stage evs /\
    arousals cats = filter rule_arousal evs /\
    flow_events cats = filter rule_flow_event evs.
Proof.
  intros H.
  destruct (categorize_loop_ok start anns (mkCategories [] [] []) evs H)
    as (cats & Hc & Hs & Ha & Hf).
  exists cats. auto.
Qed.

End Categorisation.



(** ** The embedded-annotation extractor: the effective start time *)

Lemma replace_microsecond0_idem t :
  replace_microsecond0 (replace_microsecond0 t) = replace_microsecond0 t.
Proof. reflexivity. Qed.

(** The header line [Start Time: ...] has whole-second resolution. *)
Lemma strftime_dmYHMS_truncated t :
  strftime_dmYHMS (replace_microsecond0 t) = strftime_dmYHMS t.
Proof. reflexivity. Qed.

(** C1, as the code has it: when some annotation's label contains
    "Sleep stage", the effective start time is the timestamp of the first
    such annotation truncated to whole seconds, whatever the other
    annotations are; when none does, it is the header start time truncated
    to whole seconds (so the [Start Time] line is the header's). *)
Theorem effective_start_truncated start anns cats :
  EdfAnnotations.categorize start anns = Ok cats ->
  (forall pre a post,
     anns = (pre ++ a :: post)%list ->
     (forall b, In b pre -> EdfAnnotations.is_sleep_stage (Pyedflib.text b) = false) ->
     EdfAnnotations.is_sleep_stage (Pyedflib.text a) = true ->
     exists onset_full,
       add start (Pyedflib.onset_sec a) = Some onset_full /\
       EdfAnnotations.effective_start_of start (EdfAnnotations.sleep_stages cats)
         = replace_microsecond0 onset_full) /\
  ((forall b, In b anns -> EdfAnnotations.is_sleep_stage (Pyedflib.text b) = false) ->
     EdfAnnotations.effective_start_of start (EdfAnnotations.sleep_stages cats)
       = replace_microsecond0 start /\
     strftime_dmYHMS
       (EdfAnnotations.effective_start_of start (EdfAnnotations.sleep_stages cats))
       = strftime_dmYHMS start).
Proof.
  intros Hc.
  destruct (categorize_loop_events _ _ _ _ Hc) as (evs & Hev).
  destruct (categorize_lists start anns evs Hev) as (cats' & Hc' & Hs & _).
  pose proof (events_of_texts start anns evs Hev) as Htxt.
  rewrite Hc in Hc'. injection Hc' as <-.
  split.
  - intros pre a post -> Hpre Ha.
    unfold EdfAnnotations.events_of in Hev.
    destruct (map_result_app _ _ _ _ Hev) as (e1 & e2 & H1 & H2 & ->).
    simpl in H2.
    destruct (EdfAnnotations.make_event start a) as [ev|e] eqn:E; simpl in H2; [|discriminate].
    destruct (map_result (EdfAnnotations.make_event start) post) as [e3|e'];
      simpl in H2; [|discriminate].
    injection H2 as <-.
    destruct (make_event_inv _ _ _ E) as (Ht & t & Hadd & _ & Hon & _).
    exists t. split; [exact Hadd|].
    rewrite Hs, filter_app.
    assert (Hnil : filter EdfAnnotations.rule_sleep_stage e1 = []).
    { apply filter_none. intros x Hx.
      assert (Hin : In (EdfAnnotations.event_text x) (map Pyedflib.text pre)).
      { rewrite map_app in Htxt. rewrite map_app in Htxt.
        apply (f_equal (firstn (List.length e1))) in Htxt.
        rewrite <- (length_map EdfAnnotations.event_text e1) in Htxt at 1.
        rewrite firstn_app, firstn_all, Nat.sub_diag in Htxt. simpl in Htxt.
        rewrite app_nil_r in Htxt.
        assert (Hlen : List.length e1 = List.length pre).
        { clear - H1. revert e1 H1.
          induction pre as [|p pre IH]; intros e1 H1; simpl in *.
          - now injection H1 as <-.
          - destruct (EdfAnnotations.make_event start p); simpl in H1; [|discriminate].
            destruct (map_result (EdfAnnotations.make_event start) pre);
              simpl in H1; [|discriminate].
            injection H1 as <-. simpl. f_equal. now apply IH. }
        rewrite Hlen in Htxt.
        rewrite <- (length_map Pyedflib.text pre) in Htxt.
        rewrite firstn_app, firstn_all, Nat.sub_diag in Htxt. simpl in Htxt.
        rewrite app_nil_r in Htxt.
        rewrite <- Htxt. now apply in_map. }
      apply in_map_iff in Hin. destruct Hin as (b & Hb & Hbin).
      unfold EdfAnnotations.rule_sleep_stage. rewrite <- Hb. now apply Hpre. }
    rewrite Hnil. simpl.
    unfold EdfAnnotations.rule_sleep_stage at 1. rewrite Ht, Ha. simpl.
    unfold EdfAnnotations.effective_start_of. rewrite Hon. reflexivity.
  - intros Hnone.
    assert (Hnil : filter EdfAnnotations.rule_sleep_stage evs = []).
    { apply filter_none. intros x Hx.
      assert (Hin : In (EdfAnnotations.event_text x) (map Pyedflib.text anns)).
      { rewrite <- Htxt. now apply in_map. }
      apply in_map_iff in Hin. destruct Hin as (b & Hb & Hbin).
      unfold EdfAnnotations.rule_sleep_stage. rewrite <- Hb. now apply Hnone. }
    rewrite Hs, Hnil. split; reflexivity.
Qed.

Lemma effective_start_truncated_witness :
  EdfAnnotations.categorize Scenario.subsecond_start Scenario.arousal_first
    = Ok Scenario.arousal_first_categories /\
  EdfAnnotations.effective_start_of Scenario.subsecond_start
    (EdfAnnotations.sleep_stages Scenario.arousal_first_categories)
    = mkDatetime 2024 1 1 22 0 30 0.
Proof.
  split; [reflexivity|].
  destruct (effective_start_truncated Scenario.subsecond_start Scenario.arousal_first
              Scenario.arousal_first_categories eq_refl) as [Hfirst _].
  destruct (Hfirst [Pyedflib.mkAnnotation 5250000 3000000 "EEG arousal"]
                   (Pyedflib.mkAnnotation 30250000 0 "Sleep stage W")
                   [Pyedflib.mkAnnotation 60250000 0 "Sleep stage N1"]
                   eq_refl)
    as (t & Hadd & Heq).
  - intros b [<-|[]]. reflexivity.
  - reflexivity.
  - rewrite Heq. vm_compute in Hadd. injection Hadd as <-. reflexivity.
Defined.

(** C1 as stated fails in its second half: with a header start of
    22:00:00.500000 and no sleep stage, the effective start time is
    22:00:00, not the header start time. *)
Lemma effective_start_header_counterexample :
  EdfAnnotations.categorize Scenario.subsecond_start Scenario.arousal_only
    = Ok Scenario.arousal_only_categories /\
  (forall b, In b Scenario.arousal_only ->
             EdfAnnotations.is_sleep_stage (Pyedflib.text b) = false) /\
  EdfAnnotations.effective_start_of Scenario.subsecond_start
    (EdfAnnotations.sleep_stages Scenario.arousal_only_categories)
    = mkDatetime 2024 1 1 22 0 0 0 /\
  EdfAnnotations.effective_start_of Scenario.subsecond_start
    (EdfAnnotations.sleep_stages Scenario.arousal_only_categories)
    <> Scenario.subsecond_start.
Proof.
  split; [reflexivity|]. split.
  - intros b [<-|[]]. reflexivity.
  - split; [reflexivity|]. discriminate.
Qed.

(** ** Event lines of the two extractors *)

Section EventLines.

Import LineFormat.

Lemma digit_char_is_digit d : PyStr.is_digit (PyStr.digit_char d) = true.
Proof.
  unfold PyStr.digit_char.
  assert (H : 0 <= d mod 10 < 10) by (apply Z.mod_pos_bound; lia).
  assert (C : d mod 10 = 0 \/ d mod 10 = 1 \/ d mod 10 = 2 \/ d mod 10 = 3 \/
              d mod 10 = 4 \/ d mod 10 = 5 \/ d mod 10 = 6 \/ d mod 10 = 7 \/
              d mod 10 = 8 \/ d mod 10 = 9) by lia.
  repeat (destruct C as [C|C]; [rewrite C; reflexivity|]).
  rewrite C; reflexivity.
Qed.

Lemma range_In n k : 0 <= n < k -> In n (range k).
Proof.
  intros H. unfold range. apply in_map_iff.
  exists (Z.to_nat n). split; [lia|]. apply in_seq. lia.
Qed.

(** On a field of at most two digits, [pad2] is the decimal numeral
    padded with a zero. *)
Lemma pad2_decimal n :
  0 <= n < 100 ->
  PyStr.pad2 n = if n <? 10 then "0" ++ PyStr.of_Z n else PyStr.of_Z n.
Proof.
  intros H.
  assert (Hall : forallb (fun k => String.eqb (PyStr.pad2 k)
                                     (if k <? 10 then "0" ++ PyStr.of_Z k
                                      else PyStr.of_Z k))
                         (range 100) = true) by (vm_compute; reflexivity).
  rewrite forallb_forall in Hall.
  apply String.eqb_eq, Hall, range_In, H.
Qed.

Lemma digit_char_is_number d : is_number_char (PyStr.digit_char d) = true.
Proof. unfold is_number_char. now rewrite digit_char_is_digit. Qed.

Lemma clock_take t rest :
  PyStr.take 15 (strftime_HMSf t ++ rest) = strftime_HMSf t.
Proof. reflexivity. Qed.

Lemma clock_drop t rest :
  PyStr.drop 15 (strftime_HMSf t ++ rest) = rest.
Proof. reflexivity. Qed.

Lemma dash_take rest : PyStr.take 1 ("-" ++ rest) = "-".
Proof. reflexivity. Qed.

Lemma dash_drop rest : PyStr.drop 1 ("-" ++ rest) = rest.
Proof. reflexivity. Qed.

Lemma sep_take rest : PyStr.take 2 ("; " ++ rest) = "; ".
Proof. reflexivity. Qed.

Lemma sep_drop rest : PyStr.drop 2 ("; " ++ rest) = rest.
Proof. reflexivity. Qed.

Lemma is_clock_strftime t : is_clock (strftime_HMSf t) = true.
Proof.
  unfold strftime_HMSf, PyStr.pad2, PyStr.pad6, is_clock.
  cbn [append].
  rewrite !digit_char_is_digit. reflexivity.
Qed.

Lemma all_number_chars_app a b :
  all_number_chars (a ++ b) = all_number_chars a && all_number_chars b.
Proof.
  induction a as [|c a IH]; simpl; auto.
  rewrite IH. now rewrite andb_assoc.
Qed.

Lemma uint_number_chars (u : Decimal.uint) :
  all_number_chars (NilEmpty.string_of_uint u) = true.
Proof. induction u; simpl; auto. Qed.

Lemma of_Z_number_text n : is_number_text (PyStr.of_Z n) = true.
Proof.
  unfold is_number_text, PyStr.of_Z, NilZero.string_of_int, NilZero.string_of_uint.
  destruct (Z.to_int n) as [u|u]; destruct u; simpl; auto using uint_number_chars.
Qed.

Lemma until_semicolon_app d rest :
  all_number_chars d = true ->
  until_semicolon (d ++ String ";"%char rest) = Some (d, rest).
Proof.
  induction d as [|c d IH]; simpl; intros H; auto.
  apply andb_true_iff in H. destruct H as [Hc Hd].
  rewrite (IH Hd).
  destruct (Ascii.eqb c ";"%char) eqn:E; auto.
  apply Ascii.eqb_eq in E. subst c. discriminate.
Qed.

(** A line assembled from two clock stamps, a number and a label has the
    form, with whatever gap was put before the label. *)
Lemma event_line_form_built t1 t2 dur gap label :
  is_number_text dur = true ->
  event_line_form gap
    (strftime_HMSf t1 ++ "-" ++ strftime_HMSf t2 ++ "; " ++ dur ++ ";" ++
     gap ++ label ++ nl) label = true.
Proof.
  intros Hd. unfold event_line_form. cbv zeta.
  rewrite clock_take, clock_drop, dash_take, dash_drop.
  rewrite clock_take, clock_drop, sep_take, sep_drop.
  rewrite !is_clock_strftime.
  unfold is_number_text in Hd. apply andb_true_iff in Hd. destruct Hd as [Hne Hall].
  change (dur ++ ";" ++ gap ++ label ++ nl)
    with (dur ++ String ";"%char (gap ++ label ++ nl)).
  rewrite (until_semicolon_app dur (gap ++ label ++ nl) Hall).
  unfold is_number_text. rewrite Hne, Hall, !String.eqb_refl. reflexivity.
Qed.

Lemma number_text_app a b :
  is_number_text a = true -> all_number_chars b = true ->
  is_number_text (a ++ b) = true.
Proof.
  unfold is_number_text. intros Ha Hb.
  apply andb_true_iff in Ha. destruct Ha as [Hne Hall].
  rewrite all_number_chars_app, Hall, Hb.
  destruct a; [discriminate|reflexivity].
Qed.

Lemma format_2f_number_text neg m e :
  is_number_text (ExcelAnnotations.format_2f (ExcelAnnotations.Finite neg m e)) = true.
Proof.
  unfold ExcelAnnotations.format_2f.
  set (q := if 0 <=? e then _ else _).
  assert (Hbody : is_number_text (PyStr.of_Z (q / 100) ++ "." ++ PyStr.pad2 (q mod 100))
                  = true).
  { apply number_text_app; [apply of_Z_number_text|].
    unfold PyStr.pad2. simpl. now rewrite !digit_char_is_number. }
  destruct neg; [|exact Hbody].
  unfold is_number_text in *. apply andb_true_iff in Hbody.
  destruct Hbody as [_ Hall]. simpl. exact Hall.
Qed.

(** The clock fields of a sum [t + delta] are those of a time of day. *)
Lemma add_time_fields t delta t' :
  add t delta = Some t' ->
  check_time_fields (hour t') (minute t') (second t') (microsecond t') = true.
Proof.
  unfold add. set (total := to_us t + delta).
  destruct ((0 <? total / US_PER_DAY) && (total / US_PER_DAY <=? MAXORDINAL));
    [|discriminate].
  destruct (ord2ymd (total / US_PER_DAY)) as [[y m] d].
  intros H. injection H as <-. simpl.
  unfold check_time_fields, US_PER_DAY, US_PER_SECOND.
  set (rest := total mod (86400 * 1000000)).
  assert (Hr : 0 <= rest < 86400 * 1000000) by (apply Z.mod_pos_bound; lia).
  assert (Hs : 0 <= rest / 1000000 < 86400).
  { split; [apply Z.div_pos; lia|apply Z.div_lt_upper_bound; lia]. }
  assert (Hu : 0 <= rest mod 1000000 < 1000000) by (apply Z.mod_pos_bound; lia).
  set (secs := rest / 1000000) in *.
  assert (Hh : 0 <= secs / 3600 < 24).
  { split; [apply Z.div_pos; lia|apply Z.div_lt_upper_bound; lia]. }
  assert (Hrem : 0 <= secs mod 3600 < 3600) by (apply Z.mod_pos_bound; lia).
  assert (Hm : 0 <= (secs mod 3600) / 60 < 60).
  { split; [apply Z.div_pos; lia|apply Z.div_lt_upper_bound; lia]. }
  assert (Hsec : 0 <= (secs mod 3600) mod 60 < 60) by (apply Z.mod_pos_bound; lia).
  rewrite !andb_true_iff, !Z.leb_le. lia.
Qed.

(** Both stamps of an event built by the extractor are times of day. *)
Lemma make_event_time_fields start a ev :
  EdfAnnotations.make_event start a = Ok ev ->
  let t1 := EdfAnnotations.onset_dt_full ev in
  let t2 := EdfAnnotations.end_dt_full ev in
  check_time_fields (hour t1) (minute t1) (second t1) (microsecond t1) = true /\
  check_time_fields (hour t2) (minute t2) (second t2) (microsecond t2) = true.
Proof.
  intros H. destruct (make_event_inv _ _ _ H) as (_ & t & H1 & <- & _ & H2).
  split; eauto using add_time_fields.
Qed.

End EventLines.

(** C2, as the code has it: every event line of the Arousals and Flow
    Events files reads [HH:MM:SS,ffffff-HH:MM:SS,ffffff; <duration>;] and
    then the label, with nothing around the dash.  The embedded-annotation
    extractor puts the label right after the second semicolon; the
    spreadsheet extractor puts one space between them.  On the concrete
    annotations the embedded-annotation extractor writes the three lines
    of the scenario. *)
Theorem event_line_forms :
  (forall ev,
     LineFormat.event_line_form ""
       (EdfAnnotations.impulse_line ev) (EdfAnnotations.event_text ev) = true) /\
  (forall onset end_ neg m e label,
     LineFormat.event_line_form " "
       (ExcelAnnotations.impulse_line
          (ExcelAnnotations.mkImpulse onset end_ (ExcelAnnotations.Finite neg m e) label))
       label = true) /\
  EdfAnnotations.categorize Scenario.header_start Scenario.annotations
    = Ok Scenario.categories /\
  map EdfAnnotations.sleep_profile_line (EdfAnnotations.sleep_stages Scenario.categories)
    = [ "22:00:00,000000; W" ++ nl; "22:00:30,000000; REM" ++ nl ] /\
  map EdfAnnotations.impulse_line (EdfAnnotations.arousals Scenario.categories)
    = [ "22:00:35,000000-22:00:47,000000; 12;EEG arousal" ++ nl ].
Proof.
  split; [|split; [|repeat split; reflexivity]].
  - intros ev. unfold EdfAnnotations.impulse_line. cbv zeta.
    apply (event_line_form_built _ _ _ "" (EdfAnnotations.event_text ev)).
    apply of_Z_number_text.
  - intros onset end_ neg m e label. unfold ExcelAnnotations.impulse_line. simpl.
    apply (event_line_form_built onset end_ _ " " label).
    apply format_2f_number_text.
Qed.

(** C2 as stated fails for the spreadsheet extractor: its line for a
    19.6 s RERA arousal has a space between the second semicolon and the
    label. *)
Lemma spreadsheet_line_counterexample :
  ExcelAnnotations.impulse_line Scenario.rera
    = "22:00:35,000000-22:00:54,600000; 19.60; RERA" ++ nl /\
  LineFormat.event_line_form ""
    (ExcelAnnotations.impulse_line Scenario.rera)
    (ExcelAnnotations.type Scenario.rera) = false.
Proof. split; reflexivity. Qed.

(** ** The dispatcher: which verdicts start a converter *)

Section DispatcherVerdicts.

Import DetectFormat AutoConvert.

Variable EdfReader : string -> result Pyedflib.reader.
Variable sys_executable : string.
Variable script_dir : PyPath.t.
Variable subprocess_run :
  list string -> Disk.node -> result (completed_process * Disk.node).

(** A path that does not exist is classified [Invalid]. *)
Lemma detect_missing d edf_path :
  Disk.exists_ d (PyPath.to_string edf_path) = false ->
  detect_edf_format EdfReader d edf_path
    = Ok (mkDetection "Invalid" false false None None []
            (Some ("File not found: " ++ PyPath.to_string edf_path))).
Proof. intros H. unfold detect_edf_format. now rewrite H. Qed.

(** The verdict is [Invalid] only for a path that does not exist. *)
Lemma detect_invalid_only_missing d edf_path r :
  detect_edf_format EdfReader d edf_path = Ok r ->
  type r = "Invalid" ->
  Disk.exists_ d (PyPath.to_string edf_path) = false.
Proof.
  unfold detect_edf_format.
  destruct (Disk.exists_ d (PyPath.to_string edf_path)); simpl; auto.
  intros H Ht.
  destruct (PyPath.with_suffix edf_path ".xlsx") as [x|]; simpl in H; [|discriminate].
  destruct (PyPath.with_suffix edf_path ".XLSX") as [y|]; simpl in H; [|discriminate].
  assert (Hty : forall r0 : detection,
             type r0 <> "Invalid" ->
             type (match first_existing d [x; y] with
                   | Some p => set_excel_file (Some p) r0
                   | None => r0
                   end) <> "Invalid").
  { intros r0 Hr0. destruct (first_existing d [x; y]); simpl; auto. }
  injection H as <-. exfalso. revert Ht. apply Hty. clear Hty.
  unfold try_pyedflib.
  destruct (bind (Disk.read d (PyPath.to_string edf_path)) EdfReader) as [f|e].
  - destruct (reader_emg_channels f _ []) as [emg|e]; simpl.
    + destruct (Pyedflib.filetype f =? 1); [discriminate|].
      destruct (Pyedflib.filetype f =? 2); discriminate.
    + unfold try_manual_header.
      destruct (Disk.read d (PyPath.to_string edf_path)) as [c|e']; simpl; [|discriminate].
      match goal with
      | |- type (let (_, _) := match ?o with _ => _ end in _) <> _ =>
          destruct o as [n|]; [destruct (n =? 0)|]
      end; simpl; try discriminate;
      match goal with
      | |- context [PyStr.isdigit ?x] => destruct (PyStr.isdigit x)
      end; simpl; discriminate.
  - unfold try_manual_header.
    destruct (Disk.read d (PyPath.to_string edf_path)) as [c|e']; simpl; [|discriminate].
    match goal with
    | |- type (let (_, _) := match ?o with _ => _ end in _) <> _ =>
        destruct o as [n|]; [destruct (n =? 0)|]
    end; simpl; try discriminate;
    match goal with
    | |- context [PyStr.isdigit ?x] => destruct (PyStr.isdigit x)
    end; simpl; discriminate.
Qed.


End DispatcherVerdicts.

(** C4, as the code has it: for a file classified EDF+D the dispatcher
    starts no converter.  It returns a failed outcome that names the two
    scripts of the manual route, lists no output file and carries the
    message that EDF+D conversion is not automated; the state (disk and
    launched commands) is unchanged. *)
Theorem edfd_not_converted
        (EdfReader : string -> result Pyedflib.reader)
        (sys_executable : string) (script_dir : PyPath.t)
        (subprocess_run :
           list string -> Disk.node -> result (AutoConvert.completed_process * Disk.node))
        (edf_path : PyPath.t) (st : state) (r : DetectFormat.detection) :
  DetectFormat.detect_edf_format EdfReader (disk st) edf_path = Ok r ->
  DetectFormat.type r = "EDF+D" ->
  AutoConvert.convert_single_file EdfReader sys_executable script_dir subprocess_run
                                  edf_path st
  = (Ok (AutoConvert.mkOutcome false
           (Some "convert_test8_to_continuous.py + convert_edf_annotations.py")
           [] (Some AutoConvert.edfd_message)),
     st).
Proof.
  intros Hd Ht.
  unfold AutoConvert.convert_single_file, mbind, get_disk, lift.
  rewrite Hd, Ht. reflexivity.
Qed.

Lemma edfd_not_converted_witness :
  DetectFormat.type
    (match DetectFormat.detect_edf_format Scenario.EdfReader Scenario.tree
             (PyPath.of_string "data/b.EDF") with
     | Ok r => r
     | Raise _ => DetectFormat.mkDetection "" false false None None [] None
     end) = "EDF+D" /\
  AutoConvert.convert_single_file Scenario.EdfReader "python" Scenario.code_dir
    Scenario.child_succeeds (PyPath.of_string "data/b.EDF") Scenario.initial
  = (Ok (AutoConvert.mkOutcome false
           (Some "convert_test8_to_continuous.py + convert_edf_annotations.py")
           [] (Some AutoConvert.edfd_message)),
     Scenario.initial).
Proof.
  split; [reflexivity|].
  eapply (edfd_not_converted Scenario.EdfReader "python" Scenario.code_dir
            Scenario.child_succeeds (PyPath.of_string "data/b.EDF") Scenario.initial).
  - reflexivity.
  - reflexivity.
Defined.

(** C4 as stated fails: for the EDF+D recording [data/b.EDF] the
    dispatcher launches nothing, although every child would succeed, and
    reports failure with no output files. *)
Lemma edfd_counterexample :
  (exists r,
     DetectFormat.detect_edf_format Scenario.EdfReader Scenario.tree
       (PyPath.of_string "data/b.EDF") = Ok r /\
     DetectFormat.type r = "EDF+D") /\
  (exists o st',
     AutoConvert.convert_single_file Scenario.EdfReader "python" Scenario.code_dir
       Scenario.child_succeeds (PyPath.of_string "data/b.EDF") Scenario.initial
     = (Ok o, st') /\
     AutoConvert.success o = false /\
     AutoConvert.output_files o = [] /\
     launched st' = [] /\
     disk st' = Scenario.tree).
Proof.
  split.
  - eexists. split; reflexivity.
  - eexists. eexists. split; [reflexivity|]. repeat split; reflexivity.
Qed.




(** ** The embedded-annotation extractor as a child of the dispatcher *)

Section ExtractorChild.

Import DetectFormat AutoConvert.

Variable EdfReader : string -> result Pyedflib.reader.
Variable sys_executable : string.
Variable script_dir : PyPath.t.
Variable other_program :
  list string -> Disk.node -> result (completed_process * Disk.node).

(** [convert_edf_annotations] never raises: the handler only prints. *)
Lemma convert_edf_annotations_returns edf_path st :
  exists st',
    EdfAnnotations.convert_edf_annotations EdfReader edf_path st = (Ok tt, st').
Proof.
  unfold EdfAnnotations.convert_edf_annotations, try_except.
  destruct (EdfAnnotations.convert_body EdfReader edf_path st) as [[[]|e] st1].
  - eauto.
  - unfold print. eauto.
Qed.

(** The script ends with status 0 whatever happened while reading. *)
Lemma extractor_exit_status edf_file st :
  fst (EdfAnnotations.main EdfReader edf_file st) = 0.
Proof.
  unfold EdfAnnotations.main.
  destruct (convert_edf_annotations_returns edf_file st) as (st' & ->).
  reflexivity.
Qed.

(** When reading fails, the script prints the error and writes nothing. *)
Lemma extractor_read_failure edf_file st e :
  bind (Disk.read (disk st) edf_file) EdfReader = Raise e ->
  EdfAnnotations.main EdfReader edf_file st
  = (0, mkState (disk st)
                (stdout st ++
                 ["An error occurred while processing " ++ edf_file ++ ": " ++ e])
                (launched st)).
Proof.
  intros H.
  unfold EdfAnnotations.main, EdfAnnotations.convert_edf_annotations, try_except,
    EdfAnnotations.convert_body, EdfAnnotations.open_reader, mbind, get_disk, lift.
  rewrite H. reflexivity.
Qed.

(** When the recording is read and the three files can be written, the
    extractor leaves on the disk the three texts built from the
    categorised lists and the effective start time. *)
Lemma convert_edf_annotations_files edf_path st f anns cats d1 d2 d3 :
  bind (Disk.read (disk st) edf_path) EdfReader = Ok f ->
  Pyedflib.readAnnotations f = Ok anns ->
  EdfAnnotations.categorize (Pyedflib.getStartdatetime f) anns = Ok cats ->
  let start_dt :=
    EdfAnnotations.effective_start_of (Pyedflib.getStartdatetime f)
                                      (EdfAnnotations.sleep_stages cats) in
  let base := PyPath.splitext_root (PyPath.basename edf_path) in
  let dir := PyPath.dirname edf_path in
  Disk.write (disk st) (PyPath.join dir (base ++ " Sleep profile.txt"))
    (EdfAnnotations.sleep_profile_text start_dt (EdfAnnotations.sleep_stages cats))
    = Ok d1 ->
  Disk.write d1 (PyPath.join dir (base ++ " Classification Arousals.txt"))
    (EdfAnnotations.impulse_text "Arousals" start_dt (EdfAnnotations.arousals cats))
    = Ok d2 ->
  Disk.write d2 (PyPath.join dir (base ++ " Flow Events.txt"))
    (EdfAnnotations.impulse_text "FlowEvents" start_dt (EdfAnnotations.flow_events cats))
    = Ok d3 ->
  exists out,
    EdfAnnotations.convert_edf_annotations EdfReader edf_path st
    = (Ok tt, mkState d3 out (launched st)).
Proof.
  intros Hopen Hread Hcat start_dt base dir H1 H2 H3.
  unfold EdfAnnotations.convert_edf_annotations, try_except,
    EdfAnnotations.convert_body, EdfAnnotations.open_reader.
  unfold mbind at 1. unfold mbind at 1. unfold get_disk, lift.
  rewrite Hopen. unfold mbind at 1. rewrite Hread.
  unfold mbind at 1. rewrite Hcat.
  fold start_dt. fold base. fold dir.
  unfold EdfAnnotations.write_sleep_profile, EdfAnnotations.write_arousals,
    EdfAnnotations.write_flow_events, write_file, print, mbind.
  destruct (EdfAnnotations.sleep_stages cats) as [|first rest] eqn:Ess;
    cbn [disk stdout launched]; rewrite H1; cbn [disk stdout launched];
    rewrite H2; cbn [disk stdout launched]; rewrite H3; eauto.
Qed.

(** With the extractor as the child, the dispatcher reports success for
    every EDF+C recording with annotations, whatever the extractor met. *)
Lemma edfc_always_reported_success edf_path st r :
  detect_edf_format EdfReader (disk st) edf_path = Ok r ->
  type r = "EDF+C" ->
  has_annotations r = true ->
  exists st',
    convert_single_file EdfReader sys_executable script_dir
      (python_run EdfReader sys_executable script_dir other_program) edf_path st
    = (Ok (mkOutcome true (Some "convert_edf_annotations.py")
                     (text_outputs edf_path) None),
       st').
Proof.
  intros Hd Ht Ha.
  unfold convert_single_file, mbind, get_disk, lift.
  rewrite Hd, Ht, Ha. cbn [String.eqb Ascii.eqb Bool.eqb andb].
  unfold try_except, branch_edfc, mbind, run, python_run, script.
  rewrite !String.eqb_refl. cbn [andb].
  pose proof (extractor_exit_status (PyPath.to_string edf_path)
                (mkState (disk st) [] [])) as Hx.
  destruct (EdfAnnotations.main EdfReader (PyPath.to_string edf_path)
              (mkState (disk st) [] [])) as [code st1].
  simpl in Hx. subst code. cbn. unfold ret. eauto.
Qed.

End ExtractorChild.

(** C7 fails on the code: [data/a.edf] is an EDF+C recording with
    annotations whose annotation block cannot be read.  The extractor
    catches the failure, prints it and ends with status 0; it writes no
    file.  The dispatcher, which tests the status, returns a successful
    outcome that lists three output files. *)
Theorem extractor_failure_reported_as_success :
  (exists r,
     DetectFormat.detect_edf_format Scenario.EdfReader Scenario.tree
       (PyPath.of_string "data/a.edf") = Ok r /\
     DetectFormat.type r = "EDF+C" /\ DetectFormat.has_annotations r = true) /\
  EdfAnnotations.main Scenario.EdfReader "data/a.edf" Scenario.initial
  = (0, mkState Scenario.tree
          ["An error occurred while processing data/a.edf: annotation block is corrupt"]
          []) /\
  AutoConvert.convert_single_file Scenario.EdfReader "python" Scenario.code_dir
    (AutoConvert.python_run Scenario.EdfReader "python" Scenario.code_dir
                            Scenario.child_fails)
    (PyPath.of_string "data/a.edf") Scenario.initial
  = (Ok (AutoConvert.mkOutcome true (Some "convert_edf_annotations.py")
           [ "data/a Sleep profile.txt";
             "data/a Classification Arousals.txt";
             "data/a Flow Events.txt" ]
           None),
     mkState Scenario.tree []
       [ [ "python"; "/opt/code/convert_edf_annotations.py"; "data/a.edf" ] ]) /\
  Disk.exists_ Scenario.tree "data/a Sleep profile.txt" = false.
Proof.
  split.
  - eexists. split; [reflexivity|]. split; reflexivity.
  - repeat split; reflexivity.
Qed.

(** ** The classifier on a path without a name *)

Section ClassifierTotality.

Import DetectFormat.

Variable EdfReader : string -> result Pyedflib.reader.


End ClassifierTotality.

(** C10 fails on the code: the root directory [/] exists, the structured
    reader cannot open it and its raw header cannot be read, and the
    classifier then raises [ValueError] from [with_suffix] instead of
    returning its dictionary; so does the script's [main]. *)
Theorem detect_raises_on_root
        (EdfReader : string -> result Pyedflib.reader)
        (entries : list (string * Disk.node)) :
  Disk.exists_ (Disk.Dir entries) "/" = true /\
  DetectFormat.detect_edf_format EdfReader (Disk.Dir entries) (PyPath.of_string "/")
    = Raise "PosixPath('/') has an empty name" /\
  DetectFormat.main EdfReader "/" (Disk.Dir entries)
    = Raise "PosixPath('/') has an empty name".
Proof. repeat split; reflexivity. Qed.

(** ** The batch over a directory *)

Section Batch.

Import DetectFormat AutoConvert.

Variable EdfReader : string -> result Pyedflib.reader.
Variable sys_executable : string.
Variable script_dir : PyPath.t.
Variable subprocess_run :
  list string -> Disk.node -> result (completed_process * Disk.node).






End Batch.




(** ** The header-normalising converter: verification *)

Section Verification.

Import StandardToEdfplus.

Variable raw : Type.
Variable read_raw_edf : string -> result raw.
Variable export_edfplus : raw -> string -> option string * option exn.
Variable EdfReader : string -> result Pyedflib.reader.

(** When the written file cannot be opened again, the verification
    fails with the reader's error. *)
Lemma reopen_failure_fails_verify d output_edf e :
  bind (Disk.read d (PyPath.to_string output_edf)) EdfReader = Raise e ->
  verify EdfReader d output_edf = Raise e.
Proof. unfold verify. intros ->. reflexivity. Qed.

(** Once the output file is written, the outcome is the result of the
    verification, and the disk stays as the writer left it. *)
Lemma verification_decides_outcome input_edf output_edf st r bytes d' :
  let input := PyPath.of_string input_edf in
  let output :=
    match output_edf with
    | None => PyPath.child (PyPath.parent input) (PyPath.stem input ++ "_edfplus.edf")
    | Some o => PyPath.of_string o
    end in
  Disk.exists_ (disk st) (PyPath.to_string input) = true ->
  bind (Disk.read (disk st) (PyPath.to_string input)) read_raw_edf = Ok r ->
  export_edfplus r (PyPath.stem input) = (Some bytes, None) ->
  Disk.write (disk st) (PyPath.to_string output) bytes = Ok d' ->
  convert_standard_to_edfplus raw read_raw_edf export_edfplus EdfReader
                              input_edf output_edf st
  = (Ok (match verify EdfReader d' output with
         | Ok _ => mkConversion true (Some (PyPath.to_string output)) None
         | Raise e => mkConversion false (Some (PyPath.to_string output))
                                   (Some ("Verification failed: " ++ e))
         end),
     mkState d' (stdout st) (launched st)).
Proof.
  intros input output Hex Hread Hexp Hw.
  unfold convert_standard_to_edfplus. fold input. fold output.
  unfold mbind at 1. unfold get_disk at 1. rewrite Hex. cbn [negb].
  unfold try_except at 1. unfold mbind at 1. unfold lift at 1. rewrite Hread.
  unfold mbind at 1. unfold write_output. rewrite Hexp.
  unfold mbind at 1. unfold write_file. rewrite Hw.
  unfold ret at 1. unfold try_except, mbind, get_disk, lift. cbn [disk].
  destruct (verify EdfReader d' output) as [[]|e]; reflexivity.
Qed.

End Verification.

(** C5: after the converter has written the new recording it opens the
    written file again with the structured reader; when that fails, the
    conversion's outcome is a failure carrying [Verification failed:] and
    the error, the script ends with status 1, and the disk is left as the
    writer left it, the output file included. *)
Theorem verification_failure_is_conversion_failure
        (raw : Type)
        (read_raw_edf : string -> result raw)
        (export_edfplus : raw -> string -> option string * option exn)
        (EdfReader : string -> result Pyedflib.reader)
        (input_edf : string) (output_edf : option string) (st : state)
        (r : raw) (bytes : string) (d' : Disk.node) (e : exn) :
  let input := PyPath.of_string input_edf in
  let output :=
    match output_edf with
    | None => PyPath.child (PyPath.parent input) (PyPath.stem input ++ "_edfplus.edf")
    | Some o => PyPath.of_string o
    end in
  Disk.exists_ (disk st) (PyPath.to_string input) = true ->
  bind (Disk.read (disk st) (PyPath.to_string input)) read_raw_edf = Ok r ->
  export_edfplus r (PyPath.stem input) = (Some bytes, None) ->
  Disk.write (disk st) (PyPath.to_string output) bytes = Ok d' ->
  bind (Disk.read d' (PyPath.to_string output)) EdfReader = Raise e ->
  StandardToEdfplus.convert_standard_to_edfplus raw read_raw_edf export_edfplus EdfReader
                                                input_edf output_edf st
  = (Ok (StandardToEdfplus.mkConversion false (Some (PyPath.to_string output))
           (Some ("Verification failed: " ++ e))),
     mkState d' (stdout st) (launched st)) /\
  StandardToEdfplus.main raw read_raw_edf export_edfplus EdfReader input_edf output_edf st
  = (Ok 1, mkState d' (stdout st) (launched st)).
Proof.
  intros input output Hex Hread Hexp Hw Hre.
  pose proof (verification_decides_outcome raw read_raw_edf export_edfplus EdfReader
                input_edf output_edf st r bytes d' Hex Hread Hexp Hw) as H.
  fold input in H. fold output in H.
  rewrite (reopen_failure_fails_verify EdfReader d' output e Hre) in H.
  split; [exact H|].
  unfold StandardToEdfplus.main, mbind. rewrite H. reflexivity.
Qed.

Lemma verification_failure_is_conversion_failure_witness :
  Disk.read Scenario.tree_after_export "data/e_edfplus.edf" = Ok "garbled" /\
  StandardToEdfplus.convert_standard_to_edfplus unit Scenario.read_raw_edf
    Scenario.export_garbled Scenario.EdfReader "data/e.edf" None Scenario.initial
  = (Ok (StandardToEdfplus.mkConversion false (Some "data/e_edfplus.edf")
           (Some "Verification failed: not an EDF compliant file")),
     mkState Scenario.tree_after_export [] []) /\
  StandardToEdfplus.main unit Scenario.read_raw_edf Scenario.export_garbled
    Scenario.EdfReader "data/e.edf" None Scenario.initial
  = (Ok 1, mkState Scenario.tree_after_export [] []).
Proof.
  split; [reflexivity|].
  apply (verification_failure_is_conversion_failure unit Scenario.read_raw_edf
           Scenario.export_garbled Scenario.EdfReader "data/e.edf" None Scenario.initial
           tt "garbled" Scenario.tree_after_export "not an EDF compliant file");
    reflexivity.
Defined.

(** ** The spreadsheet extractor: timestamps *)

Section Timestamps.

Import ExcelAnnotations.

(** Datetimes of one day are ordered by their time of day. *)
Lemma ltb_same_day y m d h1 mi1 s1 us1 h2 mi2 s2 us2 :
  check_time_fields h1 mi1 s1 us1 = true ->
  check_time_fields h2 mi2 s2 us2 = true ->
  us_of_day h1 mi1 s1 us1 < us_of_day h2 mi2 s2 us2 ->
  ltb (mkDatetime y m d h1 mi1 s1 us1) (mkDatetime y m d h2 mi2 s2 us2) = true.
Proof.
  unfold check_time_fields, us_of_day, US_PER_SECOND, ltb. simpl.
  rewrite !andb_true_iff, !Z.leb_le. intros H1 H2 Hlt.
  rewrite !Z.ltb_irrefl, !Z.eqb_refl. simpl.
  destruct (Z.ltb_spec h1 h2); simpl; auto.
  destruct (Z.eqb_spec h1 h2); simpl; [subst|lia].
  destruct (Z.ltb_spec mi1 mi2); simpl; auto.
  destruct (Z.eqb_spec mi1 mi2); simpl; [subst|lia].
  destruct (Z.ltb_spec s1 s2); simpl; auto.
  destruct (Z.eqb_spec s1 s2); simpl; [subst|lia].
  destruct (Z.ltb_spec us1 us2); simpl; auto. lia.
Qed.

Lemma parse_timestamp_ok timestamp_str edf_start_time st t :
  parse_timestamp_try timestamp_str edf_start_time = Ok t ->
  parse_timestamp timestamp_str edf_start_time st = (Ok t, st).
Proof.
  intros H. unfold parse_timestamp, try_except, lift. now rewrite H.
Qed.

End Timestamps.

(** C9: the spreadsheet's time of day is combined with the header's
    calendar date and no day is added.  So for every row whose time of
    day parses and is earlier than the time of day of the header start,
    the onset computed is on the header's date and precedes the
    recording's start. *)
Theorem timestamp_before_start_keeps_header_date
        (timestamp_str : string) (edf_start_time : datetime) (st : state)
        (h mi s us : Z) :
  valid edf_start_time ->
  ExcelAnnotations.parse_fields timestamp_str = Ok (h, mi, s, us) ->
  check_time_fields h mi s us = true ->
  us_of_day h mi s us
    < us_of_day (hour edf_start_time) (minute edf_start_time)
                (second edf_start_time) (microsecond edf_start_time) ->
  let onset :=
    mkDatetime (year edf_start_time) (month edf_start_time) (day edf_start_time)
               h mi s us in
  ExcelAnnotations.parse_timestamp timestamp_str edf_start_time st = (Ok onset, st) /\
  ltb onset edf_start_time = true.
Proof.
  intros [Hdate Htime] Hf Hc Hlt onset. split.
  - apply parse_timestamp_ok.
    unfold ExcelAnnotations.parse_timestamp_try. rewrite Hf. simpl.
    unfold make. rewrite Hdate, Hc. reflexivity.
  - destruct edf_start_time as [y m d h2 mi2 s2 us2]. simpl in *.
    now apply ltb_same_day.
Qed.

Lemma timestamp_before_start_keeps_header_date_witness :
  ExcelAnnotations.parse_timestamp "00:30:15.57" Scenario.header_start Scenario.initial
    = (Ok (mkDatetime 2024 1 1 0 30 15 570000), Scenario.initial) /\
  ltb (mkDatetime 2024 1 1 0 30 15 570000) Scenario.header_start = true /\
  ExcelAnnotations.extract_sleep_stages [Scenario.after_midnight] Scenario.header_start
                                        Scenario.initial
    = (Ok [ExcelAnnotations.mkStage (mkDatetime 2024 1 1 0 30 15 570000) "N2"],
       Scenario.initial).
Proof.
  destruct (timestamp_before_start_keeps_header_date
              "00:30:15.57" Scenario.header_start Scenario.initial 0 30 15 570000)
    as [Hp Hlt].
  - split; reflexivity.
  - reflexivity.
  - reflexivity.
  - reflexivity.
  - split; [exact Hp|]. split; [exact Hlt|]. reflexivity.
Defined.

(* ================================================================== *)
(** * Further properties of the converters *)
(* ================================================================== *)

(** ** The dispatcher: outcomes *)

Section DispatcherOutcomes.

Import DetectFormat AutoConvert.

Variable EdfReader : string -> result Pyedflib.reader.
Variable sys_executable : string.
Variable script_dir : PyPath.t.
Variable subprocess_run :
  list string -> Disk.node -> result (completed_process * Disk.node).

(** Both converter branches return their pair of output files and error;
    an exception of [subprocess.run] becomes the error. *)
Lemma branch_edfc_caught edf_path st :
  exists files err st',
    try_except (branch_edfc sys_executable script_dir subprocess_run edf_path)
               (fun e => ret ([], Some e)) st
    = (Ok (files, err), st') /\
    ((err = None /\ files = text_outputs edf_path) \/
     (err <> None /\ files = [])).
Proof.
  unfold try_except, branch_edfc, mbind, run.
  destruct (subprocess_run _ (disk st)) as [[proc d']|e].
  - destruct (negb (returncode proc =? 0)); unfold ret;
      do 3 eexists; (split; [reflexivity|]); [right|left]; split;
      try reflexivity; discriminate.
  - unfold ret. do 3 eexists. split; [reflexivity|]. right. split;
      [discriminate|reflexivity].
Qed.

Lemma branch_standard_caught edf_path excel st :
  exists files err st',
    try_except (branch_standard sys_executable script_dir subprocess_run edf_path excel)
               (fun e => ret ([], Some e)) st
    = (Ok (files, err), st') /\
    ((err = None /\
      files = PyPath.to_string
                (PyPath.child (PyPath.parent edf_path)
                              (PyPath.stem edf_path ++ "_edfplus.edf"))
              :: text_outputs edf_path) \/
     (err <> None /\ files = [])).
Proof.
  unfold try_except, branch_standard, mbind, run.
  destruct (subprocess_run _ (disk st)) as [[proc d']|e].
  - destruct (negb (returncode proc =? 0)).
    + unfold ret. do 3 eexists. split; [reflexivity|]. right.
      split; [discriminate|reflexivity].
    + cbn [disk stdout launched].
      destruct (subprocess_run _ d') as [[proc2 d'']|e].
      * destruct (negb (returncode proc2 =? 0)); unfold ret;
          do 3 eexists; (split; [reflexivity|]); [right|left]; split;
          try reflexivity; discriminate.
      * unfold ret. do 3 eexists. split; [reflexivity|]. right. split;
          [discriminate|reflexivity].
  - unfold ret. do 3 eexists. split; [reflexivity|]. right. split;
      [discriminate|reflexivity].
Qed.

(** An outcome is either a success, with no error, a converter and the
    expected output paths, or a failure, with an error and no output. *)
Lemma convert_single_file_shape edf_path st o st' :
  convert_single_file EdfReader sys_executable script_dir subprocess_run edf_path st
    = (Ok o, st') ->
  (error o = None /\ success o = true /\ converter_used o <> None /\
   (output_files o = text_outputs edf_path \/
    output_files o = PyPath.to_string
                       (PyPath.child (PyPath.parent edf_path)
                                     (PyPath.stem edf_path ++ "_edfplus.edf"))
                     :: text_outputs edf_path)) \/
  (error o <> None /\ success o = false /\ output_files o = []).
Proof.
  unfold convert_single_file. unfold mbind at 1. unfold get_disk at 1.
  unfold mbind at 1. unfold lift at 1.
  destruct (detect_edf_format EdfReader (disk st) edf_path) as [r|e] eqn:Hd;
    [|discriminate].
  destruct (String.eqb (type r) "Invalid") eqn:Einv.
  - apply String.eqb_eq in Einv.
    pose proof (detect_invalid_only_missing _ _ _ _ Hd Einv) as Hmiss.
    rewrite (detect_missing EdfReader _ _ Hmiss) in Hd. injection Hd as <-.
    unfold ret. intros H. injection H as <- <-. right. simpl.
    repeat split; auto; discriminate.
  - destruct (String.eqb (type r) "EDF+C" && has_annotations r).
    + unfold mbind at 1. unfold mbind at 1.
      destruct (branch_edfc_caught edf_path st) as (files & err & st1 & -> & Hc).
      unfold ret. intros H. injection H as <- <-. simpl.
      destruct Hc as [[-> ->]|[Hne ->]].
      * left. repeat split; auto; discriminate.
      * right. destruct err; [|contradiction]. repeat split; auto; discriminate.
    + destruct (String.eqb (type r) "EDF+D").
      * unfold mbind, ret. intros H. injection H as <- <-. right. simpl.
        repeat split; auto; discriminate.
      * destruct (String.eqb (type r) "Standard" && truthy (excel_file r)).
        -- unfold mbind at 1. unfold mbind at 1.
           destruct (branch_standard_caught edf_path
                       (match excel_file r with Some x => x | None => "" end) st)
             as (files & err & st1 & -> & Hc).
           unfold ret. intros H. injection H as <- <-. simpl.
           destruct Hc as [[-> ->]|[Hne ->]].
           ++ left. repeat split; auto; discriminate.
           ++ right. destruct err; [|contradiction]. repeat split; auto; discriminate.
        -- unfold mbind, ret. intros H. injection H as <- <-. right. simpl.
           repeat split; auto; discriminate.
Qed.






End DispatcherOutcomes.

(** On every outcome the dispatcher returns, the success flag is set
    exactly when there is no error; a failure lists no output file, and a
    success names its converter and lists the three text files of the
    recording, preceded by the converted recording on the spreadsheet
    route. *)
Theorem dispatcher_outcome_consistent
        (EdfReader : string -> result Pyedflib.reader)
        (sys_executable : string) (script_dir : PyPath.t)
        (subprocess_run :
           list string -> Disk.node -> result (AutoConvert.completed_process * Disk.node))
        (edf_path : PyPath.t) (st st' : state) (o : AutoConvert.outcome) :
  AutoConvert.convert_single_file EdfReader sys_executable script_dir subprocess_run
                                  edf_path st = (Ok o, st') ->
  (AutoConvert.success o = true <-> AutoConvert.error o = None) /\
  (AutoConvert.success o = false -> AutoConvert.output_files o = []) /\
  (AutoConvert.success o = true ->
   AutoConvert.converter_used o <> None /\
   (AutoConvert.output_files o = AutoConvert.text_outputs edf_path \/
    AutoConvert.output_files o
    = PyPath.to_string (PyPath.child (PyPath.parent edf_path)
                                     (PyPath.stem edf_path ++ "_edfplus.edf"))
      :: AutoConvert.text_outputs edf_path)).
Proof.
  intros H.
  destruct (convert_single_file_shape _ _ _ _ _ _ _ _ H)
    as [(He & Hs & Hc & Hf)|(He & Hs & Hf)].
  - rewrite Hs, He. repeat split; auto; discriminate.
  - rewrite Hs. repeat split; auto; try discriminate; try contradiction.
Qed.

Lemma dispatcher_outcome_consistent_witness :
  AutoConvert.success
    (AutoConvert.mkOutcome false None []
       (Some "No suitable converter found for this EDF format")) = false /\
  AutoConvert.output_files
    (AutoConvert.mkOutcome false None []
       (Some "No suitable converter found for this EDF format")) = [].
Proof.
  split; [reflexivity|].
  destruct (dispatcher_outcome_consistent Scenario.EdfReader "python" Scenario.code_dir
              Scenario.child_succeeds (PyPath.of_string "data/f.edf")
              Scenario.initial Scenario.initial
              (AutoConvert.mkOutcome false None []
                 (Some "No suitable converter found for this EDF format"))
              eq_refl) as (_ & Hfail & _).
  apply Hfail. reflexivity.
Defined.



(** On the spreadsheet route the recording is converted first and the
    annotations second, the second child finding the disk the first one
    left.  When the first child ends with a non-zero status the second is
    not launched and the outcome carries [EDF conversion failed:] with the
    child's error output; when both end with status 0 the outcome lists
    the converted recording and the three text files. *)
Theorem standard_route_order
        (EdfReader : string -> result Pyedflib.reader)
        (sys_executable : string) (script_dir : PyPath.t)
        (subprocess_run :
           list string -> Disk.node -> result (AutoConvert.completed_process * Disk.node))
        (edf_path : PyPath.t) (st : state) (r : DetectFormat.detection)
        (excel : string) (proc_edf : AutoConvert.completed_process) (d1 : Disk.node) :
  let edfplus :=
    PyPath.to_string (PyPath.child (PyPath.parent edf_path)
                                   (PyPath.stem edf_path ++ "_edfplus.edf")) in
  let cmd_edf :=
    [ sys_executable;
      PyPath.to_string (PyPath.child script_dir "convert_standard_to_edfplus.py");
      PyPath.to_string edf_path; edfplus ] in
  let cmd_anno :=
    [ sys_executable;
      PyPath.to_string (PyPath.child script_dir "convert_excel_annotations.py");
      PyPath.to_string edf_path; excel ] in
  DetectFormat.detect_edf_format EdfReader (disk st) edf_path = Ok r ->
  DetectFormat.type r = "Standard" ->
  DetectFormat.excel_file r = Some excel ->
  excel <> "" ->
  subprocess_run cmd_edf (disk st) = Ok (proc_edf, d1) ->
  (AutoConvert.returncode proc_edf <> 0 ->
   AutoConvert.convert_single_file EdfReader sys_executable script_dir subprocess_run
                                   edf_path st
   = (Ok (AutoConvert.mkOutcome false
            (Some "convert_excel_annotations.py + convert_standard_to_edfplus.py") []
            (Some ("EDF conversion failed: " ++ AutoConvert.proc_stderr proc_edf))),
      mkState d1 (stdout st) (launched st ++ [cmd_edf]))) /\
  (AutoConvert.returncode proc_edf = 0 ->
   forall proc_anno d2,
     subprocess_run cmd_anno d1 = Ok (proc_anno, d2) ->
     AutoConvert.returncode proc_anno = 0 ->
     AutoConvert.convert_single_file EdfReader sys_executable script_dir subprocess_run
                                     edf_path st
     = (Ok (AutoConvert.mkOutcome true
              (Some "convert_excel_annotations.py + convert_standard_to_edfplus.py")
              (edfplus :: AutoConvert.text_outputs edf_path) None),
        mkState d2 (stdout st) (launched st ++ [cmd_edf] ++ [cmd_anno]))).
Proof.
  intros edfplus cmd_edf cmd_anno Hd Ht Hx Hne Hrun.
  assert (Htruthy : AutoConvert.truthy (DetectFormat.excel_file r) = true).
  { rewrite Hx. simpl. destruct (String.eqb excel "") eqn:E; auto.
    apply String.eqb_eq in E. contradiction. }
  split.
  - intros Hrc.
    unfold AutoConvert.convert_single_file, mbind, get_disk, lift.
    rewrite Hd, Ht, Htruthy, Hx.
    cbn [String.eqb Ascii.eqb Bool.eqb andb].
    unfold try_except, AutoConvert.branch_standard, mbind, AutoConvert.run,
      AutoConvert.script.
    fold edfplus. fold cmd_edf. rewrite Hrun.
    destruct (AutoConvert.returncode proc_edf =? 0) eqn:E;
      [apply Z.eqb_eq in E; contradiction|].
    reflexivity.
  - intros Hrc proc_anno d2 Hrun2 Hrc2.
    unfold AutoConvert.convert_single_file, mbind, get_disk, lift.
    rewrite Hd, Ht, Htruthy, Hx.
    cbn [String.eqb Ascii.eqb Bool.eqb andb].
    unfold try_except, AutoConvert.branch_standard, mbind, AutoConvert.run,
      AutoConvert.script.
    fold edfplus. fold cmd_edf. rewrite Hrun. rewrite Hrc.
    cbn [Z.eqb negb disk stdout launched].
    fold cmd_anno. rewrite Hrun2, Hrc2.
    cbn [Z.eqb negb disk stdout launched]. unfold ret.
    rewrite <- app_assoc. reflexivity.
Qed.

Lemma standard_route_order_witness :
  AutoConvert.convert_single_file Scenario.EdfReader "python" Scenario.code_dir
    Scenario.child_fails (PyPath.of_string "data/e.edf") Scenario.initial
  = (Ok (AutoConvert.mkOutcome false
           (Some "convert_excel_annotations.py + convert_standard_to_edfplus.py") []
           (Some "EDF conversion failed: failed")),
     mkState Scenario.tree []
       [ [ "python"; "/opt/code/convert_standard_to_edfplus.py"; "data/e.edf";
           "data/e_edfplus.edf" ] ]).
Proof.
  destruct (standard_route_order Scenario.EdfReader "python" Scenario.code_dir
              Scenario.child_fails (PyPath.of_string "data/e.edf") Scenario.initial
              (DetectFormat.mkDetection "Standard" false false (Some "data/e.xlsx")
                                        None [] None)
              "data/e.xlsx" (AutoConvert.mkProc 1 "" "failed") Scenario.tree)
    as [Hfail _];
    [reflexivity | reflexivity | reflexivity | discriminate | reflexivity |].
  apply Hfail. discriminate.
Defined.

(** ** The batch: it runs to its end and its counts agree *)



(** ** The header-normalising converter: what every run guarantees *)

Section ConverterRuns.

Import StandardToEdfplus.

Variable raw : Type.
Variable read_raw_edf : string -> result raw.
Variable export_edfplus : raw -> string -> option string * option exn.
Variable EdfReader : string -> result Pyedflib.reader.

Lemma verify_ok_reopens d output_edf :
  verify EdfReader d output_edf = Ok tt ->
  exists f, bind (Disk.read d (PyPath.to_string output_edf)) EdfReader = Ok f.
Proof.
  unfold verify.
  destruct (bind (Disk.read d (PyPath.to_string output_edf)) EdfReader) as [f|e];
    simpl; [eauto|discriminate].
Qed.

(** The inner [try] of the verification always yields a dictionary. *)
Lemma verification_block output_edf st :
  try_except
    (d' <~ get_disk ;;
     lift (verify EdfReader d' output_edf) ;;;
     ret (mkConversion true (Some (PyPath.to_string output_edf)) None))
    (fun e => ret (mkConversion false (Some (PyPath.to_string output_edf))
                                (Some ("Verification failed: " ++ e)))) st
  = (Ok (match verify EdfReader (disk st) output_edf with
         | Ok _ => mkConversion true (Some (PyPath.to_string output_edf)) None
         | Raise e => mkConversion false (Some (PyPath.to_string output_edf))
                                   (Some ("Verification failed: " ++ e))
         end), st).
Proof.
  unfold try_except, mbind, get_disk, lift, ret.
  destruct (verify EdfReader (disk st) output_edf) as [[]|e]; reflexivity.
Qed.

(** Every run ends in one of four ways. *)
Lemma convert_cases input_edf output_edf st :
  let input := PyPath.of_string input_edf in
  let output :=
    match output_edf with
    | None => PyPath.child (PyPath.parent input) (PyPath.stem input ++ "_edfplus.edf")
    | Some o => PyPath.of_string o
    end in
  exists c st',
    convert_standard_to_edfplus raw read_raw_edf export_edfplus EdfReader
                                input_edf output_edf st = (Ok c, st') /\
    stdout st' = stdout st /\ launched st' = launched st /\
    ((c = mkConversion false None
            (Some ("Input file not found: " ++ PyPath.to_string input)) /\
      Disk.exists_ (disk st) (PyPath.to_string input) = false /\ st' = st) \/
     (exists e, c = mkConversion false None (Some e)) \/
     (exists e, c = mkConversion false (Some (PyPath.to_string output))
                                 (Some ("Verification failed: " ++ e)) /\
                verify EdfReader (disk st') output = Raise e) \/
     (c = mkConversion true (Some (PyPath.to_string output)) None /\
      verify EdfReader (disk st') output = Ok tt)).
Proof.
  intros input output.
  unfold convert_standard_to_edfplus. fold input. fold output.
  unfold mbind at 1. unfold get_disk at 1.
  destruct (Disk.exists_ (disk st) (PyPath.to_string input)) eqn:Hex; cbn [negb].
  - unfold try_except at 1. unfold mbind at 1. unfold lift at 1.
    destruct (bind (Disk.read (disk st) (PyPath.to_string input)) read_raw_edf)
      as [r|e].
    + unfold mbind at 1. unfold write_output.
      destruct (export_edfplus r (PyPath.stem input)) as [[bytes|] [e|]].
      * unfold mbind at 1. unfold write_file.
        destruct (Disk.write (disk st) (PyPath.to_string output) bytes) as [d'|e'];
          unfold raise, ret; do 2 eexists; (split; [reflexivity|]);
          (split; [reflexivity|]); (split; [reflexivity|]); right; left; eauto.
      * unfold mbind at 1. unfold write_file.
        destruct (Disk.write (disk st) (PyPath.to_string output) bytes) as [d'|e'].
        -- unfold ret at 1. rewrite verification_block. cbn [disk].
           destruct (verify EdfReader d' output) as [[]|e] eqn:Hv;
             do 2 eexists; (split; [reflexivity|]);
             (split; [reflexivity|]); (split; [reflexivity|]); right; right;
             [right|left]; cbn [disk]; eauto.
        -- unfold ret. do 2 eexists. split; [reflexivity|].
           split; [reflexivity|]. split; [reflexivity|]. right. left. eauto.
      * unfold raise, ret. do 2 eexists. split; [reflexivity|].
        split; [reflexivity|]. split; [reflexivity|]. right. left. eauto.
      * unfold ret at 1. rewrite verification_block.
        destruct (verify EdfReader (disk st) output) as [[]|e] eqn:Hv;
          do 2 eexists; (split; [reflexivity|]);
          (split; [reflexivity|]); (split; [reflexivity|]); right; right;
          [right|left]; eauto.
    + unfold ret. do 2 eexists. split; [reflexivity|].
      split; [reflexivity|]. split; [reflexivity|]. right. left. eauto.
  - unfold ret. do 2 eexists. split; [reflexivity|].
    split; [reflexivity|]. split; [reflexivity|]. left. auto.
Qed.

End ConverterRuns.


(** A successful outcome is a verified one: whenever the converter
    reports success, the output path it returns names a file that the
    structured reader opens on the disk the run leaves. *)
Theorem converter_success_is_verified
        (raw : Type)
        (read_raw_edf : string -> result raw)
        (export_edfplus : raw -> string -> option string * option exn)
        (EdfReader : string -> result Pyedflib.reader)
        (input_edf : string) (output_edf : option string) (st st' : state)
        (c : StandardToEdfplus.conversion) :
  StandardToEdfplus.convert_standard_to_edfplus raw read_raw_edf export_edfplus
    EdfReader input_edf output_edf st = (Ok c, st') ->
  StandardToEdfplus.success c = true ->
  exists out f,
    StandardToEdfplus.output_path c = Some out /\
    bind (Disk.read (disk st') out) EdfReader = Ok f.
Proof.
  intros H Hs.
  destruct (convert_cases raw read_raw_edf export_edfplus EdfReader
              input_edf output_edf st)
    as (c0 & st0 & H0 & _ & _ & Hcases).
  rewrite H in H0. injection H0 as <- <-.
  destruct Hcases as [(-> & _)|[(e & ->)|[(e & -> & _)|(-> & Hv)]]];
    try discriminate.
  destruct (verify_ok_reopens _ _ _ Hv) as (f & Hf).
  eexists. exists f. split; [reflexivity|exact Hf].
Qed.


Lemma converter_success_is_verified_witness :
  exists out f,
    StandardToEdfplus.output_path
      (StandardToEdfplus.mkConversion true (Some "data/conv.edf") None) = Some out /\
    bind (Disk.read
            (match Disk.write Scenario.tree "data/conv.edf" "C" with
             | Ok d => d
             | Raise _ => Scenario.tree
             end) out) Scenario.EdfReader = Ok f.
Proof.
  apply (converter_success_is_verified unit Scenario.read_raw_edf
           (fun _ _ => (Some "C", None)) Scenario.EdfReader
           "data/e.edf" (Some "data/conv.edf") Scenario.initial
           (mkState (match Disk.write Scenario.tree "data/conv.edf" "C" with
                     | Ok d => d
                     | Raise _ => Scenario.tree
                     end) [] [])).
  - reflexivity.
  - reflexivity.
Defined.


(** ** The classifier: what its dictionary always satisfies *)

Section ClassifierInvariants.

Import DetectFormat.

Variable EdfReader : string -> result Pyedflib.reader.

Lemma detect_existing d edf_path :
  Disk.exists_ d (PyPath.to_string edf_path) = true ->
  detect_edf_format EdfReader d edf_path
  = bind (PyPath.with_suffix edf_path ".xlsx") (fun xlsx =>
    bind (PyPath.with_suffix edf_path ".XLSX") (fun XLSX =>
    Ok (match first_existing d [xlsx; XLSX] with
        | Some p => set_excel_file (Some p) (detect_before_probe EdfReader d edf_path)
        | None => detect_before_probe EdfReader d edf_path
        end))).
Proof. intros H. unfold detect_edf_format. rewrite H. reflexivity. Qed.

Lemma In_range i n : In i (range n) -> 0 <= i < n.
Proof.
  unfold range. intros H. apply in_map_iff in H. destruct H as (k & <- & Hk).
  apply in_seq in Hk. lia.
Qed.

(** The channels kept by the loop over the reader's labels. *)
Lemma reader_emg_channels_spec f idx : forall acc emg,
  reader_emg_channels f idx acc = Ok emg ->
  exists kept,
    emg = (acc ++ kept)%list /\
    Forall (fun il => In (fst il) idx /\
                      Pyedflib.getLabel f (fst il) = Ok (snd il) /\
                      is_emg_label (snd il) = true) kept.
Proof.
  induction idx as [|i idx IH]; intros acc emg H; simpl in H.
  - injection H as <-. exists []. rewrite app_nil_r. auto.
  - destruct (Pyedflib.getLabel f i) as [label|e] eqn:El; simpl in H; [|discriminate].
    apply IH in H. destruct H as (kept & -> & Hk).
    assert (Hk' : Forall (fun il => In (fst il) (i :: idx) /\
                                    Pyedflib.getLabel f (fst il) = Ok (snd il) /\
                                    is_emg_label (snd il) = true) kept).
    { eapply Forall_impl; [|exact Hk]. simpl. intros a (H1 & H2 & H3). auto. }
    destruct (is_emg_label label) eqn:Ee.
    + exists ((i, label) :: kept). rewrite <- app_assoc. split; [reflexivity|].
      constructor; simpl; auto.
    + exists kept. auto.
Qed.

(** The channels kept by the loop over the raw label table. *)
Lemma header_emg_channels_spec label_bytes n :
  Forall (fun il => In (fst il) (range n) /\ is_emg_label (snd il) = true)
         (header_emg_channels label_bytes n).
Proof.
  unfold header_emg_channels.
  assert (Hgen : forall idx acc,
             Forall (fun il => In (fst il) (range n) /\ is_emg_label (snd il) = true) acc ->
             (forall i, In i idx -> In i (range n)) ->
             Forall (fun il => In (fst il) (range n) /\ is_emg_label (snd il) = true)
               (fold_left
                  (fun (acc : list (Z * string)) i =>
                     let label := PyStr.strip (PyStr.decode_ascii_ignore
                                    (PyStr.take 16 (PyStr.drop (Z.to_nat (i * 16))
                                                               label_bytes))) in
                     if is_emg_label label then (acc ++ [(i, label)])%list else acc)
                  idx acc)).
  { induction idx as [|i idx IH]; intros acc Hacc Hidx; simpl; auto.
    apply IH.
    - destruct (is_emg_label _) eqn:E; auto.
      apply Forall_app. split; auto. constructor; auto. simpl. split; auto.
      apply Hidx. now left.
    - intros k Hk. apply Hidx. now right. }
  apply Hgen; auto.
Qed.

Lemma try_manual_header_keeps d edf_path r0 r1 err :
  try_manual_header d edf_path r0 = (r1, err) ->
  emg_channels r0 = [] ->
  type r1 = type r0 /\ has_annotations r1 = has_annotations r0 /\
  pyedflib_compatible r1 = pyedflib_compatible r0 /\
  excel_file r1 = excel_file r0 /\ error r1 = error r0 /\
  emg_channels_sound r1 /\
  (err <> None -> r1 = r0).
Proof.
  unfold try_manual_header, emg_channels_sound. intros H Hemg.
  destruct (Disk.read d (PyPath.to_string edf_path)) as [content|e].
  - set (field := PyStr.strip (PyStr.decode_ascii_ignore
                    (PyStr.take 4 (PyStr.drop 252 (PyStr.take 256 content))))) in *.
    cbv zeta in H.
    set (r' := if PyStr.isdigit field
               then set_num_signals (PyStr.int field) r0 else r0) in *.
    assert (Hr' : type r' = type r0 /\ has_annotations r' = has_annotations r0 /\
                  pyedflib_compatible r' = pyedflib_compatible r0 /\
                  excel_file r' = excel_file r0 /\ error r' = error r0 /\
                  emg_channels r' = []).
    { unfold r'. destruct (PyStr.isdigit field); simpl; auto 10. }
    destruct Hr' as (H1 & H2 & H3 & H4 & H5 & H6).
    destruct (num_signals r') as [n|] eqn:En.
    + destruct (n =? 0).
      * injection H as <- <-. rewrite H6. repeat split; auto. intros Hc.
        now contradiction Hc.
      * injection H as <- <-. simpl. repeat split; auto.
        -- eapply Forall_impl; [|apply header_emg_channels_spec].
           simpl. intros a (Hin & He). split; auto.
           exists n. split; auto. now apply In_range.
        -- intros Hc. now contradiction Hc.
    + injection H as <- <-. rewrite H6. repeat split; auto. intros Hc.
      now contradiction Hc.
  - injection H as <- <-. rewrite Hemg. repeat split; auto.
Qed.

(** What [detect_before_probe] yields: the dictionary of an opened
    recording, or a [Standard] one built from the raw header. *)
Lemma before_probe_cases d edf_path :
  let r := detect_before_probe EdfReader d edf_path in
  excel_file r = None /\ emg_channels_sound r /\
  ((exists f,
      bind (Disk.read d (PyPath.to_string edf_path)) EdfReader = Ok f /\
      type r = (if Pyedflib.filetype f =? 1 then "EDF+C"
                else if Pyedflib.filetype f =? 2 then "EDF+D" else "Standard") /\
      pyedflib_compatible r = true /\
      has_annotations r = (0 <? Pyedflib.annotations_in_file f) /\
      num_signals r = Some (Pyedflib.signals_in_file f) /\
      error r = None) \/
   (type r = "Standard" /\ pyedflib_compatible r = false /\
    (error r <> None ->
     emg_channels r = [] /\
     exists e, Disk.read d (PyPath.to_string edf_path) = Raise e))).
Proof.
  unfold detect_before_probe, try_pyedflib.
  destruct (bind (Disk.read d (PyPath.to_string edf_path)) EdfReader) as [f|e] eqn:Hopen.
  - destruct (reader_emg_channels f (range (Pyedflib.signals_in_file f)) [])
      as [emg|e] eqn:Hloop.
    + cbv zeta. split; [reflexivity|]. split.
      * unfold emg_channels_sound. simpl.
        destruct (reader_emg_channels_spec _ _ _ _ Hloop) as (kept & -> & Hk).
        simpl. eapply Forall_impl; [|exact Hk].
        simpl. intros a (Hin & _ & He). split; auto.
        eexists. split; [reflexivity|]. now apply In_range.
      * left. exists f. simpl. auto 10.
    + cbv zeta.
      match goal with
      | |- context [try_manual_header d edf_path ?r0] =>
          destruct (try_manual_header d edf_path r0) as [r1 err] eqn:Hman;
          destruct (try_manual_header_keeps _ _ _ _ _ Hman eq_refl)
            as (H1 & H2 & H3 & H4 & H5 & H6 & H7)
      end.
      simpl in H1, H2, H3, H4, H5.
      destruct err as [he|].
      * rewrite (H7 ltac:(discriminate)). simpl.
        split; [reflexivity|]. split; [constructor|]. right.
        repeat split; auto.
        unfold try_manual_header in Hman.
        destruct (Disk.read d (PyPath.to_string edf_path)) as [c|e'] eqn:Hr; [|eauto].
        cbv zeta in Hman.
        repeat match type of Hman with
               | context [match ?x with _ => _ end] => destruct x
               end; discriminate.
      * split; [congruence|]. split; [exact H6|]. right.
        repeat split; try congruence;
          intros Hc; rewrite H5 in Hc; now contradiction Hc.
  - cbv zeta.
    match goal with
    | |- context [try_manual_header d edf_path ?r0] =>
        destruct (try_manual_header d edf_path r0) as [r1 err] eqn:Hman;
        destruct (try_manual_header_keeps _ _ _ _ _ Hman eq_refl)
          as (H1 & H2 & H3 & H4 & H5 & H6 & H7)
    end.
    simpl in H1, H2, H3, H4, H5.
    destruct err as [he|].
    + rewrite (H7 ltac:(discriminate)). simpl.
      split; [reflexivity|]. split; [constructor|]. right.
      repeat split; auto.
      unfold try_manual_header in Hman.
      destruct (Disk.read d (PyPath.to_string edf_path)) as [c|e'] eqn:Hr; [|eauto].
      cbv zeta in Hman.
      repeat match type of Hman with
             | context [match ?x with _ => _ end] => destruct x
             end; discriminate.
    + split; [congruence|]. split; [exact H6|]. right.
      repeat split; try congruence;
          intros Hc; rewrite H5 in Hc; now contradiction Hc.
Qed.

(** A returned dictionary is the one for a missing file, or that of
    [detect_before_probe] with the spreadsheet found, if any. *)
Lemma detect_anatomy d edf_path r :
  detect_edf_format EdfReader d edf_path = Ok r ->
  (Disk.exists_ d (PyPath.to_string edf_path) = false /\
   r = mkDetection "Invalid" false false None None []
         (Some ("File not found: " ++ PyPath.to_string edf_path))) \/
  (Disk.exists_ d (PyPath.to_string edf_path) = true /\
   exists xlsx XLSX,
     PyPath.with_suffix edf_path ".xlsx" = Ok xlsx /\
     PyPath.with_suffix edf_path ".XLSX" = Ok XLSX /\
     r = set_excel_file (first_existing d [xlsx; XLSX])
                        (detect_before_probe EdfReader d edf_path)).
Proof.
  destruct (Disk.exists_ d (PyPath.to_string edf_path)) eqn:Hex.
  - rewrite (detect_existing _ _ Hex). intros H. right. split; [reflexivity|].
    destruct (PyPath.with_suffix edf_path ".xlsx") as [x|]; cbn [bind] in H; [|discriminate].
    destruct (PyPath.with_suffix edf_path ".XLSX") as [y|]; cbn [bind] in H; [|discriminate].
    remember (first_existing d [x; y]) as found eqn:Hfound.
    injection H as <-. exists x, y. split; [reflexivity|]. split; [reflexivity|].
    rewrite <- Hfound. destruct found; [reflexivity|].
    assert (Hnone : excel_file (detect_before_probe EdfReader d edf_path) = None)
      by apply before_probe_cases.
    destruct (detect_before_probe EdfReader d edf_path). simpl in *. now subst.
  - rewrite (detect_missing EdfReader _ _ Hex). intros H. injection H as <-. auto.
Qed.

End ClassifierInvariants.

(** The verdict of the classifier is one of [EDF+C], [EDF+D], [Standard]
    and [Invalid] (the initial [Unknown] never comes back); it is
    [Invalid] exactly for a path that does not exist; a file the
    structured reader could not use is [Standard]; and an error message
    is only set when the reader failed and the raw header could not be
    read either, in which case no channel is listed. *)
Theorem classifier_verdict_consistent
        (EdfReader : string -> result Pyedflib.reader)
        (d : Disk.node) (edf_path : PyPath.t) (r : DetectFormat.detection) :
  DetectFormat.detect_edf_format EdfReader d edf_path = Ok r ->
  (DetectFormat.type r = "EDF+C" \/ DetectFormat.type r = "EDF+D" \/
   DetectFormat.type r = "Standard" \/ DetectFormat.type r = "Invalid") /\
  (DetectFormat.type r = "Invalid" <->
   Disk.exists_ d (PyPath.to_string edf_path) = false) /\
  (DetectFormat.pyedflib_compatible r = false ->
   DetectFormat.type r = "Standard" \/ DetectFormat.type r = "Invalid") /\
  (DetectFormat.error r <> None ->
   DetectFormat.pyedflib_compatible r = false /\ DetectFormat.emg_channels r = []).
Proof.
  intros H.
  destruct (detect_anatomy EdfReader d edf_path r H)
    as [(Hex & ->)|(Hex & x & y & _ & _ & ->)].
  - simpl. rewrite Hex. repeat split; auto.
  - destruct (before_probe_cases EdfReader d edf_path) as (_ & _ & Hc).
    cbv zeta in Hc. simpl. rewrite Hex.
    destruct Hc as [(f & _ & Ht & Hcomp & _ & _ & Herr)|(Ht & Hcomp & Herr)].
    + rewrite Ht, Hcomp, Herr.
      repeat split; try discriminate; try congruence.
      * destruct (Pyedflib.filetype f =? 1); auto.
        destruct (Pyedflib.filetype f =? 2); auto.
      * destruct (Pyedflib.filetype f =? 1); [discriminate|].
        destruct (Pyedflib.filetype f =? 2); discriminate.
    + rewrite Ht, Hcomp.
      repeat split; auto; try discriminate; apply Herr; assumption.
Qed.

Lemma classifier_verdict_consistent_witness :
  DetectFormat.type
    (DetectFormat.mkDetection "Standard" false false (Some "data/e.xlsx") None [] None)
  = "Standard" \/
  DetectFormat.type
    (DetectFormat.mkDetection "Standard" false false (Some "data/e.xlsx") None [] None)
  = "Invalid".
Proof.
  destruct (classifier_verdict_consistent Scenario.EdfReader Scenario.tree
              (PyPath.of_string "data/e.edf")
              (DetectFormat.mkDetection "Standard" false false (Some "data/e.xlsx")
                                        None [] None) eq_refl)
    as (_ & _ & Hstd & _).
  apply Hstd. reflexivity.
Defined.

(** Every channel the classifier lists carries a label that contains one
    of the six name fragments, and its index lies between 0 and the
    reported number of signals, whichever of the two readers produced the
    list. *)
Theorem classifier_emg_channels_sound
        (EdfReader : string -> result Pyedflib.reader)
        (d : Disk.node) (edf_path : PyPath.t) (r : DetectFormat.detection) :
  DetectFormat.detect_edf_format EdfReader d edf_path = Ok r ->
  forall i label,
    In (i, label) (DetectFormat.emg_channels r) ->
    (exists keyword,
       In keyword ["EMG"; "CHIN"; "LEG"; "Chin"; "Lat"; "Rat"] /\
       PyStr.contains keyword label = true) /\
    exists n, DetectFormat.num_signals r = Some n /\ 0 <= i < n.
Proof.
  intros H i label Hin.
  destruct (detect_anatomy EdfReader d edf_path r H)
    as [(Hex & ->)|(Hex & x & y & _ & _ & ->)].
  - simpl in Hin. contradiction.
  - destruct (before_probe_cases EdfReader d edf_path) as (_ & Hs & _).
    cbv zeta in Hs. unfold DetectFormat.emg_channels_sound in Hs.
    simpl in Hin. rewrite Forall_forall in Hs.
    destruct (Hs _ Hin) as (He & n & Hn & Hi). simpl in *.
    split; [|eauto].
    unfold DetectFormat.is_emg_label in He. apply existsb_exists in He.
    exact He.
Qed.

Lemma classifier_emg_channels_sound_witness :
  (exists keyword,
     In keyword ["EMG"; "CHIN"; "LEG"; "Chin"; "Lat"; "Rat"] /\
     PyStr.contains keyword "EMG Chin" = true) /\
  exists n, Some 2 = Some n /\ 0 <= 1 < n.
Proof.
  apply (classifier_emg_channels_sound Scenario.EdfReader Scenario.tree
           (PyPath.of_string "data/a.edf")
           (DetectFormat.mkDetection "EDF+C" true true None (Some 2)
              [(0, "EMG Chin"); (1, "EMG Chin")] None)
           eq_refl 1 "EMG Chin").
  right. left. reflexivity.
Defined.

(** For an existing file with a name, the spreadsheet reported is the
    sibling with the suffix [.xlsx] when that exists, otherwise the sibling
    with the suffix [.XLSX] when that exists, otherwise none; what the
    readers found has no part in it. *)
Theorem classifier_spreadsheet_probe
        (EdfReader : string -> result Pyedflib.reader)
        (d : Disk.node) (edf_path : PyPath.t) (r : DetectFormat.detection) :
  DetectFormat.detect_edf_format EdfReader d edf_path = Ok r ->
  Disk.exists_ d (PyPath.to_string edf_path) = true ->
  let sibling sfx :=
    PyPath.to_string
      (PyPath.mk (PyPath.root edf_path)
                 (removelast (PyPath.parts edf_path) ++ [PyPath.stem edf_path ++ sfx])) in
  DetectFormat.excel_file r
  = if Disk.exists_ d (sibling ".xlsx") then Some (sibling ".xlsx")
    else if Disk.exists_ d (sibling ".XLSX") then Some (sibling ".XLSX")
    else None.
Proof.
  intros H Hex sibling.
  destruct (detect_anatomy EdfReader d edf_path r H)
    as [(Hno & _)|(_ & x & y & Hx & Hy & ->)]; [congruence|].
  unfold PyPath.with_suffix in Hx, Hy.
  destruct (String.eqb (PyPath.name edf_path) ""); [discriminate|].
  injection Hx as <-. injection Hy as <-. reflexivity.
Qed.

Lemma classifier_spreadsheet_probe_witness :
  DetectFormat.excel_file
    (DetectFormat.mkDetection "Standard" false false (Some "data/e.xlsx") None [] None)
  = if Disk.exists_ Scenario.tree "data/e.xlsx" then Some "data/e.xlsx"
    else if Disk.exists_ Scenario.tree "data/e.XLSX" then Some "data/e.XLSX"
    else None.
Proof.
  apply (classifier_spreadsheet_probe Scenario.EdfReader Scenario.tree
           (PyPath.of_string "data/e.edf")
           (DetectFormat.mkDetection "Standard" false false (Some "data/e.xlsx")
                                     None [] None)); reflexivity.
Defined.

(** The classifier reports the file as compatible with the structured
    reader only when that reader opened it; the verdict is then [EDF+C]
    for file type 1, [EDF+D] for file type 2 and [Standard] otherwise,
    annotations are reported exactly when their count is positive, the
    number of signals is the reader's, and there is no error. *)
Theorem classifier_reader_verdict
        (EdfReader : string -> result Pyedflib.reader)
        (d : Disk.node) (edf_path : PyPath.t) (r : DetectFormat.detection) :
  DetectFormat.detect_edf_format EdfReader d edf_path = Ok r ->
  DetectFormat.pyedflib_compatible r = true ->
  exists f,
    bind (Disk.read d (PyPath.to_string edf_path)) EdfReader = Ok f /\
    DetectFormat.type r
      = (if Pyedflib.filetype f =? 1 then "EDF+C"
         else if Pyedflib.filetype f =? 2 then "EDF+D" else "Standard") /\
    DetectFormat.has_annotations r = (0 <? Pyedflib.annotations_in_file f) /\
    DetectFormat.num_signals r = Some (Pyedflib.signals_in_file f) /\
    DetectFormat.error r = None.
Proof.
  intros H Hc.
  destruct (detect_anatomy EdfReader d edf_path r H)
    as [(_ & ->)|(_ & x & y & _ & _ & ->)]; [discriminate|].
  destruct (before_probe_cases EdfReader d edf_path) as (_ & _ & Hcases).
  cbv zeta in Hcases. simpl in *.
  destruct Hcases as [(f & Hf & Ht & _ & Ha & Hn & He)|(_ & Hno & _)];
    [|congruence].
  exists f. auto.
Qed.

Lemma classifier_reader_verdict_witness :
  exists f,
    bind (Disk.read Scenario.tree "data/b.EDF") Scenario.EdfReader = Ok f /\
    "EDF+D" = (if Pyedflib.filetype f =? 1 then "EDF+C"
               else if Pyedflib.filetype f =? 2 then "EDF+D" else "Standard") /\
    true = (0 <? Pyedflib.annotations_in_file f) /\
    Some 2 = Some (Pyedflib.signals_in_file f) /\
    @None string = None.
Proof.
  apply (classifier_reader_verdict Scenario.EdfReader Scenario.tree
           (PyPath.of_string "data/b.EDF")
           (DetectFormat.mkDetection "EDF+D" true true None (Some 2)
              [(0, "EMG Chin"); (1, "EMG Chin")] None)); reflexivity.
Defined.

(** ** Facts on strings used by the header and timestamp readers *)

Section StringFacts.

Lemma append_empty_r s : s ++ "" = s.
Proof. induction s; simpl; congruence. Qed.

Lemma append_assoc_str a b c : (a ++ b) ++ c = a ++ (b ++ c).
Proof. induction a; simpl; congruence. Qed.

Lemma length_append_str a b :
  String.length (a ++ b) = (String.length a + String.length b)%nat.
Proof. induction a; simpl; congruence. Qed.

Lemma take_app_exact a b : PyStr.take (String.length a) (a ++ b) = a.
Proof. induction a as [|c a IH]; simpl; [now destruct b|now rewrite IH]. Qed.

Lemma drop_app_exact a b : PyStr.drop (String.length a) (a ++ b) = b.
Proof. induction a as [|c a IH]; simpl; auto. Qed.

Lemma take_app_more a b k :
  PyStr.take (String.length a + k) (a ++ b) = a ++ PyStr.take k b.
Proof. induction a as [|c a IH]; simpl; [reflexivity|now rewrite IH]. Qed.

Lemma drop_take_app a b k :
  PyStr.drop (String.length a) (PyStr.take (String.length a + k) (a ++ b))
  = PyStr.take k b.
Proof. rewrite take_app_more. apply drop_app_exact. Qed.

(** Splitting at a single character: with enough fuel the first part is
    the text before the character and the rest is the split of the text
    after it. *)
Lemma split_aux_char c s : forall fuel cur,
  (String.length s <= fuel)%nat ->
  PyStr.split_aux fuel (String c EmptyString) cur s
  = (cur ++ PyStr.before c s)
    :: match PyStr.after c s with
       | Some r => PyStr.split (String c EmptyString) r
       | None => []
       end.
Proof.
  induction s as [|x s IH]; intros fuel cur Hf.
  - destruct fuel; simpl; now rewrite ?append_empty_r.
  - destruct fuel as [|fuel]; [simpl in Hf; lia|].
    simpl in Hf. cbn [PyStr.split_aux PyStr.startswith PyStr.before PyStr.after].
    rewrite andb_true_r.
    destruct (Ascii.eqb c x) eqn:E.
    + cbn [String.length PyStr.drop]. f_equal.
      * now rewrite append_empty_r.
      * unfold PyStr.split. rewrite (IH fuel EmptyString ltac:(lia)).
        rewrite (IH (String.length s) EmptyString ltac:(lia)). reflexivity.
    + rewrite (IH fuel _ ltac:(lia)). f_equal.
      now rewrite append_assoc_str.
Qed.

Lemma split_char c s :
  PyStr.split (String c EmptyString) s
  = PyStr.before c s
    :: match PyStr.after c s with
       | Some r => PyStr.split (String c EmptyString) r
       | None => []
       end.
Proof. unfold PyStr.split at 1. now rewrite split_aux_char. Qed.

(** A digit is neither a separator nor white space, and it is ASCII. *)
Lemma digit_facts c :
  PyStr.is_digit c = true ->
  Ascii.eqb ":" c = false /\ Ascii.eqb "." c = false /\
  PyStr.is_space c = false /\ Nat.ltb (nat_of_ascii c) 128 = true.
Proof.
  destruct c as [b0 b1 b2 b3 b4 b5 b6 b7].
  destruct b0, b1, b2, b3, b4, b5, b6, b7; intros H;
    solve [discriminate H | repeat split; reflexivity].
Qed.

(** [int] reads back a two-digit field. *)
Lemma int_pad2 n : 0 <= n < 100 -> PyStr.int (PyStr.pad2 n) = Some n.
Proof.
  intros H.
  assert (Hall : forallb (fun k => match PyStr.int (PyStr.pad2 k) with
                                   | Some v => v =? k
                                   | None => false
                                   end) (range 100) = true) by (vm_compute; reflexivity).
  rewrite forallb_forall in Hall. specialize (Hall n (range_In n 100 H)).
  destruct (PyStr.int (PyStr.pad2 n)) as [v|]; [|discriminate].
  apply Z.eqb_eq in Hall. now subst.
Qed.

Lemma pad2_digits n :
  exists a b, PyStr.pad2 n = String a (String b EmptyString) /\
              PyStr.is_digit a = true /\ PyStr.is_digit b = true.
Proof.
  unfold PyStr.pad2. do 2 eexists. split; [reflexivity|].
  split; apply digit_char_is_digit.
Qed.

(** A field free of the separator is what stands before it. *)
Lemma before_field c f rest :
  PyStr.all_chars (fun x => negb (Ascii.eqb c x)) f = true ->
  PyStr.before c (f ++ rest) = f ++ PyStr.before c rest /\
  PyStr.after c (f ++ rest) = PyStr.after c rest.
Proof.
  induction f as [|x f IH]; simpl; intros H; [auto|].
  apply andb_true_iff in H. destruct H as [Hx Hf].
  apply negb_true_iff in Hx. rewrite Hx.
  destruct (IH Hf) as [-> ->]. auto.
Qed.

Lemma before_whole c f :
  PyStr.all_chars (fun x => negb (Ascii.eqb c x)) f = true ->
  PyStr.before c f = f /\ PyStr.after c f = None.
Proof.
  induction f as [|x f IH]; simpl; intros H; [auto|].
  apply andb_true_iff in H. destruct H as [Hx Hf].
  apply negb_true_iff in Hx. rewrite Hx.
  destruct (IH Hf) as [-> ->]. auto.
Qed.

Lemma split_field c f rest :
  PyStr.all_chars (fun x => negb (Ascii.eqb c x)) f = true ->
  PyStr.split (String c EmptyString) (f ++ String c rest)
  = f :: PyStr.split (String c EmptyString) rest.
Proof.
  intros H. rewrite split_char.
  destruct (before_field c f (String c rest) H) as [-> ->].
  simpl. rewrite Ascii.eqb_refl. now rewrite append_empty_r.
Qed.

Lemma pad2_free_of c n :
  PyStr.is_digit c = false ->
  PyStr.all_chars (fun x => negb (Ascii.eqb c x)) (PyStr.pad2 n) = true.
Proof.
  intros Hc. unfold PyStr.pad2. simpl.
  assert (H : forall d, negb (Ascii.eqb c (PyStr.digit_char d)) = true).
  { intros d. apply negb_true_iff. destruct (Ascii.eqb c _) eqn:E; auto.
    apply Ascii.eqb_eq in E. subst c. now rewrite digit_char_is_digit in Hc. }
  now rewrite !H.
Qed.

Lemma all_chars_app p a b :
  PyStr.all_chars p (a ++ b) = PyStr.all_chars p a && PyStr.all_chars p b.
Proof. induction a as [|x a IH]; simpl; auto. now rewrite IH, andb_assoc. Qed.

End StringFacts.

(** ** The spreadsheet extractor: reading a time stamp *)

Section TimestampReading.

Import ExcelAnnotations.

Lemma parse_fields_formatted h mi s cs tail :
  0 <= h < 100 -> 0 <= mi < 100 -> 0 <= s < 100 -> 0 <= cs < 100 ->
  parse_fields (PyStr.pad2 h ++ ":" ++ PyStr.pad2 mi ++ ":" ++
                PyStr.pad2 s ++ "." ++ PyStr.pad2 cs ++ tail)
  = Ok (h, mi, s, cs * 10000).
Proof.
  intros Hh Hmi Hs Hcs. unfold parse_fields.
  change (PyStr.pad2 h ++ ":" ++ ?x) with (PyStr.pad2 h ++ String ":"%char x).
  rewrite (split_field ":" (PyStr.pad2 h)) by (now apply pad2_free_of).
  change (PyStr.pad2 mi ++ ":" ++ ?x) with (PyStr.pad2 mi ++ String ":"%char x).
  rewrite (split_field ":" (PyStr.pad2 mi)) by (now apply pad2_free_of).
  rewrite (split_char ":").
  cbn [nth_error of_option bind].
  unfold int_or_raise. rewrite !int_pad2 by assumption.
  cbn [of_option bind].
  assert (Hsec : PyStr.before ":" (PyStr.pad2 s ++ "." ++ PyStr.pad2 cs ++ tail)
                 = PyStr.pad2 s ++ String "."%char
                     (PyStr.pad2 cs ++ PyStr.before ":" tail)).
  { destruct (before_field ":" (PyStr.pad2 s) ("." ++ PyStr.pad2 cs ++ tail)) as [-> _];
      [now apply pad2_free_of|].
    f_equal. cbn [append PyStr.before Ascii.eqb Bool.eqb]. f_equal.
    destruct (before_field ":" (PyStr.pad2 cs) tail) as [-> _];
      [now apply pad2_free_of|reflexivity]. }
  rewrite Hsec.
  rewrite (split_field "." (PyStr.pad2 s)) by (now apply pad2_free_of).
  rewrite (split_char ".").
  destruct (before_field "." (PyStr.pad2 cs) (PyStr.before ":" tail)) as [-> _];
    [now apply pad2_free_of|].
  cbn [nth_error of_option bind].
  rewrite int_pad2 by assumption. cbn [of_option bind].
  change 2%nat with (String.length (PyStr.pad2 cs)).
  rewrite take_app_exact, int_pad2 by assumption.
  reflexivity.
Qed.

Lemma decode_plain s :
  PyStr.all_chars (fun c => Nat.ltb (nat_of_ascii c) 128) s = true ->
  PyStr.decode_ascii_ignore s = s.
Proof.
  induction s as [|c s IH]; simpl; intros H; [reflexivity|].
  apply andb_true_iff in H. destruct H as [-> Hs]. now rewrite IH.
Qed.

Lemma rstrip_plain s :
  PyStr.all_chars (fun c => negb (PyStr.is_space c)) s = true ->
  PyStr.rstrip s = s.
Proof.
  induction s as [|c s IH]; simpl; intros H; [reflexivity|].
  apply andb_true_iff in H. destruct H as [Hc Hs]. rewrite (IH Hs).
  apply negb_true_iff in Hc. rewrite Hc. now destruct s.
Qed.

Lemma strip_plain s :
  PyStr.all_chars (fun c => negb (PyStr.is_space c)) s = true ->
  PyStr.strip s = s.
Proof.
  intros H. unfold PyStr.strip.
  assert (Hl : PyStr.lstrip s = s).
  { destruct s as [|c s]; [reflexivity|]. simpl in *.
    apply andb_true_iff in H. destruct H as [Hc _].
    apply negb_true_iff in Hc. now rewrite Hc. }
  rewrite Hl. now apply rstrip_plain.
Qed.

Lemma pad2_all p n :
  (forall c, PyStr.is_digit c = true -> p c = true) ->
  PyStr.all_chars p (PyStr.pad2 n) = true.
Proof.
  intros H. unfold PyStr.pad2. simpl.
  now rewrite !H by apply digit_char_is_digit.
Qed.

(** A dotted field of three two-digit numbers, as in the header. *)
Lemma dotted_field_plain a b c :
  let f := PyStr.pad2 a ++ "." ++ PyStr.pad2 b ++ "." ++ PyStr.pad2 c in
  String.length f = 8%nat /\
  PyStr.strip (PyStr.decode_ascii_ignore f) = f /\
  PyStr.split "." f = [PyStr.pad2 a; PyStr.pad2 b; PyStr.pad2 c].
Proof.
  intros f. split; [reflexivity|]. split.
  - assert (Hd : PyStr.decode_ascii_ignore f = f).
    { apply decode_plain. unfold f. rewrite !all_chars_app.
      rewrite !pad2_all; [reflexivity| | |]; intros x Hx; now apply digit_facts. }
    rewrite Hd. apply strip_plain. unfold f. rewrite !all_chars_app.
    rewrite !pad2_all; [reflexivity| | |]; intros x Hx;
      apply negb_true_iff; now apply digit_facts.
  - unfold f.
    change (PyStr.pad2 a ++ "." ++ ?x) with (PyStr.pad2 a ++ String "."%char x).
    rewrite (split_field "." (PyStr.pad2 a)) by (now apply pad2_free_of).
    change (PyStr.pad2 b ++ "." ++ ?x) with (PyStr.pad2 b ++ String "."%char x).
    rewrite (split_field "." (PyStr.pad2 b)) by (now apply pad2_free_of).
    rewrite split_char.
    destruct (before_whole "." (PyStr.pad2 c)) as [-> ->];
      [now apply pad2_free_of|reflexivity].
Qed.

Lemma header_fields pre date time rest :
  String.length pre = 168%nat ->
  String.length date = 8%nat ->
  String.length time = 8%nat ->
  let header := PyStr.take 256 (pre ++ date ++ time ++ rest) in
  PyStr.take 8 (PyStr.drop 168 header) = date /\
  PyStr.take 8 (PyStr.drop 176 header) = time.
Proof.
  intros Hp Hd Ht header.
  assert (E1 : header = pre ++ date ++ time ++ PyStr.take 72 rest).
  { unfold header.
    rewrite <- (take_app_more time rest 72).
    rewrite <- (take_app_more date (time ++ rest) (String.length time + 72)).
    rewrite <- (take_app_more pre (date ++ time ++ rest)
                              (String.length date + (String.length time + 72))).
    rewrite Hp, Hd, Ht. reflexivity. }
  rewrite E1. split.
  - rewrite <- Hp, drop_app_exact. rewrite <- Hd. apply take_app_exact.
  - rewrite <- append_assoc_str.
    assert (E2 : String.length (pre ++ date) = 176%nat)
      by (rewrite length_append_str, Hp, Hd; reflexivity).
    rewrite <- E2, drop_app_exact. rewrite <- Ht. apply take_app_exact.
Qed.

End TimestampReading.

(** Reading a time stamp never raises and never touches the disk.  It
    either gives a time of day on the header's calendar date and prints
    nothing, or gives the header start time itself and prints one warning
    that quotes the text. *)
Theorem parse_timestamp_never_raises
        (timestamp_str : string) (edf_start_time : datetime) (st : state) :
  exists t st',
    ExcelAnnotations.parse_timestamp timestamp_str edf_start_time st = (Ok t, st') /\
    disk st' = disk st /\ launched st' = launched st /\
    ((stdout st' = stdout st /\
      year t = year edf_start_time /\ month t = month edf_start_time /\
      day t = day edf_start_time /\
      check_time_fields (hour t) (minute t) (second t) (microsecond t) = true) \/
     (t = edf_start_time /\
      exists e,
        stdout st'
        = List.app (stdout st)
            ["Warning: Failed to parse timestamp '" ++ timestamp_str ++ "': " ++ e])).
Proof.
  unfold ExcelAnnotations.parse_timestamp, try_except, lift.
  destruct (ExcelAnnotations.parse_timestamp_try timestamp_str edf_start_time)
    as [t|e] eqn:E.
  - exists t, st. repeat split. left.
    unfold ExcelAnnotations.parse_timestamp_try in E.
    destruct (ExcelAnnotations.parse_fields timestamp_str) as [[[[h mi] s] us]|];
      simpl in E; [|discriminate].
    unfold make in E.
    destruct (check_date_fields _ _ _); simpl in E; [|discriminate].
    destruct (check_time_fields h mi s us) eqn:Ht; simpl in E; [|discriminate].
    injection E as <-. simpl. auto.
  - unfold mbind, print, ret. cbn [disk stdout launched].
    eexists. eexists. split; [reflexivity|]. cbn [disk stdout launched].
    split; [reflexivity|]. split; [reflexivity|].
    right. split; [reflexivity|]. exists e. reflexivity.
Qed.

(** A stamp written [HH:MM:SS.cc] is read back as that time of day with
    [cc] hundredths of a second, on the header's date.  Whatever follows
    the two fractional digits is ignored: further digits are cut off, not
    rounded. *)
Theorem parse_timestamp_reads_centiseconds
        (edf_start_time : datetime) (st : state) (h mi s cs : Z) (tail : string) :
  valid edf_start_time ->
  0 <= h <= 23 -> 0 <= mi <= 59 -> 0 <= s <= 59 -> 0 <= cs <= 99 ->
  ExcelAnnotations.parse_timestamp
    (PyStr.pad2 h ++ ":" ++ PyStr.pad2 mi ++ ":" ++ PyStr.pad2 s ++ "." ++
     PyStr.pad2 cs ++ tail) edf_start_time st
  = (Ok (mkDatetime (year edf_start_time) (month edf_start_time) (day edf_start_time)
                    h mi s (cs * 10000)), st).
Proof.
  intros [Hdate _] Hh Hmi Hs Hcs.
  apply parse_timestamp_ok.
  unfold ExcelAnnotations.parse_timestamp_try.
  rewrite parse_fields_formatted by lia. cbn [bind].
  unfold make. rewrite Hdate.
  assert (Ht : check_time_fields h mi s (cs * 10000) = true).
  { unfold check_time_fields. rewrite !andb_true_iff, !Z.leb_le. lia. }
  rewrite Ht. reflexivity.
Qed.

Lemma parse_timestamp_reads_centiseconds_witness :
  ExcelAnnotations.parse_timestamp "23:59:58.129" Scenario.header_start Scenario.initial
  = (Ok (mkDatetime 2024 1 1 23 59 58 120000), Scenario.initial).
Proof.
  apply (parse_timestamp_reads_centiseconds Scenario.header_start Scenario.initial
           23 59 58 12 "9").
  - split; reflexivity.
  - lia.
  - lia.
  - lia.
  - lia.
Defined.

(** The start time is read from the sixteen header bytes at offset 168:
    for a header that holds [dd.mm.yy] and [hh.mm.ss], the result is that
    date and time with the year taken as 2000 + yy, whatever the century
    of the recording, and it is an error when these do not form a date. *)
Theorem header_start_time_reads_fields
        (pre rest : string) (dd mm yy h mi s : Z) :
  String.length pre = 168%nat ->
  0 <= dd < 100 -> 0 <= mm < 100 -> 0 <= yy < 100 ->
  0 <= h < 100 -> 0 <= mi < 100 -> 0 <= s < 100 ->
  ExcelAnnotations.header_start_time
    (pre ++ (PyStr.pad2 dd ++ "." ++ PyStr.pad2 mm ++ "." ++ PyStr.pad2 yy) ++
            (PyStr.pad2 h ++ "." ++ PyStr.pad2 mi ++ "." ++ PyStr.pad2 s) ++ rest)
  = match make (yy + 2000) mm dd h mi s 0 with
    | Some t => Ok t
    | None => Raise "datetime field out of range"
    end.
Proof.
  intros Hp Hdd Hmm Hyy Hh Hmi Hs.
  unfold ExcelAnnotations.header_start_time. cbv zeta.
  destruct (dotted_field_plain dd mm yy) as (Hl1 & Hs1 & Hsp1).
  destruct (dotted_field_plain h mi s) as (Hl2 & Hs2 & Hsp2).
  cbv zeta in Hl1, Hs1, Hsp1, Hl2, Hs2, Hsp2.
  destruct (header_fields pre _ _ rest Hp Hl1 Hl2) as (Hd & Ht).
  cbv zeta in Hd, Ht.
  rewrite Hd, Ht, Hs1, Hs2, Hsp1, Hsp2.
  rewrite !int_pad2 by assumption. cbn [of_option bind].
  assert (Hy : (yy <? 100) = true) by (apply Z.ltb_lt; lia).
  rewrite Hy. unfold of_option.
  destruct (make (yy + 2000) mm dd h mi s 0); reflexivity.
Qed.

Lemma header_start_time_reads_fields_witness :
  ExcelAnnotations.header_start_time
    (PyStr.join_lines (repeat "0         " 16) ++ "        " ++
     "31.12.99" ++ "23.59.58" ++ "rest of the header")
  = Ok (mkDatetime 2099 12 31 23 59 58 0).
Proof.
  apply (header_start_time_reads_fields
           (PyStr.join_lines (repeat "0         " 16) ++ "        ")
           "rest of the header" 31 12 99 23 59 58);
    solve [reflexivity | lia].
Defined.

(** ** The spreadsheet extractor: from a stage row to a line *)

Section StageRows.

Import ExcelAnnotations.

Lemma contains_startswith sub s :
  PyStr.contains sub s = false -> PyStr.startswith sub s = false.
Proof.
  destruct s; simpl; intros H; apply orb_false_iff in H; tauto.
Qed.

Lemma replace_aux_absent old new s : forall fuel,
  PyStr.contains old s = false -> PyStr.replace_aux fuel old new s = s.
Proof.
  induction s as [|c s IH]; intros [|fuel] H; try reflexivity.
  cbn [PyStr.replace_aux]. rewrite (contains_startswith _ _ H).
  f_equal. apply IH. simpl in H. apply orb_false_iff in H. tauto.
Qed.

(** The prefix is removed where it is written with a capital letter. *)
Lemma stage_name_of name :
  PyStr.contains "Stage -" name = false ->
  PyStr.strip name = name ->
  PyStr.strip (PyStr.replace "Stage -" "" ("Stage - " ++ name)) = name.
Proof.
  intros Hc Hs. unfold PyStr.replace.
  change (PyStr.replace_aux (String.length ("Stage - " ++ name)) "Stage -" ""
            ("Stage - " ++ name))
    with (String " "%char (PyStr.replace_aux (6 + String.length name) "Stage -" "" name)).
  rewrite replace_aux_absent by assumption.
  exact Hs.
Qed.

Lemma pad6_centiseconds cs :
  0 <= cs < 100 -> PyStr.pad6 (cs * 10000) = PyStr.pad2 cs ++ "0000".
Proof.
  intros H.
  assert (Hall : forallb (fun k => String.eqb (PyStr.pad6 (k * 10000))
                                              (PyStr.pad2 k ++ "0000"))
                         (range 100) = true) by (vm_compute; reflexivity).
  rewrite forallb_forall in Hall. specialize (Hall cs (range_In cs 100 H)).
  now apply String.eqb_eq in Hall.
Qed.

Lemma stage_row_selected ts name :
  is_stage_row (mkRow ts ("Stage - " ++ name)) = true.
Proof. reflexivity. Qed.

End StageRows.

(** A spreadsheet row [HH:MM:SS.cc | Stage - <name>] becomes the stage
    [<name>] at that time of day, and in the sleep profile the line
    [HH:MM:SS,cc0000; <name>]: the name [R] is written [REM], and a row
    named [No Stage] or [NoStage] is read but gives no line. *)
Theorem stage_row_to_profile_line
        (edf_start_time : datetime) (st : state) (h mi s cs : Z) (name : string) :
  valid edf_start_time ->
  0 <= h <= 23 -> 0 <= mi <= 59 -> 0 <= s <= 59 -> 0 <= cs <= 99 ->
  PyStr.contains "Stage -" name = false ->
  PyStr.strip name = name ->
  let stamp := PyStr.pad2 h ++ ":" ++ PyStr.pad2 mi ++ ":" ++ PyStr.pad2 s in
  exists t,
    ExcelAnnotations.extract_sleep_stages
      [ExcelAnnotations.mkRow (stamp ++ "." ++ PyStr.pad2 cs) ("Stage - " ++ name)]
      edf_start_time st
    = (Ok [ExcelAnnotations.mkStage t name], st) /\
    ExcelAnnotations.sleep_profile_lines [ExcelAnnotations.mkStage t name]
    = if String.eqb name "No Stage" || String.eqb name "NoStage" then []
      else [stamp ++ "," ++ PyStr.pad2 cs ++ "0000; " ++
            (if String.eqb name "R" then "REM" else name) ++ nl].
Proof.
  intros [Hdate _] Hh Hmi Hs Hcs Hc Hstrip stamp.
  exists (mkDatetime (year edf_start_time) (month edf_start_time) (day edf_start_time)
                     h mi s (cs * 10000)).
  split.
  - unfold ExcelAnnotations.extract_sleep_stages.
    cbn [filter]. rewrite stage_row_selected.
    cbn [ExcelAnnotations.extract_stage_rows ExcelAnnotations.timestamp_str
         ExcelAnnotations.event_description].
    unfold mbind.
    assert (Hp : ExcelAnnotations.parse_timestamp
                   (stamp ++ "." ++ PyStr.pad2 cs) edf_start_time st
                 = (Ok (mkDatetime (year edf_start_time) (month edf_start_time)
                                   (day edf_start_time) h mi s (cs * 10000)), st)).
    { apply parse_timestamp_ok. unfold ExcelAnnotations.parse_timestamp_try.
      unfold stamp.
      assert (Hf := parse_fields_formatted h mi s cs "").
      rewrite append_empty_r in Hf.
      rewrite <- !append_assoc_str in *.
      rewrite Hf by lia. cbn [bind].
      unfold make. rewrite Hdate.
      assert (Ht : check_time_fields h mi s (cs * 10000) = true).
      { unfold check_time_fields. rewrite !andb_true_iff, !Z.leb_le. lia. }
      rewrite Ht. reflexivity. }
    rewrite Hp. rewrite stage_name_of by assumption. reflexivity.
  - unfold ExcelAnnotations.sleep_profile_lines, ExcelAnnotations.sleep_profile_line.
    cbn [flat_map ExcelAnnotations.stage_name ExcelAnnotations.stage_onset_time].
    destruct (String.eqb name "No Stage" || String.eqb name "NoStage"); [reflexivity|].
    cbn [app]. f_equal.
    unfold strftime_HMSf. cbn [hour minute second microsecond].
    rewrite pad6_centiseconds by lia.
    assert (Hn : (if String.eqb name "R" || String.eqb name "REM" then "REM" else name)
                 = (if String.eqb name "R" then "REM" else name)).
    { destruct (String.eqb name "R"); [reflexivity|].
      destruct (String.eqb_spec name "REM") as [->|]; reflexivity. }
    rewrite Hn. unfold stamp.
    rewrite <- !append_assoc_str. reflexivity.
Qed.

Lemma stage_row_to_profile_line_witness :
  exists t,
    ExcelAnnotations.extract_sleep_stages
      [ExcelAnnotations.mkRow "23:05:30.50" "Stage - R"] Scenario.header_start
      Scenario.initial
    = (Ok [ExcelAnnotations.mkStage t "R"], Scenario.initial) /\
    ExcelAnnotations.sleep_profile_lines [ExcelAnnotations.mkStage t "R"]
    = ["23:05:30,500000; REM" ++ nl].
Proof.
  apply (stage_row_to_profile_line Scenario.header_start Scenario.initial 23 5 30 50 "R").
  - split; reflexivity.
  - lia.
  - lia.
  - lia.
  - lia.
  - reflexivity.
  - reflexivity.
Defined.

(** ** The spreadsheet extractor: the result it reports *)

Section SpreadsheetOutcome.

Import ExcelAnnotations.

Variable read_excel : string -> result (list row).
Variable float_of_string : string -> option pyfloat.
Variable timedelta_seconds : pyfloat -> result timedelta.

Let output (edf_path : PyPath.t) (suffix : string) : string :=
  PyPath.to_string (PyPath.child (PyPath.parent edf_path) (PyPath.stem edf_path ++ suffix)).



End SpreadsheetOutcome.


(** ** The standard converter: cutting the samples into records *)

Section RecordFacts.
Import StandardToEdfplus.
Variable sample : Type.

Lemma map_result_total {A B : Type} (f : A -> result B) (g : A -> B) xs :
  (forall x, In x xs -> f x = Ok (g x)) -> map_result f xs = Ok (map g xs).
Proof.
  induction xs as [|x xs IH]; intros H; simpl; [reflexivity|].
  rewrite (H x) by (now left). simpl. rewrite IH by (intros y Hy; apply H; now right).
  reflexivity.
Qed.

Lemma last_default (l : list sample) x y : l <> [] -> last l x = last l y.
Proof.
  induction l as [|a l IH]; intros H; [congruence|].
  destruct l as [|b l]; [reflexivity|].
  change (last (b :: l) x = last (b :: l) y). apply IH. discriminate.
Qed.

Lemma last_skipn (row : list sample) x : forall k,
  (k < List.length row)%nat -> last (skipn k row) x = last row x.
Proof.
  induction row as [|a row IH]; intros k Hk; simpl in Hk; [lia|].
  destruct k as [|k]; [reflexivity|].
  cbn [skipn]. rewrite IH by lia.
  destruct row; [simpl in Hk; lia|reflexivity].
Qed.

Lemma record_block_spec (row : list sample) n spr N r d :
  0 < spr -> Z.of_nat (List.length row) = n ->
  (N - 1) * spr < n <= N * spr ->
  0 <= r < N ->
  record_block sample row n spr N r
  = Ok (firstn (Z.to_nat spr)
          (skipn (Z.to_nat (r * spr))
                 (row ++ repeat (last row d) (Z.to_nat (N * spr - n)))%list)).
Proof.
  intros Hspr Hlen HN Hr.
  unfold record_block. cbv zeta. unfold slice.
  assert (H0 : 0 <= r * spr) by nia.
  assert (H1 : r = N - 1 \/ r * spr + spr <= (N - 1) * spr) by nia.
  assert (H2 : (r + 1) * spr = r * spr + spr) by ring.
  assert (H3 : N * spr = (N - 1) * spr + spr) by ring.
  assert (H4 : r = N - 1 -> r * spr = (N - 1) * spr) by (now intros ->).
  rewrite H2, H3 in *.
  set (a := r * spr) in *. set (b := (N - 1) * spr) in *.
  assert (Hne : row <> []) by (intros ->; simpl in Hlen; lia).
  rewrite skipn_app, firstn_app, !length_skipn.
  destruct (Z.eqb_spec r (N - 1)) as [Heq|Hneq].
  - specialize (H4 Heq).
    replace (Z.min (a + spr) n) with n by lia.
    rewrite length_firstn, length_skipn.
    replace (Z.to_nat (n - a)) with (List.length row - Z.to_nat a)%nat by lia.
    rewrite Nat.min_id.
    assert (Hf : firstn (List.length row - Z.to_nat a) (skipn (Z.to_nat a) row)
                 = skipn (Z.to_nat a) row).
    { apply firstn_all2. rewrite length_skipn. lia. }
    rewrite Hf.
    assert (Hf2 : firstn (Z.to_nat spr) (skipn (Z.to_nat a) row)
                  = skipn (Z.to_nat a) row).
    { apply firstn_all2. rewrite length_skipn. lia. }
    rewrite Hf2.
    replace (Z.to_nat a - List.length row)%nat with 0%nat by lia.
    cbn [skipn].
    destruct (Z.ltb_spec (Z.of_nat (List.length row - Z.to_nat a)) spr)
      as [Hlt|Hge]; cbn [andb].
    + unfold pad_edge.
      destruct (skipn (Z.to_nat a) row) as [|y ys] eqn:Es.
      { apply (f_equal (@List.length sample)) in Es. rewrite length_skipn in Es.
        simpl in Es. lia. }
      rewrite <- Es.
      rewrite (last_default _ y d) by (rewrite Es; discriminate).
      rewrite last_skipn by lia.
      f_equal. f_equal.
      rewrite firstn_all2; [f_equal; lia|]. rewrite repeat_length. lia.
    + replace (Z.to_nat spr - (List.length row - Z.to_nat a))%nat with 0%nat by lia.
      cbn [firstn]. now rewrite app_nil_r.
  - replace (Z.min (a + spr) n) with (a + spr) by lia.
    replace (Z.to_nat (a + spr - a)) with (Z.to_nat spr) by lia.
    destruct (r =? N - 1) eqn:E; [apply Z.eqb_eq in E; lia|].
    rewrite andb_false_r.
    replace (Z.to_nat spr - (List.length row - Z.to_nat a))%nat with 0%nat by lia.
    cbn [firstn]. now rewrite app_nil_r.
Qed.

Lemma ceiling_bounds n spr :
  0 < spr ->
  ((n + spr - 1) / spr - 1) * spr < n <= (n + spr - 1) / spr * spr.
Proof.
  intros H.
  pose proof (Z.mul_div_le (n + spr - 1) spr H).
  pose proof (Z.mul_succ_div_gt (n + spr - 1) spr H).
  nia.
Qed.

(** The blocks in closed form. *)
Lemma records_blocks ceil_quotient (data : list (list sample)) n spr d :
  0 < spr ->
  Forall (fun row => Z.of_nat (List.length row) = n) data ->
  ceil_quotient n spr = (n + spr - 1) / spr ->
  records sample ceil_quotient data n spr
  = Ok (map (fun r =>
               map (fun row =>
                      firstn (Z.to_nat spr)
                        (skipn (Z.to_nat (r * spr))
                           (row ++ repeat (last row d)
                                     (Z.to_nat ((n + spr - 1) / spr * spr - n)))%list))
                   data)
            (range ((n + spr - 1) / spr))).
Proof.
  intros Hspr Hrows Hceil. unfold records.
  destruct (Z.eqb_spec spr 0); [lia|]. cbv zeta. rewrite Hceil.
  apply map_result_total. intros r Hr. apply In_range in Hr.
  apply map_result_total. intros row Hrow.
  rewrite Forall_forall in Hrows.
  apply record_block_spec; auto. apply ceiling_bounds. exact Hspr.
Qed.

Lemma firstn_plus (l : list sample) a b :
  firstn (a + b) l = (firstn a l ++ firstn b (skipn a l))%list.
Proof.
  revert l. induction a as [|a IH]; intros l; [reflexivity|].
  destruct l as [|x l]; [now rewrite !firstn_nil|].
  simpl. now rewrite IH.
Qed.

(** Cutting a list in pieces of [s] and joining them gives it back. *)
Lemma concat_pieces (l : list sample) s : forall k,
  List.concat (map (fun r => firstn s (skipn (r * s) l)) (seq 0 k)) = firstn (k * s) l.
Proof.
  induction k as [|k IH]; [reflexivity|].
  rewrite seq_S, map_app, concat_app, IH. cbn [map List.concat Nat.add].
  rewrite app_nil_r.
  replace (S k * s)%nat with (k * s + s)%nat by lia.
  now rewrite firstn_plus.
Qed.

End RecordFacts.

(** Every record holds one block for each channel, and every block holds
    exactly [samples_per_record] samples, the last record included. *)
Theorem records_shape
        (sample : Type) (ceil_quotient : Z -> Z -> Z)
        (data : list (list sample)) (shape1 samples_per_record : Z) :
  0 < samples_per_record -> 0 <= shape1 ->
  Forall (fun row => Z.of_nat (List.length row) = shape1) data ->
  ceil_quotient shape1 samples_per_record
  = (shape1 + samples_per_record - 1) / samples_per_record ->
  exists blocks,
    StandardToEdfplus.records sample ceil_quotient data shape1 samples_per_record
    = Ok blocks /\
    Z.of_nat (List.length blocks)
    = (shape1 + samples_per_record - 1) / samples_per_record /\
    Forall (fun record =>
              List.length record = List.length data /\
              Forall (fun block => Z.of_nat (List.length block) = samples_per_record)
                     record) blocks.
Proof.
  intros Hspr Hn Hrows Hceil.
  pose proof (ceiling_bounds shape1 samples_per_record Hspr) as HN.
  set (N := (shape1 + samples_per_record - 1) / samples_per_record) in *.
  assert (HN0 : 0 <= N) by (apply Z.div_pos; lia).
  assert (Hcases : data = [] \/ shape1 = 0 \/ exists d : sample, 0 < shape1).
  { destruct data as [|[|x row0] data']; auto.
    - right. left. inversion Hrows; subst. simpl in *. lia.
    - right. right. exists x. inversion Hrows; subst. simpl in *. lia. }
  destruct Hcases as [->|[->|[d Hpos]]].
  - exists (map (fun _ => []) (range N)). split.
    + unfold StandardToEdfplus.records.
      destruct (Z.eqb_spec samples_per_record 0); [lia|].
      cbv zeta. rewrite Hceil. fold N. now apply map_result_total.
    + split.
      * unfold range. rewrite !length_map, length_seq. lia.
      * apply Forall_forall. intros rec Hrec. apply in_map_iff in Hrec.
        destruct Hrec as (r & <- & _). split; [reflexivity|constructor].
  - assert (N = 0) by nia.
    exists []. split.
    + unfold StandardToEdfplus.records.
      destruct (Z.eqb_spec samples_per_record 0); [lia|].
      cbv zeta. rewrite Hceil. fold N. rewrite H. reflexivity.
    + split; [simpl; lia|constructor].
  - eexists. split; [apply (records_blocks _ _ _ _ _ d); assumption|].
    fold N. split.
    + unfold range. rewrite !length_map, length_seq. lia.
    + apply Forall_forall. intros rec Hrec. apply in_map_iff in Hrec.
      destruct Hrec as (r & <- & Hr). apply In_range in Hr.
      split; [apply length_map|].
      apply Forall_forall. intros block Hb. apply in_map_iff in Hb.
      destruct Hb as (row & <- & Hrow).
      rewrite Forall_forall in Hrows. specialize (Hrows row Hrow).
      rewrite length_firstn, length_skipn, length_app, repeat_length.
      nia.
Qed.

(** No sample is lost or moved: the blocks of a channel, read back in
    record order, are the channel's samples followed by copies of its
    last sample up to the end of the last record. *)
Theorem records_keep_samples
        (sample : Type) (ceil_quotient : Z -> Z -> Z)
        (data : list (list sample)) (shape1 samples_per_record : Z)
        (blocks : list (list (list sample))) (ch_idx : nat) (row : list sample)
        (d : sample) :
  0 < samples_per_record -> 0 <= shape1 ->
  Forall (fun row => Z.of_nat (List.length row) = shape1) data ->
  ceil_quotient shape1 samples_per_record
  = (shape1 + samples_per_record - 1) / samples_per_record ->
  StandardToEdfplus.records sample ceil_quotient data shape1 samples_per_record
  = Ok blocks ->
  nth_error data ch_idx = Some row ->
  let n_records := (shape1 + samples_per_record - 1) / samples_per_record in
  List.concat (map (fun record => nth ch_idx record []) blocks)
  = (row ++ repeat (last row d)
                   (Z.to_nat (n_records * samples_per_record - shape1)))%list.
Proof.
  intros Hspr Hn Hrows Hceil Hrec Hrow N.
  pose proof (ceiling_bounds shape1 samples_per_record Hspr) as HN.
  fold N in HN.
  assert (HN0 : 0 <= N) by (apply Z.div_pos; lia).
  rewrite (records_blocks _ _ _ _ _ d Hspr Hrows Hceil) in Hrec.
  injection Hrec as <-. fold N.
  set (L := (row ++ repeat (last row d) (Z.to_nat (N * samples_per_record - shape1)))%list).
  rewrite map_map. unfold range. rewrite map_map.
  assert (Hlen : Z.of_nat (List.length row) = shape1).
  { rewrite Forall_forall in Hrows. apply Hrows. eapply nth_error_In; eauto. }
  rewrite (map_ext _ (fun r => firstn (Z.to_nat samples_per_record)
                                 (skipn (r * Z.to_nat samples_per_record) L))).
  - rewrite concat_pieces. apply firstn_all2.
    unfold L. rewrite length_app, repeat_length. nia.
  - intros r.
    erewrite nth_error_nth; [|rewrite nth_error_map, Hrow; reflexivity].
    fold L. f_equal. f_equal. nia.
Qed.

Lemma records_keep_samples_witness :
  List.concat
    (map (fun record => nth 1 record [])
         [[[1; 2]; [6; 7]]; [[3; 4]; [8; 9]]; [[5; 5]; [10; 10]]])
  = [6; 7; 8; 9; 10; 10].
Proof.
  apply (records_keep_samples Z (fun a b => (a + b - 1) / b)
           [[1; 2; 3; 4; 5]; [6; 7; 8; 9; 10]] 5 2
           [[[1; 2]; [6; 7]]; [[3; 4]; [8; 9]]; [[5; 5]; [10; 10]]] 1
           [6; 7; 8; 9; 10] 0).
  - lia.
  - lia.
  - repeat constructor.
  - reflexivity.
  - reflexivity.
  - reflexivity.
Defined.

Lemma records_shape_witness :
  exists blocks,
    StandardToEdfplus.records Z (fun a b => (a + b - 1) / b)
      [[1; 2; 3; 4; 5]; [6; 7; 8; 9; 10]] 5 2 = Ok blocks /\
    Z.of_nat (List.length blocks) = (5 + 2 - 1) / 2 /\
    Forall (fun record =>
              List.length record = 2%nat /\
              Forall (fun block => Z.of_nat (List.length block) = 2) record) blocks.
Proof.
  apply (records_shape Z (fun a b => (a + b - 1) / b)
           [[1; 2; 3; 4; 5]; [6; 7; 8; 9; 10]] 5 2).
  - lia.
  - lia.
  - repeat constructor.
  - reflexivity.
Defined.

(** ** The names of the output files *)

Section PathNames.

Import PyPath.

Let slash_free : string -> bool := PyStr.all_chars (fun x => negb (Ascii.eqb "/" x)).
Let ends_plain (a : string) : Prop :=
  exists a' c, a = a' ++ String c "" /\ Ascii.eqb "/" c = false.

Lemma rsplit_slash_none nm : slash_free nm = true -> rsplit_slash nm = None.
Proof.
  unfold slash_free.
  induction nm as [|c nm IH]; cbn [rsplit_slash PyStr.all_chars]; intros H; [reflexivity|].
  apply andb_true_iff in H. destruct H as [Hc Hn]. rewrite (IH Hn).
  apply negb_true_iff in Hc. rewrite Ascii.eqb_sym. now rewrite Hc.
Qed.

Lemma rsplit_slash_last h nm :
  slash_free nm = true -> rsplit_slash (h ++ String "/" nm) = Some (h, nm).
Proof.
  intros H. induction h as [|c h IH]; cbn [append rsplit_slash].
  - rewrite (rsplit_slash_none nm H). now rewrite Ascii.eqb_refl.
  - now rewrite IH.
Qed.

Lemma join_parts_snoc init x :
  init <> [] -> join_parts (init ++ [x]) = join_parts init ++ "/" ++ x.
Proof.
  induction init as [|a init IH]; intros H; [congruence|].
  destruct init as [|b init]; [reflexivity|].
  change (join_parts ((a :: b :: init) ++ [x]))
    with (a ++ "/" ++ join_parts ((b :: init) ++ [x])).
  rewrite IH by discriminate.
  change (join_parts (a :: b :: init)) with (a ++ "/" ++ join_parts (b :: init)).
  now rewrite !append_assoc_str.
Qed.

Lemma ends_plain_app r a : ends_plain a -> ends_plain (r ++ a).
Proof.
  intros (a' & c & -> & H). exists (r ++ a'), c. now rewrite append_assoc_str.
Qed.

Lemma ends_plain_part c : slash_free c = true -> c <> "" -> ends_plain c.
Proof.
  induction c as [|x c IH]; intros H Hne; [congruence|].
  unfold slash_free in H. cbn [PyStr.all_chars] in H.
  apply andb_true_iff in H. destruct H as [Hx Hc].
  destruct c as [|y c].
  - apply negb_true_iff in Hx. now exists "", x.
  - apply (ends_plain_app (String x "")). apply IH; [assumption|discriminate].
Qed.

Lemma ends_plain_join ps :
  ps <> [] -> Forall (fun c => slash_free c = true /\ c <> "") ps ->
  ends_plain (join_parts ps).
Proof.
  induction ps as [|a ps IH]; intros Hne H; [congruence|].
  inversion H as [|? ? [Ha Ha'] Hps]; subst.
  destruct ps as [|b ps]; [now apply ends_plain_part|].
  change (join_parts (a :: b :: ps)) with (a ++ "/" ++ join_parts (b :: ps)).
  apply ends_plain_app. apply (ends_plain_app "/"). apply IH; [discriminate|assumption].
Qed.

Lemma ends_plain_facts a :
  ends_plain a ->
  a <> "" /\
  all_slashes (a ++ "/") = false /\
  rstrip_slashes (a ++ "/") = a /\
  PyStr.startswith "/" (PyStr.drop (String.length a - 1) a) = false.
Proof.
  intros (a' & c & -> & Hc). repeat split.
  - destruct a'; discriminate.
  - induction a' as [|x a' IH]; cbn [append all_slashes].
    + rewrite Ascii.eqb_sym, Hc. reflexivity.
    + cbn [append] in IH. rewrite IH. apply andb_false_r.
  - induction a' as [|x a' IH]; cbn [append rstrip_slashes].
    + rewrite Ascii.eqb_refl, Ascii.eqb_sym, Hc. reflexivity.
    + cbn [append] in IH. rewrite IH. destruct a'; reflexivity.
  - rewrite length_append_str. cbn [String.length].
    replace (String.length a' + 1 - 1)%nat with (String.length a') by lia.
    rewrite drop_app_exact. cbn [PyStr.startswith]. now rewrite Hc.
Qed.

(** The parts of a parsed path are non-empty and free of slashes. *)
Lemma before_slash_free s : slash_free (PyStr.before "/" s) = true.
Proof.
  unfold slash_free.
  induction s as [|x s IH]; cbn [PyStr.before PyStr.all_chars]; [reflexivity|].
  destruct (Ascii.eqb "/" x) eqn:E; [reflexivity|].
  cbn [PyStr.all_chars]. now rewrite E.
Qed.

Lemma after_shorter c s r :
  PyStr.after c s = Some r -> (String.length r < String.length s)%nat.
Proof.
  revert r. induction s as [|x s IH]; cbn [PyStr.after String.length]; intros r H;
    [discriminate|].
  destruct (Ascii.eqb c x).
  - injection H as <-. lia.
  - specialize (IH r H). lia.
Qed.

Lemma split_slash_free s : Forall (fun c => slash_free c = true) (PyStr.split "/" s).
Proof.
  remember (String.length s) as n eqn:Hn. revert s Hn.
  induction n as [n IH] using lt_wf_ind. intros s ->.
  rewrite (split_char "/"). constructor; [apply before_slash_free|].
  destruct (PyStr.after "/" s) as [r|] eqn:E; [|constructor].
  apply (IH (String.length r)); [now apply (after_shorter "/")|reflexivity].
Qed.

Lemma of_string_parts s :
  Forall (fun c => slash_free c = true /\ c <> "") (parts (of_string s)).
Proof.
  unfold of_string. cbn [parts].
  apply Forall_forall. intros c Hc. apply filter_In in Hc. destruct Hc as [Hin Hk].
  pose proof (split_slash_free s) as H. rewrite Forall_forall in H.
  split; [now apply H|].
  intros ->. discriminate Hk.
Qed.

Lemma of_string_root s :
  root (of_string s) = "" \/ root (of_string s) = "/" \/ root (of_string s) = "//".
Proof.
  unfold of_string. cbn [root].
  destruct (leading_slashes s) as [|[|[|k]]]; auto.
Qed.

Lemma to_string_parts r ps : ps <> [] -> to_string (mk r ps) = r ++ join_parts ps.
Proof.
  intros H. unfold to_string. cbn [root parts].
  destruct r; [|reflexivity]. destruct ps; [congruence|reflexivity].
Qed.

(** [os.path] takes the path text apart as [pathlib] does. *)
Lemma text_of_child p x :
  (root p = "" \/ root p = "/" \/ root p = "//") ->
  Forall (fun c => slash_free c = true /\ c <> "") (parts p) ->
  parts p <> [] ->
  basename (to_string p) = name p /\
  join (dirname (to_string p)) x = to_string (child (parent p) x).
Proof.
  destruct p as [r ps]. cbn [root parts]. intros Hroot Hparts Hne.
  destruct (exists_last Hne) as (init & nm & ->).
  apply Forall_app in Hparts. destruct Hparts as [Hinit Hnm].
  inversion Hnm as [|? ? [Hfree Hnonempty] _]; subst.
  unfold name, parent, child. cbn [root parts].
  rewrite last_last, removelast_last.
  rewrite !to_string_parts by (intros E; now apply app_eq_nil in E).
  destruct init as [|i0 init'].
  - (* the file stands directly under the root or the working directory *)
    cbn [app join_parts].
    destruct Hroot as [->|[->| ->]]; unfold basename, dirname.
    + cbn [append]. rewrite (rsplit_slash_none nm Hfree). split; reflexivity.
    + change ("/" ++ nm) with ("" ++ String "/" nm).
      rewrite (rsplit_slash_last "" nm Hfree). split; reflexivity.
    + change ("//" ++ nm) with ("/" ++ String "/" nm).
      rewrite (rsplit_slash_last "/" nm Hfree). split; reflexivity.
  - set (init := i0 :: init') in *.
    assert (Hi : init <> []) by discriminate.
    rewrite !join_parts_snoc by assumption.
    rewrite <- !(append_assoc_str r (join_parts init)).
    change ((r ++ join_parts init) ++ "/" ++ nm)
      with ((r ++ join_parts init) ++ String "/" nm).
    unfold basename, dirname.
    rewrite (rsplit_slash_last _ nm Hfree).
    split; [reflexivity|].
    assert (He : ends_plain (r ++ join_parts init))
      by (apply ends_plain_app, ends_plain_join; assumption).
    destruct (ends_plain_facts _ He) as (Hne' & Hall & Hstrip & Hlast).
    rewrite Hall, Hstrip. unfold join. rewrite Hlast.
    destruct (String.eqb_spec (r ++ join_parts init) ""); [contradiction|].
    reflexivity.
Qed.

(** Where the name has a plain extension, [os.path.splitext] and
    [pathlib]'s [stem] agree. *)
Lemma rfind_dot_none e : PyStr.contains "." e = false -> rfind_dot e = None.
Proof.
  induction e as [|c e IH]; cbn [rfind_dot PyStr.contains PyStr.startswith]; intros H;
    [reflexivity|].
  apply orb_false_iff in H. destruct H as [Hc He]. rewrite (IH He).
  rewrite andb_true_r in Hc. rewrite Ascii.eqb_sym. now rewrite Hc.
Qed.

Lemma rfind_dot_last b e :
  PyStr.contains "." e = false -> rfind_dot (b ++ String "." e) = Some (String.length b).
Proof.
  intros H. induction b as [|c b IH]; cbn [append rfind_dot String.length].
  - rewrite (rfind_dot_none e H). now rewrite Ascii.eqb_refl.
  - now rewrite IH.
Qed.

Lemma stem_of_plain_name p b e :
  name p = b ++ "." ++ e ->
  all_dots b = false -> e <> "" -> PyStr.contains "." e = false ->
  stem p = b /\ splitext_root (name p) = b.
Proof.
  intros Hn Hb He Hdot.
  unfold stem, suffix_index, splitext_root. rewrite Hn.
  change (b ++ "." ++ e) with (b ++ String "." e).
  rewrite (rfind_dot_last b e Hdot).
  rewrite take_app_exact, Hb.
  assert (H1 : Nat.ltb 0 (String.length b) = true).
  { apply Nat.ltb_lt. destruct b; [discriminate|simpl; lia]. }
  assert (H2 : Nat.ltb (S (String.length b)) (String.length (b ++ String "." e)) = true).
  { apply Nat.ltb_lt. rewrite length_append_str. simpl.
    destruct e; [congruence|simpl; lia]. }
  rewrite H1, H2. cbn [andb]. now rewrite take_app_exact.
Qed.

End PathNames.

(** For a recording whose name ends in a plain extension, the three
    files the dispatcher lists for the embedded route are the files the
    extractor announces as created, whatever the directory. *)
Theorem dispatcher_lists_extractor_files
        (EdfReader : string -> result Pyedflib.reader)
        (path base ext : string) (st st' : state) :
  let edf_path := PyPath.of_string path in
  PyPath.name edf_path = base ++ "." ++ ext ->
  PyPath.all_dots base = false ->
  ext <> "" ->
  PyStr.contains "." ext = false ->
  EdfAnnotations.convert_body EdfReader (PyPath.to_string edf_path) st = (Ok tt, st') ->
  forall f, In f (AutoConvert.text_outputs edf_path) -> In ("Created: " ++ f) (stdout st').
Proof.
  intros p Hname Hbase Hext Hdot Hrun f Hf.
  assert (Hne : PyPath.parts p <> []).
  { intros E. unfold PyPath.name in Hname. rewrite E in Hname.
    destruct base; discriminate Hname. }
  assert (Hnames : forall x,
             PyPath.join (PyPath.dirname (PyPath.to_string p))
                         (PyPath.splitext_root (PyPath.basename (PyPath.to_string p)) ++ x)
             = PyPath.to_string (PyPath.child (PyPath.parent p) (PyPath.stem p ++ x))).
  { intros x.
    destruct (text_of_child p (PyPath.stem p ++ x) (of_string_root path)
                (of_string_parts path) Hne) as [Hb Hj].
    destruct (stem_of_plain_name p base ext Hname Hbase Hext Hdot) as [Hs1 Hs2].
    rewrite Hb, Hs2, <- Hs1. exact Hj. }
  unfold EdfAnnotations.convert_body, EdfAnnotations.open_reader in Hrun.
  unfold EdfAnnotations.write_sleep_profile, EdfAnnotations.write_arousals,
    EdfAnnotations.write_flow_events in Hrun.
  rewrite !Hnames in Hrun.
  unfold mbind, get_disk, lift, write_file, print in Hrun.
  destruct (bind (Disk.read (disk st) (PyPath.to_string p)) EdfReader) as [r|];
    [|discriminate].
  destruct (Pyedflib.readAnnotations r); [|discriminate].
  destruct (EdfAnnotations.categorize _ _) as [cats|]; [|discriminate].
  destruct (EdfAnnotations.sleep_stages cats);
    cbn [disk stdout launched] in Hrun;
    (destruct (Disk.write _ _ _); [|discriminate]); cbn [disk stdout launched] in Hrun;
    (destruct (Disk.write _ _ _); [|discriminate]); cbn [disk stdout launched] in Hrun;
    (destruct (Disk.write _ _ _); [|discriminate]); cbn [disk stdout launched] in Hrun;
    injection Hrun as <-; cbn [stdout];
    unfold AutoConvert.text_outputs in Hf; cbv zeta in Hf;
    rewrite !in_app_iff; cbn [In] in *;
    destruct Hf as [<-|[<-|[<-|[]]]]; tauto.
Qed.

Lemma dispatcher_lists_extractor_files_witness :
  In ("Created: " ++ "data/a Classification Arousals.txt")
     (stdout (snd (EdfAnnotations.convert_body Scenario.annotated_reader "data/a.edf"
                     Scenario.initial))).
Proof.
  apply (dispatcher_lists_extractor_files Scenario.annotated_reader "data//a.edf" "a" "edf"
           Scenario.initial).
  - reflexivity.
  - reflexivity.
  - discriminate.
  - reflexivity.
  - vm_compute. reflexivity.
  - right. left. reflexivity.
Defined.

(** ** The spreadsheet extractor: looking for the spreadsheet *)



(** ** The spreadsheet extractor: reading an arousal row *)

Section Splitting.

(** The first piece of a split with [f] put before it. *)
Let prepend (f : string) (l : list string) : list string :=
  match l with
  | x :: xs => (f ++ x) :: xs
  | [] => [f]
  end.

Lemma prepend_prepend a b l : prepend a (prepend b l) = prepend (a ++ b) l.
Proof.
  destruct l as [|x xs]; unfold prepend; [reflexivity|].
  now rewrite append_assoc_str.
Qed.

Lemma split_aux_nonempty sep : forall fuel cur s, PyStr.split_aux fuel sep cur s <> [].
Proof.
  induction fuel as [|fuel IH]; intros cur s; cbn [PyStr.split_aux]; [discriminate|].
  destruct s as [|c s]; [discriminate|].
  destruct (PyStr.startswith sep (String c s)); [discriminate|apply IH].
Qed.

Lemma prepend_empty l : l <> [] -> prepend "" l = l.
Proof. destruct l; [congruence|reflexivity]. Qed.

Lemma drop_length n s : (String.length (PyStr.drop n s) <= String.length s)%nat.
Proof.
  revert s. induction n as [|n IH]; intros s; [simpl; lia|].
  destruct s as [|c s]; [simpl; lia|]. cbn [PyStr.drop String.length].
  specialize (IH s). lia.
Qed.

(** With enough fuel, the pieces do not depend on the fuel, and the text
    gathered so far is put before the first piece. *)
Lemma split_aux_cur c0 sep' : forall fuel s cur,
  (String.length s <= fuel)%nat ->
  PyStr.split_aux fuel (String c0 sep') cur s
  = prepend cur (PyStr.split (String c0 sep') s).
Proof.
  set (sep := String c0 sep').
  induction fuel as [fuel IH] using lt_wf_ind. intros s cur Hf.
  unfold PyStr.split.
  destruct s as [|c s].
  - destruct fuel; cbn [PyStr.split_aux String.length prepend append];
      now rewrite ?append_empty_r.
  - destruct fuel as [|fuel]; [simpl in Hf; lia|].
    cbn [String.length] in *. cbn [PyStr.split_aux].
    destruct (PyStr.startswith sep (String c s)) eqn:E.
    + cbn [prepend]. rewrite append_empty_r. f_equal.
      assert (Hd : (String.length (PyStr.drop (String.length sep) (String c s))
                    <= String.length s)%nat).
      { unfold sep. cbn [String.length PyStr.drop]. apply drop_length. }
      rewrite (IH fuel) by lia.
      rewrite (IH (String.length s)) by lia.
      reflexivity.
    + rewrite (IH fuel) by lia.
      rewrite (IH (String.length s) ltac:(lia) s ("" ++ String c "")) by lia.
      now rewrite prepend_prepend.
Qed.

Lemma split_miss c0 sep' c s :
  PyStr.startswith (String c0 sep') (String c s) = false ->
  PyStr.split (String c0 sep') (String c s)
  = prepend (String c "") (PyStr.split (String c0 sep') s).
Proof.
  intros H. unfold PyStr.split at 1. cbn [String.length PyStr.split_aux].
  rewrite H. now rewrite split_aux_cur.
Qed.

Lemma split_hit c0 sep' s :
  PyStr.startswith (String c0 sep') s = true ->
  PyStr.split (String c0 sep') s
  = "" :: PyStr.split (String c0 sep') (PyStr.drop (String.length (String c0 sep')) s).
Proof.
  intros H. destruct s as [|c s]; [discriminate|].
  unfold PyStr.split at 1. cbn [String.length PyStr.split_aux].
  rewrite H. f_equal.
  rewrite split_aux_cur by (cbn [PyStr.drop]; apply drop_length).
  apply prepend_empty. apply split_aux_nonempty.
Qed.

Lemma split_skip c0 sep' f rest :
  PyStr.all_chars (fun x => negb (Ascii.eqb c0 x)) f = true ->
  PyStr.split (String c0 sep') (f ++ rest)
  = prepend f (PyStr.split (String c0 sep') rest).
Proof.
  induction f as [|c f IH]; cbn [append PyStr.all_chars]; intros H.
  - symmetry. apply prepend_empty. apply split_aux_nonempty.
  - apply andb_true_iff in H. destruct H as [Hc Hf]. apply negb_true_iff in Hc.
    rewrite split_miss by (cbn [PyStr.startswith]; now rewrite Hc).
    rewrite (IH Hf). now rewrite prepend_prepend.
Qed.

Lemma split_absent c0 sep' s :
  PyStr.contains (String c0 sep') s = false ->
  PyStr.split (String c0 sep') s = [s].
Proof.
  induction s as [|c s IH]; intros H; [reflexivity|].
  assert (Hs : PyStr.startswith (String c0 sep') (String c s) = false).
  { cbn [PyStr.contains] in H. apply orb_false_iff in H. tauto. }
  assert (Hc : PyStr.contains (String c0 sep') s = false).
  { cbn [PyStr.contains] in H. apply orb_false_iff in H. tauto. }
  rewrite (split_miss _ _ _ _ Hs), (IH Hc). reflexivity.
Qed.

Lemma contains_skip c0 sep' f rest :
  PyStr.all_chars (fun x => negb (Ascii.eqb c0 x)) f = true ->
  PyStr.contains (String c0 sep') (f ++ rest) = PyStr.contains (String c0 sep') rest.
Proof.
  induction f as [|c f IH]; cbn [append PyStr.all_chars]; intros H; [reflexivity|].
  apply andb_true_iff in H. destruct H as [Hc Hf]. apply negb_true_iff in Hc.
  cbn [PyStr.contains PyStr.startswith]. rewrite Hc. cbn [andb orb]. auto.
Qed.

Lemma contains_here c0 sep' s rest :
  PyStr.startswith (String c0 sep') (s ++ rest) = true ->
  PyStr.contains (String c0 sep') (s ++ rest) = true.
Proof.
  intros H. destruct (s ++ rest); [discriminate|].
  cbn [PyStr.contains]. now rewrite H.
Qed.


Lemma contains_start sep s :
  PyStr.startswith sep s = true -> PyStr.contains sep s = true.
Proof. intros H. destruct s; cbn [PyStr.contains]; now rewrite H. Qed.

Lemma all_chars_impl (p q : ascii -> bool) s :
  (forall c, p c = true -> q c = true) ->
  PyStr.all_chars p s = true -> PyStr.all_chars q s = true.
Proof.
  intros Hpq. induction s as [|c s IH]; cbn [PyStr.all_chars]; [reflexivity|].
  intros H. apply andb_true_iff in H. destruct H as [Hc Hs].
  now rewrite (Hpq c Hc), (IH Hs).
Qed.

(** A character of a decimal number is none of those the texts are cut
    at, and it is not white space. *)
Lemma number_char_facts c :
  PyStr.is_digit c || Ascii.eqb c "." = true ->
  Ascii.eqb "D" c = false /\ Ascii.eqb "s" c = false /\ Ascii.eqb " " c = false /\
  Ascii.eqb "-" c = false /\ PyStr.is_space c = false.
Proof.
  destruct c as [b0 b1 b2 b3 b4 b5 b6 b7].
  destruct b0, b1, b2, b3, b4, b5, b6, b7; intros H;
    solve [discriminate H | repeat split; reflexivity].
Qed.

Lemma rstrip_padded num :
  PyStr.all_chars (fun c => negb (PyStr.is_space c)) num = true ->
  PyStr.rstrip (num ++ " ") = num.
Proof.
  induction num as [|c num IH]; cbn [append PyStr.all_chars]; intros H; [reflexivity|].
  apply andb_true_iff in H. destruct H as [Hc Hn]. apply negb_true_iff in Hc.
  cbn [PyStr.rstrip]. rewrite (IH Hn), Hc. now destruct num.
Qed.

Lemma strip_padded num :
  PyStr.all_chars (fun c => negb (PyStr.is_space c)) num = true ->
  PyStr.strip (" " ++ num ++ " ") = num.
Proof.
  intros H. unfold PyStr.strip.
  change (PyStr.lstrip (" " ++ num ++ " ")) with (PyStr.lstrip (num ++ " ")).
  destruct num as [|c num]; [reflexivity|].
  assert (Hc : PyStr.is_space c = false).
  { cbn [PyStr.all_chars] in H. apply andb_true_iff in H.
    destruct H as [Hc _]. now apply negb_true_iff in Hc. }
  cbn [append PyStr.lstrip]. rewrite Hc.
  now apply (rstrip_padded (String c num)).
Qed.

Section ArousalText.

Import ExcelAnnotations.

Variable float_of_string : string -> option pyfloat.
Variables num ty : string.

Hypothesis Hnum :
  PyStr.all_chars (fun c => PyStr.is_digit c || Ascii.eqb c ".") num = true.

Lemma num_free c0 :
  (forall c, PyStr.is_digit c || Ascii.eqb c "." = true -> Ascii.eqb c0 c = false) ->
  PyStr.all_chars (fun x => negb (Ascii.eqb c0 x)) num = true.
Proof.
  intros H. apply (all_chars_impl _ _ _ (fun c Hc => proj2 (negb_true_iff _) (H c Hc)) Hnum).
Qed.

Lemma duration_of_text :
  PyStr.contains "Dur:" ty = false ->
  duration_of float_of_string ("Arousal - Dur: " ++ num ++ " sec. - " ++ ty)
  = match float_of_string num with Some x => x | None => zero end.
Proof.
  intros Hty. unfold duration_of.
  set (R := " " ++ num ++ " sec. - " ++ ty).
  change ("Arousal - Dur: " ++ num ++ " sec. - " ++ ty) with ("Arousal - " ++ "Dur:" ++ R).
  assert (HD : PyStr.all_chars (fun x => negb (Ascii.eqb "D" x)) num = true)
    by (apply num_free; intros c Hc; apply (number_char_facts c Hc)).
  assert (Hs : PyStr.all_chars (fun x => negb (Ascii.eqb "s" x)) num = true)
    by (apply num_free; intros c Hc; apply (number_char_facts c Hc)).
  assert (Hsp : PyStr.all_chars (fun c => negb (PyStr.is_space c)) num = true).
  { apply (all_chars_impl _ _ _ (fun c Hc => proj2 (negb_true_iff _)
                                    (proj2 (proj2 (proj2 (proj2 (number_char_facts c Hc))))))
                          Hnum). }
  rewrite (contains_skip "D" "ur:" "Arousal - ") by reflexivity.
  rewrite (contains_start "Dur:" ("Dur:" ++ R)) by reflexivity.
  rewrite (split_skip "D" "ur:" "Arousal - ") by reflexivity.
  rewrite (split_hit "D" "ur:" ("Dur:" ++ R)) by reflexivity.
  change (PyStr.drop (String.length "Dur:") ("Dur:" ++ R)) with R.
  assert (HR : PyStr.contains "Dur:" R = false).
  { unfold R. change (" " ++ num ++ " sec. - " ++ ty) with (" " ++ (num ++ " sec. - " ++ ty)).
    rewrite (contains_skip "D" "ur:" " ") by reflexivity.
    rewrite (contains_skip "D" "ur:" num) by assumption.
    rewrite (contains_skip "D" "ur:" " sec. - ") by reflexivity.
    exact Hty. }
  rewrite (split_absent "D" "ur:" R HR).
  cbn [prepend nth_error].
  assert (HR2 : R = (" " ++ num ++ " ") ++ "sec." ++ " - " ++ ty).
  { unfold R. cbn [append]. f_equal. now rewrite append_assoc_str. }
  rewrite HR2.
  rewrite (split_skip "s" "ec." (" " ++ num ++ " ")).
  2:{ change (" " ++ num ++ " ") with (" " ++ (num ++ " ")).
      rewrite !all_chars_app. rewrite Hs. reflexivity. }
  rewrite (split_hit "s" "ec." ("sec." ++ " - " ++ ty)) by reflexivity.
  cbn [prepend hd]. rewrite append_empty_r.
  now rewrite (strip_padded num Hsp).
Qed.

Lemma arousal_type_text :
  PyStr.contains " - " ty = false ->
  arousal_type ("Arousal - Dur: " ++ num ++ " sec. - " ++ ty) = PyStr.strip ty.
Proof.
  intros Hty. unfold arousal_type.
  assert (Hsp : PyStr.all_chars (fun x => negb (Ascii.eqb " " x)) num = true)
    by (apply num_free; intros c Hc; apply (number_char_facts c Hc)).
  change ("Arousal - Dur: " ++ num ++ " sec. - " ++ ty)
    with ("Arousal" ++ " - " ++ "Dur:" ++ " " ++ num ++ " sec. - " ++ ty).
  rewrite (contains_skip " " "- " "Arousal") by reflexivity.
  rewrite (contains_start " - " (" - " ++ _)) by reflexivity.
  rewrite (split_skip " " "- " "Arousal") by reflexivity.
  rewrite (split_hit " " "- " (" - " ++ _)) by reflexivity.
  change (PyStr.drop (String.length " - ") (" - " ++ ?x)) with x.
  rewrite (split_skip " " "- " "Dur:") by reflexivity.
  assert (Hmiss : PyStr.startswith " - " (" " ++ num ++ " sec. - " ++ ty) = false).
  { destruct num as [|c n]; [reflexivity|].
    cbn [PyStr.all_chars] in Hnum. apply andb_true_iff in Hnum.
    destruct Hnum as [Hc _].
    destruct (number_char_facts c Hc) as (_ & _ & _ & Hm & _).
    cbn [append PyStr.startswith]. rewrite Hm. reflexivity. }
  change (" " ++ num ++ " sec. - " ++ ty) with (String " " (num ++ " sec. - " ++ ty)) in *.
  rewrite (split_miss " " "- " _ _ Hmiss).
  rewrite (split_skip " " "- " num) by assumption.
  change (" sec. - " ++ ty) with (String " " ("sec." ++ " - " ++ ty)).
  rewrite (split_miss " " "- " " " ("sec." ++ " - " ++ ty)) by reflexivity.
  rewrite (split_skip " " "- " "sec.") by reflexivity.
  rewrite (split_hit " " "- " (" - " ++ ty)) by reflexivity.
  change (PyStr.drop (String.length " - ") (" - " ++ ty)) with ty.
  rewrite (split_absent " " "- " ty Hty).
  cbn [prepend List.length Nat.leb last]. reflexivity.
Qed.

End ArousalText.

End Splitting.

Section ArousalRows.

Import ExcelAnnotations.

Lemma parse_timestamp_stamp edf_start_time st h mi s cs :
  valid edf_start_time ->
  0 <= h <= 23 -> 0 <= mi <= 59 -> 0 <= s <= 59 -> 0 <= cs <= 99 ->
  parse_timestamp (PyStr.pad2 h ++ ":" ++ PyStr.pad2 mi ++ ":" ++ PyStr.pad2 s ++ "." ++
                   PyStr.pad2 cs) edf_start_time st
  = (Ok (mkDatetime (year edf_start_time) (month edf_start_time) (day edf_start_time)
                    h mi s (cs * 10000)), st).
Proof.
  intros [Hdate _] Hh Hmi Hs Hcs.
  apply parse_timestamp_ok. unfold parse_timestamp_try.
  assert (Hf := parse_fields_formatted h mi s cs "").
  rewrite append_empty_r in Hf. rewrite Hf by lia. cbn [bind].
  unfold make. rewrite Hdate.
  assert (Ht : check_time_fields h mi s (cs * 10000) = true).
  { unfold check_time_fields. rewrite !andb_true_iff, !Z.leb_le. lia. }
  rewrite Ht. reflexivity.
Qed.

End ArousalRows.

(** A spreadsheet row [HH:MM:SS.cc | Arousal - Dur: <number> sec. - <type>]
    becomes one arousal: it starts at that time of day, its duration is
    the number read as a float, or 0.0 when it does not read as one, it
    ends that much later, and its type is the text after the last dash
    without the white space around it. *)
Theorem arousal_row_reading
        (float_of_string : string -> option ExcelAnnotations.pyfloat)
        (timedelta_seconds : ExcelAnnotations.pyfloat -> result timedelta)
        (edf_start_time : datetime) (st : state) (h mi s cs : Z) (num ty : string)
        (delta : timedelta) (end_time : datetime) :
  let onset := mkDatetime (year edf_start_time) (month edf_start_time) (day edf_start_time)
                          h mi s (cs * 10000) in
  let duration := match float_of_string num with
                  | Some x => x
                  | None => ExcelAnnotations.zero
                  end in
  valid edf_start_time ->
  0 <= h <= 23 -> 0 <= mi <= 59 -> 0 <= s <= 59 -> 0 <= cs <= 99 ->
  PyStr.all_chars (fun c => PyStr.is_digit c || Ascii.eqb c ".") num = true ->
  PyStr.contains "Dur:" ty = false ->
  PyStr.contains " - " ty = false ->
  timedelta_seconds duration = Ok delta ->
  add onset delta = Some end_time ->
  ExcelAnnotations.extract_arousals float_of_string timedelta_seconds
    [ExcelAnnotations.mkRow
       (PyStr.pad2 h ++ ":" ++ PyStr.pad2 mi ++ ":" ++ PyStr.pad2 s ++ "." ++ PyStr.pad2 cs)
       ("Arousal - Dur: " ++ num ++ " sec. - " ++ ty)]
    edf_start_time st
  = (Ok [ExcelAnnotations.mkImpulse onset end_time duration (PyStr.strip ty)], st).
Proof.
  intros onset duration Hv Hh Hmi Hs Hcs Hnum Hdur Hdash Hdelta Hend.
  unfold ExcelAnnotations.extract_arousals.
  assert (Hrow : forall ts, ExcelAnnotations.is_arousal_row
                   (ExcelAnnotations.mkRow ts ("Arousal - Dur: " ++ num ++ " sec. - " ++ ty))
                 = true) by reflexivity.
  cbn [filter]. rewrite Hrow.
  cbn [ExcelAnnotations.extract_impulses ExcelAnnotations.timestamp_str
       ExcelAnnotations.event_description].
  unfold mbind. rewrite parse_timestamp_stamp by assumption. fold onset.
  pose proof (duration_of_text float_of_string num ty Hnum Hdur) as Hd.
  pose proof (arousal_type_text num ty Hnum Hdash) as Ht.
  cbv zeta in Hd, Ht. rewrite Hd, Ht. fold duration.
  unfold lift. rewrite Hdelta, Hend. reflexivity.
Qed.

Lemma arousal_row_reading_witness :
  ExcelAnnotations.extract_arousals
    (fun _ => Some (ExcelAnnotations.Finite false 5516870353492378 (-48)))
    (fun _ => Ok 19600000%Z)
    [ExcelAnnotations.mkRow "22:00:35.00" "Arousal - Dur: 19.6 sec. - RERA"]
    Scenario.header_start Scenario.initial
  = (Ok [Scenario.rera], Scenario.initial).
Proof.
  apply (arousal_row_reading
           (fun _ => Some (ExcelAnnotations.Finite false 5516870353492378 (-48)))
           (fun _ => Ok 19600000%Z)
           Scenario.header_start Scenario.initial 22 0 35 0 "19.6" "RERA"
           19600000%Z (mkDatetime 2024 1 1 22 0 54 600000)).
  - split; reflexivity.
  - lia.
  - lia.
  - lia.
  - lia.
  - reflexivity.
  - reflexivity.
  - reflexivity.
  - reflexivity.
  - reflexivity.
Defined.
